(** * Micro-Manager device adapters: AcquireCamera and ASIBase

    A shallow embedding of
    - [DeviceAdapters/Acquire/AcquireCamera.cpp]: the dual-stream camera
      adapter (initialization and shutdown, buffer set-up, mode switching,
      image accessors, exposure, polling reads, snap, log callback), and
    - [DeviceAdapters/ASITiger/ASIBase.h]: the generic ASI device base
      (constructor, error texts, name property, [GetName], [Shutdown]),
    followed by the properties proved about them.

    Conventions.  Unsigned C++ integers are [Z] with the wrap-around written
    out ([to_uint32], [to_size_t]).  Pixel memory is a [list byte].  The
    property collection of a device is a [gmap string string].  A C++
    [double] or [float] is a [spec_float], with the IEEE 754 operations of
    binary64 and binary32 and the conversions between them.  The camera
    code is sequential and stateful: it is written in a small state monad
    whose outcomes also cover a C++ exception, undefined behaviour (an access
    outside a vector or a pixel buffer) and a polling loop that is still
    waiting for a frame when its budget of iterations ends. *)

From Stdlib Require Import ZArith Lia.
From Stdlib.Strings Require Import Byte Ascii String.
From Stdlib Require Import DecimalString.
From Stdlib.Floats Require Import SpecFloat.
From stdpp Require Import gmap strings list.

Local Open Scope Z_scope.

(** ** Machine integers *)

Definition to_uint32 (z : Z) : Z := z mod 2 ^ 32.
Definition to_size_t (z : Z) : Z := z mod 2 ^ 64.

(** ** IEEE 754 arithmetic

    [double] is binary64 (53 bits of precision, exponents below 1024) and
    [float] is binary32 (24 bits, exponents below 128); both are rounded to
    nearest, ties to even. *)

Definition f64_mul : spec_float -> spec_float -> spec_float := SFmul 53 1024.
Definition f64_div : spec_float -> spec_float -> spec_float := SFdiv 53 1024.

(** An integer as a [double]. *)
Definition f64_of_Z (z : Z) : spec_float := binary_normalize 53 1024 z 0 false.

(** The conversion [(float)x] of a [double]. *)
Definition f32_of_f64 (x : spec_float) : spec_float :=
  match x with
  | S754_finite s m e => binary_normalize 24 128 (cond_Zopp s (Zpos m)) e s
  | _ => x
  end.

(** The promotion of a [float] to [double]. *)
Definition f64_of_f32 (x : spec_float) : spec_float :=
  match x with
  | S754_finite s m e => binary_normalize 53 1024 (cond_Zopp s (Zpos m)) e s
  | _ => x
  end.

(** [m1 * 2^e1 = m2 * 2^e2], as numbers. *)
Definition same_value (m1 e1 m2 e2 : Z) : bool :=
  let lo := Z.min e1 e2 in
  m1 * 2 ^ (e1 - lo) =? m2 * 2 ^ (e2 - lo).

(** ** Names and codes declared in headers

    [MMDeviceConstants.h] and [AcquireCamera.h] are not part of the two
    files embedded here.  Keyword strings are written as the host defines
    them; integer return codes stay symbolic, only their being distinct
    matters. *)

Module MM.
Definition g_Keyword_Name : string := "Name".
Definition g_Keyword_Description : string := "Description".
Definition g_Keyword_CameraName : string := "CameraName".
Definition g_Keyword_CameraID : string := "CameraID".
Definition g_Keyword_Binning : string := "Binning".

Inductive ActionType := NoAction | BeforeGet | AfterSet | IsSequenceable
  | AfterLoadSequence | StartSequence | StopSequence.
End MM.

Inductive CpxStatusCode := CpxStatus_Ok | CpxStatus_Error.

Inductive DeviceCode :=
| DEVICE_OK
| DEVICE_NONEXISTENT_CHANNEL
| ERR_CPX_INIT
| ERR_CPX_CONFIURE_FAILED
| DEVICE_CPX_STATUS (ret : CpxStatusCode).

#[global] Instance CpxStatusCode_eq_dec : EqDecision CpxStatusCode.
Proof. solve_decision. Defined.
#[global] Instance DeviceCode_eq_dec : EqDecision DeviceCode.
Proof. solve_decision. Defined.
#[global] Instance ActionType_eq_dec : EqDecision MM.ActionType.
Proof. solve_decision. Defined.

Definition cameraName : string := "AcquireCamera".
Definition DEMO_IMAGE_WIDTH : Z := 640.
Definition DEMO_IMAGE_HEIGHT : Z := 480.

(** Modelled from the spec: the property names and the two legal values of
    the mode property, which [AcquireCamera.h] declares ("mode" string-valued
    property with exactly two legal values "Multi"/"Single"). *)
Definition g_prop_Demo : string := "Demo".
Definition g_prop_Mode : string := "Mode".
Definition g_prop_Mode_Multi : string := "Multi".
Definition g_prop_Mode_Single : string := "Single".

(** ** Image buffers *)

(** Modelled from the spec: [ImgBuffer] of [MMDevice/ImgBuffer.h], "a simple
    width x height x depth pixel container with resize and raw read/write
    pixel access".  A default-constructed buffer is empty; [Resize] leaves
    [xSize * ySize * pixDepth] zeroed bytes. *)
Record ImgBuffer := {
  GetPixels : list byte;
  Width : Z;
  Height : Z;
  Depth : Z
}.

Definition ImgBuffer_default : ImgBuffer :=
  {| GetPixels := []; Width := 0; Height := 0; Depth := 0 |}.

Definition Resize (xSize ySize pixDepth : Z) (b : ImgBuffer) : ImgBuffer :=
  {| GetPixels := replicate (Z.to_nat (xSize * ySize * pixDepth)) x00;
     Width := xSize; Height := ySize; Depth := pixDepth |}.

Definition SetPixels (px : list byte) (b : ImgBuffer) : ImgBuffer :=
  {| GetPixels := px; Width := Width b; Height := Height b; Depth := Depth b |}.

(** Width, height and depth of a buffer. *)
Definition dims (b : ImgBuffer) : Z * Z * Z := (Width b, Height b, Depth b).

(** ** The frame source (cpx runtime)

    The runtime is a vendor SDK.  Only what the adapter observes is kept: the
    status each call answers, the device identifiers a selection yields, and,
    per stream, the views that successive [cpx_map_read] calls will show. *)

(** A frame record: its total length in bytes (header and payload) and the
    payload bytes that follow the header. *)
Record VideoFrame := {
  bytes_of_frame : Z;
  data : list byte
}.

(** A mapped view [beg, end): the frames ready at the time of the call, laid
    out back to back; [beg == end] is the empty list. *)
Abbreviation View := (list VideoFrame).

Inductive DeviceKind := DeviceKind_Camera | DeviceKind_Storage.
Inductive SampleType := SampleType_u8 | SampleType_u16.

Record CameraProperties := {
  exposure_time_us : spec_float;
  binning : Z;
  pixel_type : SampleType;
  shape : Z * Z
}.

Record VideoStream := {
  camera_identifier : string;
  storage_identifier : string;
  settings : CameraProperties;
  max_frame_count : Z
}.

Record CpxProperties := {
  video_0 : VideoStream;
  video_1 : VideoStream
}.

Definition CameraProperties_zero : CameraProperties :=
  {| exposure_time_us := S754_zero false; binning := 0;
     pixel_type := SampleType_u8; shape := (0, 0) |}.
Definition VideoStream_zero : VideoStream :=
  {| camera_identifier := ""; storage_identifier := "";
     settings := CameraProperties_zero; max_frame_count := 0 |}.
(** [CpxProperties props = {}] *)
Definition CpxProperties_zero : CpxProperties :=
  {| video_0 := VideoStream_zero; video_1 := VideoStream_zero |}.

Record CpxRuntime := {
  (** [cpx_init] and [cpx_device_manager] both answer a non-null pointer *)
  cpx_alive : bool;
  get_configuration_status : CpxStatusCode;
  select_status : DeviceKind -> string -> CpxStatusCode;
  select_identifier : DeviceKind -> string -> string;
  configure_status : CpxStatusCode;
  start_status : CpxStatusCode;
  (** the configuration the runtime holds: the last one it accepted *)
  configuration : CpxProperties;
  (** the line interval of camera 0 as [std::to_string] prints it *)
  line_interval_us_text : string;
  (** per stream, what the next calls of [cpx_map_read] will show *)
  mapped : gmap Z (list View)
}.

(** ** What the adapter does to the outside, in order *)

Inductive Event :=
| EvMapRead (stream : Z)
| EvSleep (ms : Z)
| EvMemcpy (buffer : nat) (offset : Z) (bytes : list byte)
| EvUnmapRead (stream : Z) (n : Z)
| EvSelect (kind : DeviceKind) (pattern : string)
| EvGetConfiguration
| EvConfigure (props : CpxProperties)
| EvStart
| EvStop
| EvLog (msg : string).

(** ** The camera object *)

Record AcquireCamera := {
  initialized_ : bool;
  multiChannel : bool;
  demo : bool;
  imgs : list ImgBuffer;
  properties_ : gmap string string;
  cpx : CpxRuntime;
  trace : list Event
}.

Definition set_initialized (v : bool) (s : AcquireCamera) : AcquireCamera :=
  {| initialized_ := v; multiChannel := multiChannel s; demo := demo s;
     imgs := imgs s; properties_ := properties_ s; cpx := cpx s;
     trace := trace s |}.
Definition set_multiChannel (v : bool) (s : AcquireCamera) : AcquireCamera :=
  {| initialized_ := initialized_ s; multiChannel := v; demo := demo s;
     imgs := imgs s; properties_ := properties_ s; cpx := cpx s;
     trace := trace s |}.
Definition set_demo (v : bool) (s : AcquireCamera) : AcquireCamera :=
  {| initialized_ := initialized_ s; multiChannel := multiChannel s; demo := v;
     imgs := imgs s; properties_ := properties_ s; cpx := cpx s;
     trace := trace s |}.
Definition set_imgs (v : list ImgBuffer) (s : AcquireCamera) : AcquireCamera :=
  {| initialized_ := initialized_ s; multiChannel := multiChannel s;
     demo := demo s; imgs := v; properties_ := properties_ s; cpx := cpx s;
     trace := trace s |}.
Definition set_properties (v : gmap string string) (s : AcquireCamera)
  : AcquireCamera :=
  {| initialized_ := initialized_ s; multiChannel := multiChannel s;
     demo := demo s; imgs := imgs s; properties_ := v; cpx := cpx s;
     trace := trace s |}.
Definition set_cpx (v : CpxRuntime) (s : AcquireCamera) : AcquireCamera :=
  {| initialized_ := initialized_ s; multiChannel := multiChannel s;
     demo := demo s; imgs := imgs s; properties_ := properties_ s; cpx := v;
     trace := trace s |}.
Definition set_trace (v : list Event) (s : AcquireCamera) : AcquireCamera :=
  {| initialized_ := initialized_ s; multiChannel := multiChannel s;
     demo := demo s; imgs := imgs s; properties_ := properties_ s;
     cpx := cpx s; trace := v |}.

Definition set_mapped (f : gmap Z (list View)) (c : CpxRuntime) : CpxRuntime :=
  {| cpx_alive := cpx_alive c;
     get_configuration_status := get_configuration_status c;
     select_status := select_status c;
     select_identifier := select_identifier c;
     configure_status := configure_status c;
     start_status := start_status c;
     configuration := configuration c;
     line_interval_us_text := line_interval_us_text c;
     mapped := f |}.
Definition set_configuration (p : CpxProperties) (c : CpxRuntime) : CpxRuntime :=
  {| cpx_alive := cpx_alive c;
     get_configuration_status := get_configuration_status c;
     select_status := select_status c;
     select_identifier := select_identifier c;
     configure_status := configure_status c;
     start_status := start_status c;
     configuration := p;
     line_interval_us_text := line_interval_us_text c;
     mapped := mapped c |}.

(** ** Outcomes and the state monad

    A computation ends by returning, by throwing a C++ exception, at an
    operation whose behaviour is undefined, or still waiting in a polling
    loop; each outcome carries the state reached. *)

Inductive outcome (A : Type) : Type :=
| Returns (a : A) (s : AcquireCamera)
| Throws (what : string) (s : AcquireCamera)
| Undefined (s : AcquireCamera)
| Pending (s : AcquireCamera).
Arguments Returns {A} a s.
Arguments Throws {A} what s.
Arguments Undefined {A} s.
Arguments Pending {A} s.

Definition M (A : Type) : Type := AcquireCamera -> outcome A.

#[global] Instance M_ret : MRet M := fun A a s => Returns a s.
#[global] Instance M_bind : MBind M := fun A B f m s =>
  match m s with
  | Returns a s' => f a s'
  | Throws what s' => Throws what s'
  | Undefined s' => Undefined s'
  | Pending s' => Pending s'
  end.

Definition get : M AcquireCamera := fun s => Returns s s.
Definition modify (f : AcquireCamera -> AcquireCamera) : M unit :=
  fun s => Returns tt (f s).
Definition throw {A} (what : string) : M A := fun s => Throws what s.
Definition undefined {A} : M A := fun s => Undefined s.
Definition pending {A} : M A := fun s => Pending s.
Definition emit (e : Event) : M unit :=
  modify (fun s => set_trace (trace s ++ [e]) s).
Definition LogMessage (msg : string) : M unit := emit (EvLog msg).

(** [imgs[i]] for reading; outside the vector the behaviour is undefined. *)
Definition img_at (i : Z) : M ImgBuffer := fun s =>
  if decide (0 <= i) then
    match imgs s !! Z.to_nat i with
    | Some b => Returns b s
    | None => Undefined s
    end
  else Undefined s.

(** ** Property collection of the device base *)

(** [CreateProperty]: a name already present is left as it is. *)
Definition CreateProperty (name value : string) : M unit :=
  modify (fun s =>
    match properties_ s !! name with
    | Some _ => s
    | None => set_properties (<[name := value]> (properties_ s)) s
    end).

Definition digit_of (a : ascii) : option Z :=
  let n := Z.of_N (N_of_ascii a) in
  if (48 <=? n) && (n <=? 57) then Some (n - 48) else None.

Fixpoint atol_digits (acc : Z) (s : string) : Z :=
  match s with
  | EmptyString => acc
  | String a r =>
      match digit_of a with
      | Some d => atol_digits (10 * acc + d) r
      | None => acc
      end
  end.

(** [atol] on an optional sign and decimal digits. *)
Definition atol (s : string) : Z :=
  match s with
  | String "-"%char r => - atol_digits 0 r
  | String "+"%char r => atol_digits 0 r
  | _ => atol_digits 0 s
  end.

(** [GetProperty(name, long&)]; the caller reads the variable whether or not
    the property was found, which is undefined when it was not. *)
Definition GetProperty_long (name : string) : M Z := fun s =>
  match properties_ s !! name with
  | Some v => Returns (atol v) s
  | None => Undefined s
  end.

(** ** AcquireCamera: construction and buffers *)

(** The object as its constructor leaves it, attached to a runtime [rt]. *)
Definition AcquireCamera_new (rt : CpxRuntime) : AcquireCamera :=
  {| initialized_ := false; multiChannel := true; demo := true;
     imgs := [];
     properties_ :=
       <[g_prop_Demo := "1"]>
       (<[MM.g_Keyword_CameraID := "V1.0"]>
       (<[MM.g_Keyword_CameraName := "AcquireCamera"]>
       (<[MM.g_Keyword_Description :=
            "Records simultaneously from two Hammamatsu cameras"]>
       (<[MM.g_Keyword_Name := cameraName]> ∅))));
     cpx := rt;
     trace := [] |}.

Definition setupBuffers : M unit :=
  let pixDepth := 1 in
  modify (fun s =>
    if demo s then
      (* imgs.clear() *)
      if multiChannel s then
        (* imgs.resize(2), then Resize on both *)
        set_imgs [Resize DEMO_IMAGE_WIDTH DEMO_IMAGE_HEIGHT pixDepth ImgBuffer_default;
                  Resize DEMO_IMAGE_WIDTH DEMO_IMAGE_HEIGHT pixDepth ImgBuffer_default] s
      else
        (* imgs.resize(1) *)
        set_imgs [Resize DEMO_IMAGE_WIDTH (DEMO_IMAGE_HEIGHT * 2) pixDepth ImgBuffer_default] s
    else s).

(** [OnImageMode(pProp, eAct)]: [value] is what [pProp] holds on entry, the
    string returned is what it holds on exit. *)
Definition OnImageMode (value : string) (eAct : MM.ActionType)
  : M (DeviceCode * string) :=
  match eAct with
  | MM.BeforeGet =>
      s ← get;
      mret (DEVICE_OK,
            if multiChannel s then g_prop_Mode_Multi else g_prop_Mode_Single)
  | MM.AfterSet =>
      (if decide (value = g_prop_Mode_Multi)
       then modify (set_multiChannel true)
       else modify (set_multiChannel false));;
      setupBuffers;;
      mret (DEVICE_OK, value)
  | _ => mret (DEVICE_OK, value)
  end.

(** ** Calls into the cpx runtime *)

(** [cpx_map_read(cpx, stream, &beg, &end)]: the next view of the stream; a
    stream with nothing further scheduled shows an empty view. *)
Definition cpx_map_read (stream : Z) : M View :=
  emit (EvMapRead stream);;
  s ← get;
  match mapped (cpx s) !! stream with
  | Some (v :: later) =>
      modify (fun s =>
        set_cpx (set_mapped (<[stream := later]> (mapped (cpx s))) (cpx s)) s);;
      mret v
  | _ => mret []
  end.

Definition cpx_unmap_read (stream n : Z) : M unit := emit (EvUnmapRead stream n).

Definition sleep_for (ms : Z) : M unit := emit (EvSleep ms).

Definition cpx_get_configuration : M (CpxStatusCode * CpxProperties) :=
  emit EvGetConfiguration;;
  s ← get;
  mret (get_configuration_status (cpx s),
        match get_configuration_status (cpx s) with
        | CpxStatus_Ok => configuration (cpx s)
        | CpxStatus_Error => CpxProperties_zero
        end).

Definition cpx_configure (props : CpxProperties) : M CpxStatusCode :=
  emit (EvConfigure props);;
  s ← get;
  match configure_status (cpx s) with
  | CpxStatus_Ok =>
      modify (fun s => set_cpx (set_configuration props (cpx s)) s);;
      mret CpxStatus_Ok
  | CpxStatus_Error => mret CpxStatus_Error
  end.

Definition cpx_start : M CpxStatusCode :=
  emit EvStart;; s ← get; mret (start_status (cpx s)).

Definition cpx_stop : M CpxStatusCode := emit EvStop;; mret CpxStatus_Ok.

(** [device_manager_select(dm, kind, pattern, &identifier)]: the identifier
    is written on success and left as it was otherwise. *)
Definition device_manager_select (kind : DeviceKind) (pattern : string)
    (identifier : string) : M (CpxStatusCode * string) :=
  emit (EvSelect kind pattern);;
  s ← get;
  match select_status (cpx s) kind pattern with
  | CpxStatus_Ok => mret (CpxStatus_Ok, select_identifier (cpx s) kind pattern)
  | CpxStatus_Error => mret (CpxStatus_Error, identifier)
  end.

Definition getCpxProperties : M (CpxStatusCode * CpxProperties) :=
  cpx_get_configuration.

Definition setCpxProperties (props : CpxProperties) : M CpxStatusCode :=
  cpx_configure props.

Definition with_camera_identifier (id : string) (v : VideoStream) : VideoStream :=
  {| camera_identifier := id; storage_identifier := storage_identifier v;
     settings := settings v; max_frame_count := max_frame_count v |}.
Definition with_storage_identifier (id : string) (v : VideoStream) : VideoStream :=
  {| camera_identifier := camera_identifier v; storage_identifier := id;
     settings := settings v; max_frame_count := max_frame_count v |}.
Definition with_settings (c : CameraProperties) (n : Z) (v : VideoStream)
  : VideoStream :=
  {| camera_identifier := camera_identifier v;
     storage_identifier := storage_identifier v;
     settings := c; max_frame_count := n |}.
Definition with_exposure (us : spec_float) (v : VideoStream) : VideoStream :=
  {| camera_identifier := camera_identifier v;
     storage_identifier := storage_identifier v;
     settings := {| exposure_time_us := us;
                    binning := binning (settings v);
                    pixel_type := pixel_type (settings v);
                    shape := shape (settings v) |};
     max_frame_count := max_frame_count v |}.

(** ** AcquireCamera: exposure *)

(** The integer a status code is; [CpxStatus_Ok] is 0, as [DEVICE_OK] is. *)
Definition status_value (ret : CpxStatusCode) : Z :=
  match ret with CpxStatus_Ok => 0 | CpxStatus_Error => 1 end.

(** ["literal" + ret]: the literal from its character [ret] on. *)
Definition literal_plus (literal : string) (ret : Z) : string :=
  String.substring (Z.to_nat ret) (String.length literal - Z.to_nat ret) literal.

Definition SetExposure (exposure : spec_float) : M unit :=
  '(ret, props) ← getCpxProperties;
  (if decide (ret ≠ CpxStatus_Ok)
   then LogMessage (literal_plus "Error obtaining properties: code=" (status_value ret))
   else mret tt);;
  let us := f32_of_f64 (f64_mul exposure (f64_of_Z 1000)) in
  let props := {| video_0 := with_exposure us (video_0 props);
                  video_1 := with_exposure us (video_1 props) |} in
  ret ← setCpxProperties props;
  if decide (ret ≠ CpxStatus_Ok)
  then LogMessage (literal_plus "Error setting exposure: code=" (status_value ret))
  else mret tt.

Definition GetExposure : M spec_float :=
  '(ret, props) ← getCpxProperties;
  (if decide (ret ≠ CpxStatus_Ok)
   then LogMessage (literal_plus "Error obtaining properties: code=" (status_value ret))
   else mret tt);;
  mret (f64_div (f64_of_f32 (exposure_time_us (settings (video_0 props))))
          (f64_of_Z 1000)).

(** ** AcquireCamera: Initialize and the accessors *)

Definition Initialize : M DeviceCode :=
  s ← get;
  if initialized_ s then mret DEVICE_OK else
  demoVal ← GetProperty_long g_prop_Demo;
  modify (set_demo (bool_decide (demoVal = 1)));;
  CreateProperty MM.g_Keyword_Binning "1";;
  CreateProperty g_prop_Mode g_prop_Mode_Multi;;
  modify (set_multiChannel true);;
  setupBuffers;;
  s ← get;
  if negb (cpx_alive (cpx s)) then mret ERR_CPX_INIT else
  '(ret, props) ← getCpxProperties;
  if decide (ret ≠ CpxStatus_Ok) then mret (DEVICE_CPX_STATUS ret) else
  '(ret, id0) ← device_manager_select DeviceKind_Camera "simulated.*random.*"
                   (camera_identifier (video_0 props));
  if decide (ret ≠ CpxStatus_Ok) then mret (DEVICE_CPX_STATUS ret) else
  '(ret, id1) ← device_manager_select DeviceKind_Camera "simulated.*sin.*"
                   (camera_identifier (video_1 props));
  if decide (ret ≠ CpxStatus_Ok) then mret (DEVICE_CPX_STATUS ret) else
  s ← get;
  CreateProperty "LineIntervalUs" (line_interval_us_text (cpx s));;
  modify (set_initialized true);;
  mret DEVICE_OK.

Definition GetNumberOfChannels (s : AcquireCamera) : Z :=
  to_uint32 (Z.of_nat (length (imgs s))).

(** [GetImageBuffer(unsigned channel)]; [None] is the null pointer. *)
Definition GetImageBuffer (channel : Z) : M (option (list byte)) :=
  s ← get;
  if decide (channel > to_size_t (Z.of_nat (length (imgs s)) - 1)) then mret None
  else b ← img_at channel; mret (Some (GetPixels b)).

Section Adapter.

(** [CDeviceUtils::CopyLimitedString(target, source)] as the content target
    holds afterwards; it is defined in [MMDevice/DeviceUtils.cpp]. *)
Variable CopyLimitedString : string -> string.

(** The size of the frame header, [sizeof(VideoFrame)], fixed by the SDK. *)
Variable sizeof_VideoFrame : Z.

(** [GetChannelName(channel, name)]: the code returned and what [name] holds
    afterwards. *)
Definition GetChannelName (channel : Z) (name : string)
  : M (DeviceCode * string) :=
  s ← get;
  if decide (channel > to_size_t (Z.of_nat (length (imgs s)) - 1))
  then mret (DEVICE_NONEXISTENT_CHANNEL, name)
  else
    let chName := if decide (channel = 0) then "Camera-1" else "Camera-2" in
    mret (DEVICE_OK, CopyLimitedString chName).

(** ** Reading frames *)

(** [end - beg] in bytes: the frames of a view lie back to back. *)
Definition span_bytes (v : View) : Z :=
  foldr (fun f acc => bytes_of_frame f + acc) 0 v.

(** The lambda [consumed_bytes(cur, end)], a [size_t]. *)
Definition consumed_bytes (v : View) : Z := to_size_t (span_bytes v).

(** Pixel memory [px] with [bytes] written from position [offset] on. *)
Definition overlay (offset : nat) (bytes px : list byte) : list byte :=
  take offset px ++ bytes ++ drop (offset + length bytes) px.

(** [memcpy(imgs[i].GetPixelsRW() + offset, src, n)].  Reading past [src] or
    writing past the pixel buffer is undefined. *)
Definition memcpy (i offset : Z) (src : list byte) (n : Z) : M unit := fun s =>
  if decide (0 <= i) then
    match imgs s !! Z.to_nat i with
    | None => Undefined s
    | Some b =>
        if decide (0 <= offset ∧ 0 <= n ∧ n <= Z.of_nat (length src)
                   ∧ offset + n <= Z.of_nat (length (GetPixels b)))
        then
          let bytes := take (Z.to_nat n) src in
          let px := overlay (Z.to_nat offset) bytes (GetPixels b) in
          Returns tt
            (set_trace (trace s ++ [EvMemcpy (Z.to_nat i) offset bytes])
               (set_imgs (<[Z.to_nat i := SetPixels px b]> (imgs s)) s))
        else Undefined s
    end
  else Undefined s.

(** The loop [while (beg == end) { cpx_map_read(...); sleep_for(ms); }],
    entered with the view [v] of the call before it.  It answers the view
    that ended it together with its first frame.  [fuel] bounds the number
    of iterations; the source has no bound. *)
Fixpoint poll (fuel : nat) (stream ms : Z) (v : View) {struct fuel}
  : M (VideoFrame * View) :=
  match v with
  | beg :: _ => mret (beg, v)
  | [] =>
      match fuel with
      | O => pending
      | S fuel' =>
          v' ← cpx_map_read stream;
          sleep_for ms;;
          poll fuel' stream ms v'
      end
  end.

Definition readFrame (fuel : nat) (stream : Z) (props : CpxProperties) : M Z :=
  v ← cpx_map_read stream;
  '(beg, v) ← poll fuel stream 10 v;
  memcpy stream 0 (data beg) (to_size_t (bytes_of_frame beg - sizeof_VideoFrame));;
  let n := to_uint32 (consumed_bytes v) in
  cpx_unmap_read stream n;;
  mret 0.

Definition readFrames (fuel : nat) (props : CpxProperties) : M Z :=
  (* read first frame and place it in the first image buffer *)
  v ← cpx_map_read 0;
  '(beg, v) ← poll fuel 0 5 v;
  memcpy 0 0 (data beg) (to_size_t (bytes_of_frame beg - sizeof_VideoFrame));;
  let n := to_uint32 (consumed_bytes v) in
  cpx_unmap_read 0 n;;
  (* read second frame and place it in the second buffer or append to the
     first, depending on the multiChannel flag *)
  v ← cpx_map_read 1;
  '(beg, v) ← poll fuel 1 5 v;
  s ← get;
  (if multiChannel s then
     memcpy 1 0 (data beg) (to_size_t (bytes_of_frame beg - sizeof_VideoFrame))
   else
     b ← img_at 0;
     memcpy 0 (to_size_t (to_size_t (Width b * Height b) * Depth b) / 2)
       (data beg) (to_size_t (bytes_of_frame beg - sizeof_VideoFrame)));;
  let n := to_uint32 (consumed_bytes v) in
  cpx_unmap_read 1 n;;
  mret 0.

(** ** SnapImage *)

Definition SnapImage (fuel : nat) : M DeviceCode :=
  '(_, props) ← getCpxProperties;
  '(_, cam0) ← device_manager_select DeviceKind_Camera "simulated.*random.*"
                  (camera_identifier (video_0 props));
  '(_, cam1) ← device_manager_select DeviceKind_Camera "simulated.*sin.*"
                  (camera_identifier (video_1 props));
  '(_, sto0) ← device_manager_select DeviceKind_Storage "Trash"
                  (storage_identifier (video_0 props));
  '(_, sto1) ← device_manager_select DeviceKind_Storage "Trash"
                  (storage_identifier (video_1 props));
  b ← img_at 0;
  let cam (v : VideoStream) :=
    {| exposure_time_us := exposure_time_us (settings v);
       binning := 1;
       pixel_type := if decide (Depth b = 2) then SampleType_u16
                     else SampleType_u8;
       shape := (Width b, Height b) |} in
  let props :=
    {| video_0 := with_settings (cam (video_0 props)) 1
                    (with_storage_identifier sto0
                       (with_camera_identifier cam0 (video_0 props)));
       video_1 := with_settings (cam (video_1 props)) 1
                    (with_storage_identifier sto1
                       (with_camera_identifier cam1 (video_1 props))) |} in
  ret ← cpx_configure props;
  if decide (ret ≠ CpxStatus_Ok) then
    LogMessage "cpx_configure failed";;
    mret ERR_CPX_CONFIURE_FAILED
  else
    (* start single frame *)
    ret ← cpx_start;
    if decide (ret ≠ CpxStatus_Ok) then throw "cpx_start failed"
    else
      readFrames fuel props;;
      cpx_stop;;
      mret DEVICE_OK.

End Adapter.

(** ** AcquireCamera: the other device functions *)

(** [Shutdown].  The handle [cpx] is not part of the state: [attached] says
    whether it is non-null on entry and [ret] is what [cpx_shutdown] answers
    in that case. *)
Definition Shutdown (attached : bool) (ret : CpxStatusCode) : M DeviceCode :=
  (if attached then
     if decide (ret ≠ CpxStatus_Ok)
     then LogMessage (literal_plus "cpx_shutdown error: " (status_value ret))
     else mret tt
   else mret tt);;
  modify (set_initialized false);;
  mret DEVICE_OK.

(** [GetImageBufferSize]: the product is taken in [unsigned]; the conversion
    to [long] on return keeps every value below 2^31. *)
Definition GetImageBufferSize : M Z :=
  b ← img_at 0;
  mret (to_uint32 (to_uint32 (Width b * Height b) * Depth b)).

Definition GetBitDepth : M Z :=
  b ← img_at 0; mret (to_uint32 (Depth b * 8)).

Definition GetBinning : M Z := mret 1.

Definition SetBinning (binSize : Z) : M DeviceCode := mret DEVICE_OK.

Definition SetROI (x y xSize ySize : Z) : M DeviceCode := mret DEVICE_OK.

(** [GetROI(x, y, xSize, ySize)]: the code and what the four references hold
    afterwards. *)
Definition GetROI (x y xSize ySize : Z) : M (DeviceCode * (Z * Z * Z * Z)) :=
  mret (DEVICE_OK, (x, y, xSize, ySize)).

Definition ClearROI : M DeviceCode := mret DEVICE_OK.

(** [IsExposureSequenceable(isSequenceable)]: the code and what the
    reference holds afterwards. *)
Definition IsExposureSequenceable (isSequenceable : bool)
  : M (DeviceCode * bool) :=
  mret (DEVICE_OK, false).

(** [GetImageBuffer()], the overload without a channel. *)
Definition GetImageBuffer0 : M (list byte) :=
  b ← img_at 0; mret (GetPixels b).

Definition GetNumberOfComponents : M Z := mret 1.

Definition GetImageWidth : M Z := b ← img_at 0; mret (Width b).

Definition GetImageHeight : M Z := b ← img_at 0; mret (Height b).

Definition GetImageBytesPerPixel : M Z := b ← img_at 0; mret (Depth b).

(** [%d] of [printf]. *)
Definition decimal (n : Z) : string := NilZero.string_of_int (Z.to_int n).

(** [snprintf(buffer, size, ...)] as the content of [buffer] afterwards,
    [text] being the whole formatted output: at most [size - 1] characters
    are kept. *)
Definition snprintf (size : Z) (text : string) : string :=
  String.substring 0 (Z.to_nat (size - 1)) text.

(** [reporter(is_error, file, line, function, msg)], the callback handed to
    [cpx_init].  [g_instance] says whether the static pointer of that name
    is non-null. *)
Definition reporter (g_instance : bool) (is_error : Z) (file : string)
    (line : Z) (function msg : string) : M unit :=
  let maxLength := 6000 in
  let buffer :=
    snprintf maxLength
      ((if decide (is_error ≠ 0) then "ERROR " else "") +:+ file +:+ "("
       +:+ decimal line +:+ ") - " +:+ function +:+ ": " +:+ msg) in
  if g_instance then LogMessage buffer else mret tt.

Section Naming.

(** [CDeviceUtils::CopyLimitedString(target, source)] as the content target
    holds afterwards; it is defined in [MMDevice/DeviceUtils.cpp]. *)
Variable CopyLimitedString : string -> string.

(** [GetName(name)]: what [name] holds afterwards. *)
Definition GetName : string := CopyLimitedString cameraName.

End Naming.

(** ** ASIBase: the generic ASI device *)

Module ASITiger.

(** The error codes of [ASITiger.h] that [ASIBase] gives a text. *)
Inductive ErrorCode :=
| ERR_UNRECOGNIZED_ANSWER
| ERR_FILTER_WHEEL_NOT_READY
| ERR_FILTER_WHEEL_SPINNING
| ERR_NOT_ENOUGH_AXES
| ERR_TOO_LARGE_ADDRESSES
| ERR_CRISP_NOT_CALIBRATED
| ERR_CRISP_NOT_LOCKED.

(** [ASIBase<TDeviceBase, UConcreteDevice>].  [properties_] and [messages_]
    are the property collection and the error texts held by [TDeviceBase];
    the firmware version, date and build members, which no function of the
    class reads, are left out. *)
Record ASIBase := {
  properties_ : gmap string string;
  messages_ : list (ErrorCode * string);
  initialized_ : bool;
  refreshProps_ : bool;
  ret_ : DeviceCode
}.

Section Base.

(** [CDeviceUtils::CopyLimitedString(target, source)] as the content target
    holds afterwards; it is defined in [MMDevice/DeviceUtils.cpp]. *)
Variable CopyLimitedString : string -> string.

(** The message texts [g_Msg_ERR_...] of [ASITiger.h]. *)
Variable g_Msg : ErrorCode -> string.

(** What [TDeviceBase::InitializeDefaultErrorMessages] does to the texts. *)
Variable InitializeDefaultErrorMessages :
  list (ErrorCode * string) -> list (ErrorCode * string).

Definition SetErrorText (code : ErrorCode) (text : string)
    (m : list (ErrorCode * string)) : list (ErrorCode * string) :=
  (code, text) :: m.

Definition InitializeASIErrorMessages (m : list (ErrorCode * string))
  : list (ErrorCode * string) :=
  SetErrorText ERR_CRISP_NOT_LOCKED (g_Msg ERR_CRISP_NOT_LOCKED)
  (SetErrorText ERR_CRISP_NOT_CALIBRATED (g_Msg ERR_CRISP_NOT_CALIBRATED)
  (SetErrorText ERR_TOO_LARGE_ADDRESSES (g_Msg ERR_TOO_LARGE_ADDRESSES)
  (SetErrorText ERR_NOT_ENOUGH_AXES (g_Msg ERR_NOT_ENOUGH_AXES)
  (SetErrorText ERR_FILTER_WHEEL_SPINNING (g_Msg ERR_FILTER_WHEEL_SPINNING)
  (SetErrorText ERR_FILTER_WHEEL_NOT_READY (g_Msg ERR_FILTER_WHEEL_NOT_READY)
  (SetErrorText ERR_UNRECOGNIZED_ANSWER (g_Msg ERR_UNRECOGNIZED_ANSWER) m)))))).

(** [CreateProperty(name, value, MM::String, true)]: a name already present
    keeps its value. *)
Definition CreateProperty (name value : string) (p : gmap string string)
  : gmap string string :=
  match p !! name with
  | Some _ => p
  | None => <[name := value]> p
  end.

Definition HasProperty (name : string) (d : ASIBase) : bool :=
  bool_decide (is_Some (properties_ d !! name)).

(** [GetProperty(name, char* value)]: the buffer afterwards, [None] when the
    property is missing and the buffer is not written. *)
Definition GetProperty (name : string) (d : ASIBase) : option string :=
  CopyLimitedString <$> properties_ d !! name.

(** The constructor [ASIBase(const char* name)], run on the property
    collection [props] and error texts [msgs] that the constructor of
    [TDeviceBase<UConcreteDevice>] left. *)
Definition ASIBase_new (props : gmap string string)
    (msgs : list (ErrorCode * string)) (name : string) : ASIBase :=
  {| properties_ :=
       (* strcmp(name, "") != 0 *)
       if decide (name ≠ "") then CreateProperty MM.g_Keyword_Name name props
       else props;
     messages_ := InitializeASIErrorMessages (InitializeDefaultErrorMessages msgs);
     initialized_ := false;
     refreshProps_ := false;
     ret_ := DEVICE_OK |}.

Definition Shutdown (d : ASIBase) : DeviceCode * ASIBase :=
  (DEVICE_OK,
   {| properties_ := properties_ d; messages_ := messages_ d;
      initialized_ := false; refreshProps_ := refreshProps_ d;
      ret_ := ret_ d |}).

(** [GetName(char* pszName)]: what [pszName] holds afterwards.  The local
    array [name] is written by one of the two branches before it is copied. *)
Definition GetName (d : ASIBase) : option string :=
  name ← (if HasProperty MM.g_Keyword_Name d
          then GetProperty MM.g_Keyword_Name d
          else Some "Undefined");
  Some (CopyLimitedString name).

Definition Busy (d : ASIBase) : bool := false.

End Base.

End ASITiger.

(** ** Auxiliary definitions used by the statements *)

(** The events of [k] turns of a polling loop on [stream]. *)
Fixpoint poll_events (k : nat) (stream ms : Z) : list Event :=
  match k with
  | O => []
  | S k' => EvMapRead stream :: EvSleep ms :: poll_events k' stream ms
  end.

(** The state once a stream scheduled to show [K] empty views and then a
    non-empty one has been polled until that view: [K + 1] calls of
    [cpx_map_read], the rest of the schedule is [later]. *)
Definition after_poll (stream ms : Z) (K : nat) (later : list View)
    (s : AcquireCamera) : AcquireCamera :=
  set_trace (trace s ++ EvMapRead stream :: poll_events K stream ms)
    (set_cpx (set_mapped (<[stream := later]> (mapped (cpx s))) (cpx s)) s).

(** The state once [bytes] have been copied into buffer [i], which was [b],
    from position [offset] on. *)
Definition after_memcpy (i : nat) (offset : Z) (bytes : list byte)
    (b : ImgBuffer) (s : AcquireCamera) : AcquireCamera :=
  set_trace (trace s ++ [EvMemcpy i offset bytes])
    (set_imgs (<[i := SetPixels (overlay (Z.to_nat offset) bytes (GetPixels b)) b]>
                 (imgs s)) s).

(** The state once [n] bytes of [stream] have been released. *)
Definition after_unmap (stream n : Z) (s : AcquireCamera) : AcquireCamera :=
  set_trace (trace s ++ [EvUnmapRead stream n]) s.

(** What [readFrames] does for one stream from its first poll to the
    release: [k] turns of the loop, one copy, one release of [n] bytes. *)
Definition stream_events (stream : Z) (k : nat) (copy : Event) (n : Z)
  : list Event :=
  EvMapRead stream :: poll_events k stream 5 ++ [copy; EvUnmapRead stream n].


(** What [SnapImage] does before it pushes the configuration. *)
Definition snap_setup_events : list Event :=
  [EvGetConfiguration;
   EvSelect DeviceKind_Camera "simulated.*random.*";
   EvSelect DeviceKind_Camera "simulated.*sin.*";
   EvSelect DeviceKind_Storage "Trash";
   EvSelect DeviceKind_Storage "Trash"].

(** An exposure [e], in milliseconds, whose number of microseconds
    [e * 1000] is a binary32 number: the scaling rounds nothing. *)
Definition exact_under_scaling (e : spec_float) : Prop :=
  match e with
  | S754_finite s m x =>
      ∃ m32 e32,
        bounded 24 128 m32 e32 = true
        ∧ same_value (Zpos m32) e32 (Zpos m * 1000) x = true
  | _ => True
  end.

(** A shift record with nothing shifted out. *)
Definition exact_record (m : Z) : shr_record :=
  {| shr_m := m; shr_r := false; shr_s := false |}.

(** The binary64 form of the binary32 number [m * 2^e]. *)
Definition widen_exponent (m : positive) (e : Z) : Z :=
  fexp 53 1024 (Zpos (digits2_pos m) + e).
Definition widen_mantissa (m : positive) (e : Z) : positive :=
  Pos.iter xO m (Z.to_pos (e - widen_exponent m e)).

(** Width, height and depth of the buffers each mode asks for. *)
Definition multi_layout : list (Z * Z * Z) :=
  [(DEMO_IMAGE_WIDTH, DEMO_IMAGE_HEIGHT, 1); (DEMO_IMAGE_WIDTH, DEMO_IMAGE_HEIGHT, 1)].
Definition single_layout : list (Z * Z * Z) :=
  [(DEMO_IMAGE_WIDTH, 2 * DEMO_IMAGE_HEIGHT, 1)].

(** The buffers are those the current mode asks for. *)
Definition buffers_match_mode (s : AcquireCamera) : Prop :=
  map dims (imgs s) = if multiChannel s then multi_layout else single_layout.

(** A camera in demo mode, as its constructor and [Initialize] make it, with
    the buffers of its mode. *)
Definition demo_camera (s : AcquireCamera) : Prop :=
  demo s = true
  ∧ properties_ s !! g_prop_Demo = Some "1"
  ∧ buffers_match_mode s.

(** What the host calls on the camera. *)
Inductive HostCall :=
| CallInitialize
| CallOnImageMode (value : string) (eAct : MM.ActionType)
| CallSnapImage (fuel : nat)
| CallSetExposure (exposure : spec_float)
| CallGetExposure.

Definition host_call (sizeof : Z) (c : HostCall) : M unit :=
  match c with
  | CallInitialize => Initialize;; mret tt
  | CallOnImageMode value eAct => OnImageMode value eAct;; mret tt
  | CallSnapImage fuel => SnapImage sizeof fuel;; mret tt
  | CallSetExposure exposure => SetExposure exposure
  | CallGetExposure => GetExposure;; mret tt
  end.

(** [reaches sizeof s calls s']: the host issues [calls] on [s] one after
    the other, each returns or throws, and the camera is left as [s']. *)
Inductive reaches (sizeof : Z)
  : AcquireCamera -> list HostCall -> AcquireCamera -> Prop :=
| reaches_nil s : reaches sizeof s [] s
| reaches_returns s c calls s1 s2 :
    host_call sizeof c s = Returns tt s1 ->
    reaches sizeof s1 calls s2 ->
    reaches sizeof s (c :: calls) s2
| reaches_throws s c calls what s1 s2 :
    host_call sizeof c s = Throws what s1 ->
    reaches sizeof s1 calls s2 ->
    reaches sizeof s (c :: calls) s2.

(** [wp m s Q]: run from [s], the computation [m] returns, with a value and
    a state that satisfy [Q]. *)
Definition wp {A} (m : M A) (s : AcquireCamera)
    (Q : A -> AcquireCamera -> Prop) : Prop :=
  ∃ a s', m s = Returns a s' ∧ Q a s'.

(** Two states with the same mode flags, buffers and properties. *)
Definition same_buffers (s s' : AcquireCamera) : Prop :=
  demo s' = demo s ∧ multiChannel s' = multiChannel s ∧ imgs s' = imgs s
  ∧ properties_ s' = properties_ s.

(** Two states with the same mode flags and properties, and buffers of the
    same dimensions. *)
Definition same_layout (s s' : AcquireCamera) : Prop :=
  demo s' = demo s ∧ multiChannel s' = multiChannel s
  ∧ properties_ s' = properties_ s
  ∧ map dims (imgs s') = map dims (imgs s).

(** Two states with the same mode flags and buffers, attached to a runtime
    in the same state, the second keeping the Demo property of the first. *)
Definition same_device (s s' : AcquireCamera) : Prop :=
  demo s' = demo s ∧ multiChannel s' = multiChannel s ∧ imgs s' = imgs s
  ∧ cpx s' = cpx s
  ∧ ∀ v, properties_ s !! g_prop_Demo = Some v ->
         properties_ s' !! g_prop_Demo = Some v.

(** The state a computation leaves, however it ends. *)
Definition state_of {A} (o : outcome A) : AcquireCamera :=
  match o with
  | Returns _ s | Throws _ s | Undefined s | Pending s => s
  end.

(** A computation that, however it ends, leaves the mode flags, the
    properties and the dimensions of the buffers as they were. *)
Definition keeps {A} (m : M A) : Prop :=
  ∀ s, same_layout s (state_of (m s)).

(** A computation that always returns and changes at most the trace, the
    initialized flag and properties other than Demo. *)
Definition frames {A} (m : M A) : Prop :=
  ∀ s, wp m s (fun _ s' => same_device s s').

(** A runtime that is up, finds every device, answers [configure] and
    [start] as given and shows the views of [schedule]. *)
Definition runtime_with (configure start : CpxStatusCode)
    (schedule : gmap Z (list View)) : CpxRuntime :=
  {| cpx_alive := true;
     get_configuration_status := CpxStatus_Ok;
     select_status := fun _ _ => CpxStatus_Ok;
     select_identifier := fun _ pattern => pattern;
     configure_status := configure;
     start_status := start;
     configuration := CpxProperties_zero;
     line_interval_us_text := "0.000000";
     mapped := schedule |}.

(** The camera once constructed on the runtime [rt] and initialized. *)
Definition initialized_camera (rt : CpxRuntime) : AcquireCamera :=
  match Initialize (AcquireCamera_new rt) with
  | Returns _ s | Throws _ s | Undefined s | Pending s => s
  end.

(** An initialized camera whose runtime takes the configuration and then
    fails to start. *)
Definition camera_start_fails : AcquireCamera :=
  initialized_camera (runtime_with CpxStatus_Ok CpxStatus_Error ∅).

(** Small instances: a header of 64 bytes, frames of two pixels, buffers of
    four, and a camera holding given buffers in a given mode. *)
Definition frame_of (sizeof : Z) (payload : list byte) : VideoFrame :=
  {| bytes_of_frame := sizeof + Z.of_nat (length payload); data := payload |}.

Definition camera_with (multi : bool) (buffers : list ImgBuffer)
    (rt : CpxRuntime) : AcquireCamera :=
  {| initialized_ := true; multiChannel := multi; demo := true;
     imgs := buffers; properties_ := ∅; cpx := rt; trace := [] |}.

Definition frame_a : VideoFrame := frame_of 64 [x01; x02].
Definition frame_b : VideoFrame := frame_of 64 [x03; x04].

(** Stream 0 shows nothing three times, then two frames at once; stream 1
    shows nothing once, then one frame. *)
Definition schedule_ab : gmap Z (list View) :=
  <[0 := [[]; []; []; [frame_a; frame_b]]]> (<[1 := [[]; [frame_b]]]> ∅).

(** Stream 0 shows nothing three times, then one frame. *)
Definition schedule_a : gmap Z (list View) :=
  <[0 := [[]; []; []; [frame_a]]]> ∅.

Definition camera_multi_small : AcquireCamera :=
  camera_with true [Resize 2 2 1 ImgBuffer_default; Resize 2 2 1 ImgBuffer_default]
    (runtime_with CpxStatus_Ok CpxStatus_Ok schedule_ab).

Definition camera_single_small : AcquireCamera :=
  camera_with false [Resize 2 2 1 ImgBuffer_default]
    (runtime_with CpxStatus_Ok CpxStatus_Ok schedule_ab).

Definition camera_one_frame : AcquireCamera :=
  camera_with true [Resize 2 2 1 ImgBuffer_default; Resize 2 2 1 ImgBuffer_default]
    (runtime_with CpxStatus_Ok CpxStatus_Ok schedule_a).

Definition camera_configure_fails : AcquireCamera :=
  camera_with true [Resize 2 2 1 ImgBuffer_default; Resize 2 2 1 ImgBuffer_default]
    (runtime_with CpxStatus_Error CpxStatus_Ok schedule_ab).

Definition camera_start_fails_small : AcquireCamera :=
  camera_with true [Resize 2 2 1 ImgBuffer_default; Resize 2 2 1 ImgBuffer_default]
    (runtime_with CpxStatus_Ok CpxStatus_Error schedule_ab).

(** A copy routine that keeps the first 1023 characters. *)
Definition copy_1023 (source : string) : string :=
  String.substring 0 1023 source.

(** An outcome that reports the "configure failed" condition. *)
Definition reports_configure_failed (o : outcome DeviceCode) : Prop :=
  ∃ s, o = Returns ERR_CPX_CONFIURE_FAILED s.

(** An outcome that is a C++ exception. *)
Definition raises_fault {A} (o : outcome A) : Prop :=
  ∃ what s, o = Throws what s.

(** Every buffer holds [width * height * depth] bytes. *)
Definition well_sized (s : AcquireCamera) : Prop :=
  Forall (fun b => Z.of_nat (length (GetPixels b)) = Width b * Height b * Depth b)
    (imgs s).

(** A computation that, however it ends, leaves a state in which [I] holds
    when started in one. *)
Definition maintains (I : AcquireCamera -> Prop) {A} (m : M A) : Prop :=
  ∀ s, I s -> I (state_of (m s)).

(** Everything that changes the camera or its log once it is constructed:
    the calls of [HostCall], [Shutdown], and the log callback, which the
    runtime may call at any time.  The remaining functions leave the camera
    as it is. *)
Inductive DeviceCall :=
| CallHost (c : HostCall)
| CallShutdown (attached : bool) (ret : CpxStatusCode)
| CallReporter (g_instance : bool) (is_error : Z) (file : string) (line : Z)
    (function msg : string).

Definition device_call (sizeof : Z) (c : DeviceCall) : M unit :=
  match c with
  | CallHost c => host_call sizeof c
  | CallShutdown attached ret => Shutdown attached ret;; mret tt
  | CallReporter g_instance is_error file line function msg =>
      reporter g_instance is_error file line function msg
  end.

(** [runs sizeof s calls s']: the calls are made on [s] one after the
    other, each returns or throws, and the camera is left as [s']. *)
Inductive runs (sizeof : Z)
  : AcquireCamera -> list DeviceCall -> AcquireCamera -> Prop :=
| runs_nil s : runs sizeof s [] s
| runs_returns s c calls s1 s2 :
    device_call sizeof c s = Returns tt s1 ->
    runs sizeof s1 calls s2 ->
    runs sizeof s (c :: calls) s2
| runs_throws s c calls what s1 s2 :
    device_call sizeof c s = Throws what s1 ->
    runs sizeof s1 calls s2 ->
    runs sizeof s (c :: calls) s2.

(** A camera as constructed, on a runtime that answers every call with
    success and has no frame to show. *)
Definition camera_new_idle : AcquireCamera :=
  AcquireCamera_new (runtime_with CpxStatus_Ok CpxStatus_Ok ∅).

(** An initialized camera with two small buffers whose streams have nothing
    to show. *)
Definition camera_idle : AcquireCamera :=
  camera_with true [Resize 2 2 1 ImgBuffer_default; Resize 2 2 1 ImgBuffer_default]
    (runtime_with CpxStatus_Ok CpxStatus_Ok ∅).

(** A frame record of 2^32 bytes, and a stream that shows it behind
    [frame_a] in one view. *)
Definition frame_huge : VideoFrame :=
  {| bytes_of_frame := 2 ^ 32; data := [] |}.

Definition camera_huge_view : AcquireCamera :=
  camera_with true [Resize 2 2 1 ImgBuffer_default; Resize 2 2 1 ImgBuffer_default]
    (runtime_with CpxStatus_Ok CpxStatus_Ok (<[0 := [[frame_a; frame_huge]]]> ∅)).

(** * Properties *)

(** ** The monad *)

Lemma bind_Returns {A B} (m : M A) (f : A -> M B) s a s' :
  m s = Returns a s' -> (m ≫= f) s = f a s'.
Proof. intros H. unfold mbind, M_bind. now rewrite H. Qed.

Lemma bind_Pending {A B} (m : M A) (f : A -> M B) s s' :
  m s = Pending s' -> (m ≫= f) s = Pending s'.
Proof. intros H. unfold mbind, M_bind. now rewrite H. Qed.

Lemma bind_Undefined {A B} (m : M A) (f : A -> M B) s s' :
  m s = Undefined s' -> (m ≫= f) s = Undefined s'.
Proof. intros H. unfold mbind, M_bind. now rewrite H. Qed.

Lemma bind_Throws {A B} (m : M A) (f : A -> M B) s what s' :
  m s = Throws what s' -> (m ≫= f) s = Throws what s'.
Proof. intros H. unfold mbind, M_bind. now rewrite H. Qed.

Lemma emit_Returns e s :
  emit e s = Returns tt (set_trace (trace s ++ [e]) s).
Proof. reflexivity. Qed.

(** ** A small program logic for computations that return *)

Lemma wp_ret {A} (a : A) s (Q : A -> AcquireCamera -> Prop) :
  Q a s -> wp (mret a) s Q.
Proof. intros H. exists a, s. split; [reflexivity|exact H]. Qed.

Lemma wp_bind {A B} (m : M A) (f : A -> M B) s (Q : B -> AcquireCamera -> Prop) :
  wp m s (fun a s' => wp (f a) s' Q) -> wp (m ≫= f) s Q.
Proof.
  intros (a & s' & E & b & s'' & E' & HQ).
  exists b, s''. split; [|exact HQ]. erewrite bind_Returns by exact E. exact E'.
Qed.

Lemma wp_conseq {A} (m : M A) s (P Q : A -> AcquireCamera -> Prop) :
  wp m s P -> (∀ a s', P a s' -> Q a s') -> wp m s Q.
Proof. intros (a & s' & E & HP) H. exists a, s'. auto. Qed.

Lemma wp_get s (Q : AcquireCamera -> AcquireCamera -> Prop) :
  Q s s -> wp get s Q.
Proof. intros H. exists s, s. split; [reflexivity|exact H]. Qed.

Lemma wp_modify f s (Q : unit -> AcquireCamera -> Prop) :
  Q tt (f s) -> wp (modify f) s Q.
Proof. intros H. exists tt, (f s). split; [reflexivity|exact H]. Qed.

(** ** What a computation leaves as it was *)

Lemma same_buffers_refl s : same_buffers s s.
Proof. repeat split. Qed.

Lemma same_buffers_trans s1 s2 s3 :
  same_buffers s1 s2 -> same_buffers s2 s3 -> same_buffers s1 s3.
Proof. unfold same_buffers. intros (?&?&?&?) (?&?&?&?). repeat split; congruence. Qed.

Lemma same_layout_refl s : same_layout s s.
Proof. repeat split. Qed.

Lemma same_layout_trans s1 s2 s3 :
  same_layout s1 s2 -> same_layout s2 s3 -> same_layout s1 s3.
Proof. unfold same_layout. intros (?&?&?&?) (?&?&?&?). repeat split; congruence. Qed.

Lemma same_buffers_layout s s' : same_buffers s s' -> same_layout s s'.
Proof. intros (?&?&Hi&?). repeat split; try assumption. now rewrite Hi. Qed.

Lemma same_layout_demo_camera s s' :
  same_layout s s' -> demo_camera s -> demo_camera s'.
Proof.
  intros (Hd & Hm & Hp & Hl) (Hd0 & Hp0 & Hl0).
  unfold demo_camera, buffers_match_mode in *. rewrite Hd, Hp, Hl, Hm. auto.
Qed.

Lemma same_device_refl s : same_device s s.
Proof. repeat split. auto. Qed.

Lemma same_device_trans s1 s2 s3 :
  same_device s1 s2 -> same_device s2 s3 -> same_device s1 s3.
Proof.
  unfold same_device. intros (?&?&?&?&Hfst) (?&?&?&?&Hsnd).
  repeat split; try congruence. auto.
Qed.

Lemma frames_ret {A} (a : A) : frames (mret a).
Proof. intros s. apply wp_ret, same_device_refl. Qed.

Lemma frames_bind {A B} (m : M A) (f : A -> M B) :
  frames m -> (∀ a, frames (f a)) -> frames (m ≫= f).
Proof.
  intros Hm Hf s. apply wp_bind. eapply wp_conseq; [apply Hm|].
  intros a s' H1. eapply wp_conseq; [apply Hf|].
  intros b s'' H2. cbn beta in *. eapply same_device_trans; eassumption.
Qed.

Lemma frames_get : frames get.
Proof. intros s. apply wp_get, same_device_refl. Qed.

Lemma frames_emit e : frames (emit e).
Proof. intros s. apply wp_modify. repeat split; auto. Qed.

Lemma frames_CreateProperty name value : frames (CreateProperty name value).
Proof.
  intros s. apply wp_modify.
  destruct (properties_ s !! name) eqn:E; [apply same_device_refl|].
  repeat split. intros v Hv. cbn [properties_ set_properties].
  rewrite lookup_insert_ne; [exact Hv | congruence].
Qed.

Lemma frames_set_initialized v : frames (modify (set_initialized v)).
Proof. intros s. apply wp_modify. repeat split; auto. Qed.

Lemma frames_cpx_get_configuration : frames cpx_get_configuration.
Proof.
  apply frames_bind; [apply frames_emit|]. intros _.
  apply frames_bind; [apply frames_get|]. intros s. apply frames_ret.
Qed.

Lemma frames_device_manager_select kind pattern identifier :
  frames (device_manager_select kind pattern identifier).
Proof.
  apply frames_bind; [apply frames_emit|]. intros _.
  apply frames_bind; [apply frames_get|]. intros s.
  destruct (select_status (cpx s) kind pattern); apply frames_ret.
Qed.

Create HintDb frames.
#[local] Hint Resolve frames_ret frames_get frames_emit frames_CreateProperty
  frames_set_initialized frames_cpx_get_configuration
  frames_device_manager_select : frames.

(** ** Buffer set-up *)

Lemma setupBuffers_Returns s :
  ∃ s', setupBuffers s = Returns tt s'
        ∧ cpx s' = cpx s ∧ properties_ s' = properties_ s
        ∧ demo s' = demo s ∧ multiChannel s' = multiChannel s
        ∧ imgs s' = (if demo s then
                       if multiChannel s then
                         [Resize DEMO_IMAGE_WIDTH DEMO_IMAGE_HEIGHT 1 ImgBuffer_default;
                          Resize DEMO_IMAGE_WIDTH DEMO_IMAGE_HEIGHT 1 ImgBuffer_default]
                       else
                         [Resize DEMO_IMAGE_WIDTH (DEMO_IMAGE_HEIGHT * 2) 1 ImgBuffer_default]
                     else imgs s).
Proof.
  unfold setupBuffers, modify. eexists. split; [reflexivity|].
  destruct (demo s) eqn:Hd, (multiChannel s) eqn:Hm; cbn; rewrite ?Hd, ?Hm; auto.
Qed.

Lemma wp_setupBuffers s (Q : unit -> AcquireCamera -> Prop) :
  (∀ s', cpx s' = cpx s -> properties_ s' = properties_ s ->
         demo s' = demo s -> multiChannel s' = multiChannel s ->
         imgs s' = (if demo s then
                      if multiChannel s then
                        [Resize DEMO_IMAGE_WIDTH DEMO_IMAGE_HEIGHT 1 ImgBuffer_default;
                         Resize DEMO_IMAGE_WIDTH DEMO_IMAGE_HEIGHT 1 ImgBuffer_default]
                      else
                        [Resize DEMO_IMAGE_WIDTH (DEMO_IMAGE_HEIGHT * 2) 1 ImgBuffer_default]
                    else imgs s) ->
         Q tt s') ->
  wp setupBuffers s Q.
Proof.
  intros H. destruct (setupBuffers_Returns s) as (s' & E & ? & ? & ? & ? & ?).
  exists tt, s'. auto.
Qed.

(** C8: setting the buffers up twice in a row, the mode left as it is, gives
    the same number of buffers with the same dimensions as setting them up
    once. *)
Theorem setupBuffers_twice s :
  ∃ s1 s2,
    setupBuffers s = Returns tt s1
    ∧ setupBuffers s1 = Returns tt s2
    ∧ multiChannel s1 = multiChannel s
    ∧ multiChannel s2 = multiChannel s
    ∧ length (imgs s2) = length (imgs s1)
    ∧ map dims (imgs s2) = map dims (imgs s1).
Proof.
  destruct (setupBuffers_Returns s) as (s1 & E1 & _ & _ & Hd1 & Hm1 & Hi1).
  destruct (setupBuffers_Returns s1) as (s2 & E2 & _ & _ & Hd2 & Hm2 & Hi2).
  exists s1, s2. repeat split; try congruence.
  - rewrite Hi2, Hd1, Hm1, Hi1. now destruct (demo s), (multiChannel s).
  - rewrite Hi2, Hd1, Hm1, Hi1. now destruct (demo s), (multiChannel s).
Qed.

(** ** Initialize *)

(** [Initialize] on a camera not yet initialized whose Demo property is 1:
    demo mode, multi-channel, two demo-sized buffers, whatever the runtime
    answers. *)
Lemma Initialize_uninitialized s :
  initialized_ s = false ->
  properties_ s !! g_prop_Demo = Some "1" ->
  wp Initialize s (fun _ s' =>
    demo s' = true ∧ multiChannel s' = true ∧ cpx s' = cpx s
    ∧ imgs s' = [Resize DEMO_IMAGE_WIDTH DEMO_IMAGE_HEIGHT 1 ImgBuffer_default;
                 Resize DEMO_IMAGE_WIDTH DEMO_IMAGE_HEIGHT 1 ImgBuffer_default]
    ∧ properties_ s' !! g_prop_Demo = Some "1").
Proof.
  intros Hi Hp. unfold Initialize.
  apply wp_bind, wp_get. rewrite Hi.
  apply wp_bind. exists 1, s. split.
  { unfold GetProperty_long. rewrite Hp. reflexivity. }
  apply wp_bind, wp_modify.
  apply wp_bind. eapply wp_conseq; [apply frames_CreateProperty|].
  intros _ s1 (Hd1 & _ & _ & Hc1 & Hp1).
  apply wp_bind. eapply wp_conseq; [apply frames_CreateProperty|].
  intros _ s2 (Hd2 & _ & _ & Hc2 & Hp2).
  apply wp_bind, wp_modify.
  apply wp_bind, wp_setupBuffers. intros s3 Hc3 Hp3 Hd3 Hm3 Hi3.
  cbn [cpx properties_ demo multiChannel set_multiChannel] in Hc3, Hp3, Hd3, Hm3, Hi3.
  rewrite Hd2, Hd1 in Hd3, Hi3. cbn [demo set_demo] in Hd3, Hi3.
  rewrite bool_decide_eq_true_2 in Hd3, Hi3 by reflexivity.
  rewrite Hc2, Hc1 in Hc3. cbn [cpx set_demo] in Hc3.
  assert (Hp3' : properties_ s3 !! g_prop_Demo = Some "1").
  { rewrite Hp3. apply Hp2, Hp1. exact Hp. }
  eapply wp_conseq.
  { apply frames_bind; [auto with frames|]. intros s0.
    destruct (negb (cpx_alive (cpx s0))); [auto with frames|].
    apply frames_bind; [auto with frames|]. intros [ret props].
    destruct (decide (ret ≠ CpxStatus_Ok)); [auto with frames|].
    apply frames_bind; [auto with frames|]. intros [ret0 id0].
    destruct (decide (ret0 ≠ CpxStatus_Ok)); [auto with frames|].
    apply frames_bind; [auto with frames|]. intros [ret1 id1].
    destruct (decide (ret1 ≠ CpxStatus_Ok)); [auto with frames|].
    apply frames_bind; [auto with frames|]. intros s'.
    apply frames_bind; [auto with frames|]. intros _.
    apply frames_bind; [auto with frames|]. intros _.
    auto with frames. }
  intros c s4 (Hd4 & Hm4 & Hi4 & Hc4 & Hp4). cbn beta.
  rewrite Hd4, Hm4, Hi4, Hc4, Hd3, Hm3, Hi3, Hc3. repeat split. auto.
Qed.

Lemma Initialize_new rt :
  wp Initialize (AcquireCamera_new rt) (fun _ s0 =>
    demo s0 = true ∧ multiChannel s0 = true ∧ cpx s0 = rt
    ∧ imgs s0 = [Resize DEMO_IMAGE_WIDTH DEMO_IMAGE_HEIGHT 1 ImgBuffer_default;
                 Resize DEMO_IMAGE_WIDTH DEMO_IMAGE_HEIGHT 1 ImgBuffer_default]
    ∧ properties_ s0 !! g_prop_Demo = Some "1").
Proof.
  apply Initialize_uninitialized; [reflexivity|].
  cbn [properties_ AcquireCamera_new]. apply lookup_insert_eq.
Qed.

Lemma initialized_camera_spec rt :
  demo (initialized_camera rt) = true
  ∧ multiChannel (initialized_camera rt) = true
  ∧ cpx (initialized_camera rt) = rt
  ∧ imgs (initialized_camera rt)
    = [Resize DEMO_IMAGE_WIDTH DEMO_IMAGE_HEIGHT 1 ImgBuffer_default;
       Resize DEMO_IMAGE_WIDTH DEMO_IMAGE_HEIGHT 1 ImgBuffer_default].
Proof.
  destruct (Initialize_new rt) as (c & s0 & E & ? & ? & ? & ? & _).
  unfold initialized_camera. rewrite E. auto.
Qed.

(** [Initialize] keeps a demo camera a demo camera. *)
Lemma Initialize_demo s :
  demo_camera s -> wp Initialize s (fun _ s' => demo_camera s').
Proof.
  intros (Hd & Hp & Hl). destruct (initialized_ s) eqn:Hi.
  - unfold Initialize. apply wp_bind, wp_get. rewrite Hi.
    apply wp_ret. repeat split; assumption.
  - eapply wp_conseq; [apply Initialize_uninitialized; assumption|].
    intros _ s' (Hd' & Hm' & _ & Hi' & Hp').
    repeat split; try assumption.
    unfold buffers_match_mode. now rewrite Hm', Hi'.
Qed.

(** ** The mode handler *)

Lemma OnImageMode_AfterSet value s :
  ∃ s', OnImageMode value MM.AfterSet s = Returns (DEVICE_OK, value) s'
        ∧ setupBuffers (set_multiChannel (bool_decide (value = g_prop_Mode_Multi)) s)
          = Returns tt s'.
Proof.
  destruct (setupBuffers_Returns
              (set_multiChannel (bool_decide (value = g_prop_Mode_Multi)) s))
    as (s' & E & _).
  exists s'. split; [|exact E].
  unfold OnImageMode.
  destruct (decide (value = g_prop_Mode_Multi)) as [Hv|Hv].
  - rewrite (bool_decide_eq_true_2 _ Hv) in E.
    erewrite bind_Returns by reflexivity.
    erewrite bind_Returns by exact E. reflexivity.
  - rewrite (bool_decide_eq_false_2 _ Hv) in E.
    erewrite bind_Returns by reflexivity.
    erewrite bind_Returns by exact E. reflexivity.
Qed.

(** A mode change on a camera in demo mode. *)
Lemma OnImageMode_AfterSet_demo value s :
  demo s = true ->
  wp (OnImageMode value MM.AfterSet) s (fun r s' =>
    r = (DEVICE_OK, value)
    ∧ demo s' = true
    ∧ properties_ s' = properties_ s
    ∧ multiChannel s' = bool_decide (value = g_prop_Mode_Multi)
    ∧ map dims (imgs s')
      = if bool_decide (value = g_prop_Mode_Multi)
        then multi_layout else single_layout).
Proof.
  intros Hd. destruct (OnImageMode_AfterSet value s) as (s' & E & Es).
  exists (DEVICE_OK, value), s'. split; [exact E|]. split; [reflexivity|].
  destruct (setupBuffers_Returns
              (set_multiChannel (bool_decide (value = g_prop_Mode_Multi)) s))
    as (s1 & E1 & _ & Hp1 & Hd1 & Hm1 & Hi1).
  rewrite E1 in Es. injection Es as <-.
  cbn [properties_ demo multiChannel set_multiChannel] in Hp1, Hd1, Hm1, Hi1.
  rewrite Hd1, Hm1, Hi1, Hd, Hp1.
  split; [reflexivity|]. split; [reflexivity|]. split; [reflexivity|].
  now destruct (bool_decide (value = g_prop_Mode_Multi)).
Qed.

(** The handler keeps a demo camera a demo camera. *)
Lemma OnImageMode_demo value eAct s :
  demo_camera s -> wp (OnImageMode value eAct) s (fun _ s' => demo_camera s').
Proof.
  intros (Hd & Hp & Hl).
  destruct (decide (eAct = MM.AfterSet)) as [->|Hne].
  - eapply wp_conseq; [apply OnImageMode_AfterSet_demo, Hd|].
    intros r s' (_ & Hd' & Hp' & Hm' & Hl').
    repeat split; [exact Hd' | now rewrite Hp' |].
    unfold buffers_match_mode. now rewrite Hm', Hl'.
  - destruct eAct; try congruence;
      (eexists _, s; split; [reflexivity|]; repeat split; assumption).
Qed.

(** ** Channel accessors *)

Lemma size_minus_one (n : nat) :
  (1 <= n)%nat -> Z.of_nat n <= 2 ^ 64 ->
  to_size_t (Z.of_nat n - 1) = Z.of_nat n - 1.
Proof. intros H1 H2. unfold to_size_t. apply Z.mod_small. lia. Qed.

(** C9: with at least one buffer, a channel index at or past the number of
    buffers is rejected by both accessors (null pointer, and
    DEVICE_NONEXISTENT_CHANNEL with [name] untouched); an index below it
    gets that buffer's pixels and DEVICE_OK. *)
Theorem channel_accessors CopyLimitedString (s : AcquireCamera) (c : Z) (name : string) :
  (1 <= length (imgs s))%nat ->
  Z.of_nat (length (imgs s)) < 2 ^ 64 ->
  0 <= c < 2 ^ 32 ->
  (Z.of_nat (length (imgs s)) <= c ->
     GetImageBuffer c s = Returns None s
     ∧ GetChannelName CopyLimitedString c name s
       = Returns (DEVICE_NONEXISTENT_CHANNEL, name) s)
  ∧ (c < Z.of_nat (length (imgs s)) ->
     ∃ b,
       imgs s !! Z.to_nat c = Some b
       ∧ GetImageBuffer c s = Returns (Some (GetPixels b)) s
       ∧ GetChannelName CopyLimitedString c name s
         = Returns (DEVICE_OK,
                    CopyLimitedString
                      (if decide (c = 0) then "Camera-1" else "Camera-2")) s).
Proof.
  intros Hn Hsz Hc.
  unfold GetImageBuffer, GetChannelName.
  rewrite !(bind_Returns get _ s s s) by reflexivity.
  rewrite size_minus_one by lia.
  split; intros H.
  - rewrite !decide_True by lia. split; reflexivity.
  - rewrite !decide_False by lia.
    destruct (lookup_lt_is_Some_2 (imgs s) (Z.to_nat c)) as [b Hb]; [lia|].
    exists b. split; [exact Hb|]. split; [|reflexivity].
    erewrite bind_Returns; [reflexivity|].
    unfold img_at. rewrite decide_True by lia. now rewrite Hb.
Qed.

(** ** ASIBase *)

Section ASIBase_properties.

Import ASITiger.

Variable CopyLimitedString : string -> string.
Variable g_Msg : ErrorCode -> string.
Variable InitializeDefaultErrorMessages :
  list (ErrorCode * string) -> list (ErrorCode * string).

Lemma GetName_lookup (d : ASIBase) :
  GetName CopyLimitedString d
  = Some (CopyLimitedString
            match properties_ d !! MM.g_Keyword_Name with
            | Some v => CopyLimitedString v
            | None => "Undefined"
            end).
Proof.
  unfold GetName, HasProperty, GetProperty.
  destruct (properties_ d !! MM.g_Keyword_Name) as [v|] eqn:E.
  - rewrite bool_decide_eq_true_2 by eauto. reflexivity.
  - rewrite bool_decide_eq_false_2 by (intros [? ?]; discriminate). reflexivity.
Qed.

Lemma ASIBase_new_empty_name props msgs :
  properties_ (ASIBase_new g_Msg InitializeDefaultErrorMessages props msgs "")
  = props.
Proof. reflexivity. Qed.

(** C10: [GetName] copies the value of the Name property when the device
    has one and the string "Undefined" when it has none; an [ASIBase] built
    with the empty name creates no Name property, so its [GetName] gives the
    copy of "Undefined". *)
Theorem ASIBase_GetName (d : ASIBase) (props : gmap string string)
    (msgs : list (ErrorCode * string)) :
  (∀ v, properties_ d !! MM.g_Keyword_Name = Some v ->
        GetProperty CopyLimitedString MM.g_Keyword_Name d = Some (CopyLimitedString v)
        ∧ GetName CopyLimitedString d
          = Some (CopyLimitedString (CopyLimitedString v)))
  ∧ (properties_ d !! MM.g_Keyword_Name = None ->
        GetName CopyLimitedString d = Some (CopyLimitedString "Undefined"))
  ∧ (props !! MM.g_Keyword_Name = None ->
        let d0 := ASIBase_new g_Msg InitializeDefaultErrorMessages props msgs "" in
        properties_ d0 = props
        ∧ HasProperty MM.g_Keyword_Name d0 = false
        ∧ GetName CopyLimitedString d0 = Some (CopyLimitedString "Undefined")).
Proof.
  split; [|split].
  - intros v Hv. unfold GetProperty. rewrite GetName_lookup, Hv. split; reflexivity.
  - intros Hv. now rewrite GetName_lookup, Hv.
  - intros Hp d0. subst d0. rewrite GetName_lookup, ASIBase_new_empty_name, Hp.
    split; [reflexivity|]. split; [|reflexivity].
    unfold HasProperty. rewrite ASIBase_new_empty_name, Hp.
    apply bool_decide_eq_false_2. intros [? ?]; discriminate.
Qed.

(** A non-empty name on a device without a Name property is stored and read
    back by [GetName]. *)
Lemma ASIBase_GetName_named props msgs name :
  name ≠ "" -> props !! MM.g_Keyword_Name = None ->
  GetName CopyLimitedString
    (ASIBase_new g_Msg InitializeDefaultErrorMessages props msgs name)
  = Some (CopyLimitedString (CopyLimitedString name)).
Proof.
  intros Hn Hp. rewrite GetName_lookup. cbn [properties_ ASIBase_new].
  rewrite decide_True by exact Hn. unfold CreateProperty. rewrite Hp.
  now rewrite lookup_insert_eq.
Qed.

End ASIBase_properties.

(** ** Polling a stream *)

Lemma poll_ready fuel stream ms beg rest s :
  poll fuel stream ms (beg :: rest) s = Returns (beg, beg :: rest) s.
Proof. destruct fuel; reflexivity. Qed.

Lemma cpx_map_read_scheduled stream v later s :
  mapped (cpx s) !! stream = Some (v :: later) ->
  cpx_map_read stream s
  = Returns v
      (set_trace (trace s ++ [EvMapRead stream])
         (set_cpx (set_mapped (<[stream := later]> (mapped (cpx s))) (cpx s)) s)).
Proof.
  intros H. unfold cpx_map_read.
  erewrite bind_Returns by apply emit_Returns.
  erewrite bind_Returns by reflexivity.
  cbn [cpx set_trace]. rewrite H.
  erewrite bind_Returns by reflexivity. reflexivity.
Qed.

Lemma cpx_map_read_exhausted stream s :
  mapped (cpx s) !! stream = None ∨ mapped (cpx s) !! stream = Some [] ->
  cpx_map_read stream s = Returns [] (set_trace (trace s ++ [EvMapRead stream]) s).
Proof.
  intros H. unfold cpx_map_read.
  erewrite bind_Returns by apply emit_Returns.
  erewrite bind_Returns by reflexivity.
  cbn [cpx set_trace]. destruct H as [-> | ->]; reflexivity.
Qed.

Lemma poll_scheduled stream ms beg rest later K : ∀ fuel s,
  (K < fuel)%nat ->
  mapped (cpx s) !! stream = Some (replicate K [] ++ (beg :: rest) :: later) ->
  poll fuel stream ms [] s
  = Returns (beg, beg :: rest)
      (set_trace (trace s ++ poll_events (S K) stream ms)
         (set_cpx (set_mapped (<[stream := later]> (mapped (cpx s))) (cpx s)) s)).
Proof.
  induction K as [|K IH]; intros fuel s Hf Hs;
    (destruct fuel as [|fuel]; [lia|]); cbn [poll replicate app] in *.
  - erewrite bind_Returns by (apply cpx_map_read_scheduled; exact Hs).
    erewrite bind_Returns by apply emit_Returns.
    rewrite poll_ready. cbn [trace set_trace set_cpx poll_events].
    rewrite <- !app_assoc. reflexivity.
  - erewrite bind_Returns by (apply cpx_map_read_scheduled; exact Hs).
    erewrite bind_Returns by apply emit_Returns.
    rewrite IH with (fuel := fuel); [|lia|cbn; apply lookup_insert_eq].
    cbn [trace set_trace set_cpx cpx mapped set_mapped poll_events].
    rewrite insert_insert_eq, <- !app_assoc. reflexivity.
Qed.

Lemma map_read_poll stream ms beg rest later K fuel s :
  (K <= fuel)%nat ->
  mapped (cpx s) !! stream = Some (replicate K [] ++ (beg :: rest) :: later) ->
  (cpx_map_read stream ≫= poll fuel stream ms) s
  = Returns (beg, beg :: rest) (after_poll stream ms K later s).
Proof.
  intros Hf Hs. destruct K as [|K]; cbn [replicate app] in Hs.
  - erewrite bind_Returns by (apply cpx_map_read_scheduled; exact Hs).
    rewrite poll_ready. reflexivity.
  - erewrite bind_Returns by (apply cpx_map_read_scheduled; exact Hs).
    rewrite poll_scheduled with (K := K) (beg := beg) (rest := rest) (later := later);
      [|lia|cbn; apply lookup_insert_eq].
    unfold after_poll.
    cbn [trace set_trace set_cpx cpx mapped set_mapped poll_events].
    rewrite insert_insert_eq, <- !app_assoc. reflexivity.
Qed.

Lemma cpx_map_read_total stream s :
  ∃ v s1, cpx_map_read stream s = Returns v s1
          ∧ trace s1 = trace s ++ [EvMapRead stream]
          ∧ same_buffers s s1.
Proof.
  destruct (mapped (cpx s) !! stream) as [[|v later]|] eqn:E.
  - eexists _, _. split; [apply cpx_map_read_exhausted; auto|]. repeat split.
  - eexists _, _. split; [apply cpx_map_read_scheduled; eauto|]. repeat split.
  - eexists _, _. split; [apply cpx_map_read_exhausted; auto|]. repeat split.
Qed.

(** Whatever the stream shows, polling either ends on a non-empty view after
    some turns within the budget, or is still waiting when the budget ends;
    it touches nothing but the schedule and the trace. *)
Lemma poll_cases stream ms : ∀ fuel v s,
  (∃ k beg rest s',
      (k <= fuel)%nat
      ∧ poll fuel stream ms v s = Returns (beg, beg :: rest) s'
      ∧ trace s' = trace s ++ poll_events k stream ms
      ∧ same_buffers s s')
  ∨ (∃ s', poll fuel stream ms v s = Pending s'
           ∧ trace s' = trace s ++ poll_events fuel stream ms
           ∧ same_buffers s s').
Proof.
  induction fuel as [|fuel IH]; intros v s.
  - destruct v as [|beg rest].
    + right. exists s. cbn. rewrite app_nil_r. repeat split.
    + left. exists 0%nat, beg, rest, s. cbn. rewrite app_nil_r. repeat split. lia.
  - destruct v as [|beg rest].
    + cbn [poll].
      destruct (cpx_map_read_total stream s) as (v' & s1 & E1 & Ht1 & Hb1).
      erewrite bind_Returns by exact E1.
      erewrite bind_Returns by apply emit_Returns.
      destruct (IH v' (set_trace (trace s1 ++ [EvSleep ms]) s1))
        as [(k & beg & rest & s' & Hk & E & Ht & Hb) | (s' & E & Ht & Hb)].
      * left. exists (S k), beg, rest, s'. split; [lia|]. split; [exact E|].
        split.
        -- rewrite Ht. cbn [trace set_trace poll_events]. rewrite Ht1, <- !app_assoc.
           reflexivity.
        -- eapply same_buffers_trans; [exact Hb1|]. exact Hb.
      * right. exists s'. split; [exact E|]. split.
        -- rewrite Ht. cbn [trace set_trace poll_events]. rewrite Ht1, <- !app_assoc.
           reflexivity.
        -- eapply same_buffers_trans; [exact Hb1|]. exact Hb.
    + left. exists 0%nat, beg, rest, s. rewrite poll_ready. cbn. rewrite app_nil_r.
      repeat split. lia.
Qed.

Lemma bind_assoc {A B C} (m : M A) (f : A -> M B) (g : B -> M C) s :
  ((m ≫= f) ≫= g) s = (m ≫= fun a => f a ≫= g) s.
Proof. unfold mbind, M_bind. destruct (m s); reflexivity. Qed.

Lemma map_read_poll_then {B} stream ms beg rest later K fuel s
    (g : VideoFrame * View -> M B) :
  (K <= fuel)%nat ->
  mapped (cpx s) !! stream = Some (replicate K [] ++ (beg :: rest) :: later) ->
  (cpx_map_read stream ≫= fun v => poll fuel stream ms v ≫= g) s
  = g (beg, beg :: rest) (after_poll stream ms K later s).
Proof.
  intros Hf Hs. rewrite <- bind_assoc.
  erewrite bind_Returns by (apply map_read_poll; eassumption). reflexivity.
Qed.

(** ** Copying a payload *)

Lemma span_bytes_lower sizeof v :
  0 <= sizeof -> Forall (fun f => sizeof <= bytes_of_frame f) v ->
  0 <= span_bytes v.
Proof.
  intros H0 H. unfold span_bytes.
  induction H as [|f v Hf _ IH]; cbn [foldr]; lia.
Qed.

Lemma span_bytes_head sizeof beg rest :
  0 <= sizeof -> Forall (fun f => sizeof <= bytes_of_frame f) (beg :: rest) ->
  bytes_of_frame beg <= span_bytes (beg :: rest).
Proof.
  intros H0 H. inversion H as [|? ? Hb Hr]; subst.
  pose proof (span_bytes_lower sizeof rest H0 Hr) as Hl.
  unfold span_bytes in *. cbn [foldr]. lia.
Qed.

Lemma memcpy_Returns i offset src n b s :
  0 <= i -> imgs s !! Z.to_nat i = Some b ->
  0 <= offset -> 0 <= n -> n <= Z.of_nat (length src) ->
  offset + n <= Z.of_nat (length (GetPixels b)) ->
  memcpy i offset src n s
  = Returns tt (after_memcpy (Z.to_nat i) offset (take (Z.to_nat n) src) b s).
Proof.
  intros Hi Hb Ho Hn Hs Hd. unfold memcpy.
  rewrite decide_True by exact Hi. rewrite Hb.
  rewrite decide_True by auto. reflexivity.
Qed.

Lemma overlay_0 bytes px :
  overlay 0 bytes px = bytes ++ drop (length bytes) px.
Proof. reflexivity. Qed.

Lemma overlay_length offset bytes px :
  (offset + length bytes <= length px)%nat ->
  length (overlay offset bytes px) = length px.
Proof.
  intros H. unfold overlay. rewrite !length_app, length_take, length_drop. lia.
Qed.

(** ** The single-stream read *)

Lemma readFrame_Returns sizeof fuel stream props s K beg rest later b :
  (K <= fuel)%nat ->
  mapped (cpx s) !! stream = Some (replicate K [] ++ (beg :: rest) :: later) ->
  0 <= stream -> imgs s !! Z.to_nat stream = Some b ->
  0 <= bytes_of_frame beg - sizeof < 2 ^ 64 ->
  bytes_of_frame beg - sizeof <= Z.of_nat (length (data beg)) ->
  bytes_of_frame beg - sizeof <= Z.of_nat (length (GetPixels b)) ->
  readFrame sizeof fuel stream props s
  = Returns 0
      (after_unmap stream (to_uint32 (consumed_bytes (beg :: rest)))
         (after_memcpy (Z.to_nat stream) 0
            (take (Z.to_nat (bytes_of_frame beg - sizeof)) (data beg)) b
            (after_poll stream 10 K later s))).
Proof.
  intros Hf Hs Hst Hb Hn Hsrc Hdst. unfold readFrame.
  rewrite map_read_poll_then with (K := K) (beg := beg) (rest := rest) (later := later)
    by assumption.
  assert (En : to_size_t (bytes_of_frame beg - sizeof) = bytes_of_frame beg - sizeof)
    by (apply Z.mod_small; exact Hn).
  rewrite En.
  erewrite bind_Returns.
  2:{ apply memcpy_Returns with (b := b); try lia. exact Hb. }
  erewrite bind_Returns by apply emit_Returns. reflexivity.
Qed.

Lemma pow_32_lt_64 : 2 ^ 32 < 2 ^ 64.
Proof. reflexivity. Qed.

Lemma released_span sizeof v :
  0 <= sizeof -> Forall (fun f => sizeof <= bytes_of_frame f) v ->
  span_bytes v < 2 ^ 32 ->
  to_uint32 (consumed_bytes v) = span_bytes v.
Proof.
  intros H0 Hv Hs. pose proof (span_bytes_lower sizeof v H0 Hv).
  pose proof pow_32_lt_64.
  unfold to_uint32, consumed_bytes, to_size_t.
  rewrite (Z.mod_small (span_bytes v) (2 ^ 64)) by lia.
  apply Z.mod_small. lia.
Qed.

Lemma released_mod v : to_uint32 (consumed_bytes v) = span_bytes v mod 2 ^ 32.
Proof.
  unfold to_uint32, consumed_bytes, to_size_t.
  apply Z.mod_mod_divide. exists (2 ^ 32). reflexivity.
Qed.

(** C2, as the code has it: on the successful poll of a stream, [readFrame]
    copies exactly [bytes_of_frame - sizeof(VideoFrame)] bytes of the first
    frame's payload into the stream's buffer, and then releases the length
    of the view seen by that poll converted to [uint32_t], however many
    frames the view holds.  What is released is the length of the view
    exactly when that length is below 2^32.  ([bytes_of_frame] is a 64-bit
    field, so the bound on it excludes no frame.) *)
Theorem readFrame_copy_and_release sizeof fuel stream props s K beg rest later b :
  0 <= sizeof ->
  (K <= fuel)%nat ->
  mapped (cpx s) !! stream = Some (replicate K [] ++ (beg :: rest) :: later) ->
  Forall (fun f => sizeof <= bytes_of_frame f) (beg :: rest) ->
  bytes_of_frame beg < 2 ^ 64 ->
  0 <= stream -> imgs s !! Z.to_nat stream = Some b ->
  bytes_of_frame beg - sizeof <= Z.of_nat (length (data beg)) ->
  bytes_of_frame beg - sizeof <= Z.of_nat (length (GetPixels b)) ->
  let n := Z.to_nat (bytes_of_frame beg - sizeof) in
  let copied := take n (data beg) in
  let released := span_bytes (beg :: rest) mod 2 ^ 32 in
  ∃ s',
    readFrame sizeof fuel stream props s = Returns 0 s'
    ∧ Z.of_nat (length copied) = bytes_of_frame beg - sizeof
    ∧ imgs s' = <[Z.to_nat stream := SetPixels (copied ++ drop n (GetPixels b)) b]> (imgs s)
    ∧ trace s'
      = trace s ++ EvMapRead stream :: poll_events K stream 10
        ++ [EvMemcpy (Z.to_nat stream) 0 copied; EvUnmapRead stream released]
    ∧ (released = span_bytes (beg :: rest) <-> span_bytes (beg :: rest) < 2 ^ 32).
Proof.
  intros H0 Hf Hs Hv Hlt Hst Hb Hsrc Hdst n copied released.
  pose proof (span_bytes_lower sizeof _ H0 Hv) as Hl.
  assert (Hbeg : sizeof <= bytes_of_frame beg) by (inversion Hv; assumption).
  eexists. split.
  { apply readFrame_Returns with (K := K) (beg := beg) (rest := rest) (later := later) (b := b);
      try assumption. lia. }
  split; [|split; [|split]].
  - subst copied n. rewrite length_take. lia.
  - cbn [imgs after_unmap after_memcpy after_poll set_trace set_imgs set_cpx].
    rewrite overlay_0. subst copied n. rewrite length_take.
    do 3 f_equal. f_equal. lia.
  - cbn [trace after_unmap after_memcpy after_poll set_trace set_imgs set_cpx].
    rewrite released_mod. rewrite <- !app_assoc. reflexivity.
  - subst released.
    pose proof (Z.mod_pos_bound (span_bytes (beg :: rest)) (2 ^ 32) eq_refl) as Hm.
    split; intros H.
    + lia.
    + apply Z.mod_small. lia.
Qed.

(** C2 as worded, "the number of bytes released equals exactly the span
    length", fails on a view of 2^32 bytes or more: of a view of 2^32 + 66
    bytes (a frame of 66 bytes followed by one of 2^32), [readFrame]
    releases 66. *)
Lemma readFrame_releases_less_than_span :
  ∃ s', readFrame 64 3 0 CpxProperties_zero camera_huge_view = Returns 0 s'
        ∧ mapped (cpx camera_huge_view) !! 0 = Some [[frame_a; frame_huge]]
        ∧ trace s' = [EvMapRead 0; EvMemcpy 0 0 [x01; x02]; EvUnmapRead 0 66]
        ∧ span_bytes [frame_a; frame_huge] = 2 ^ 32 + 66.
Proof.
  eexists. split.
  { apply readFrame_Returns
      with (K := 0%nat) (beg := frame_a) (rest := [frame_huge]) (later := [])
           (b := Resize 2 2 1 ImgBuffer_default).
    - lia.
    - reflexivity.
    - lia.
    - reflexivity.
    - vm_compute. split; [discriminate | reflexivity].
    - vm_compute; discriminate.
    - vm_compute; discriminate. }
  split; [reflexivity|]. split; reflexivity.
Qed.

(** C6: a stream that shows nothing on the first [K] polls and one frame on
    poll [K + 1] has that frame's payload copied into its buffer, once, and
    that frame's bytes released, once; what the stream shows later is left
    for later reads. *)
Theorem readFrame_after_empty_polls sizeof K fuel stream props s frame later b :
  0 <= sizeof ->
  (K <= fuel)%nat ->
  mapped (cpx s) !! stream = Some (replicate K [] ++ [frame] :: later) ->
  Z.of_nat (length (data frame)) = bytes_of_frame frame - sizeof ->
  bytes_of_frame frame < 2 ^ 32 ->
  0 <= stream -> imgs s !! Z.to_nat stream = Some b ->
  (length (data frame) <= length (GetPixels b))%nat ->
  ∃ s',
    readFrame sizeof fuel stream props s = Returns 0 s'
    ∧ imgs s'
      = <[Z.to_nat stream :=
            SetPixels (data frame ++ drop (length (data frame)) (GetPixels b)) b]>
          (imgs s)
    ∧ mapped (cpx s') !! stream = Some later
    ∧ trace s'
      = trace s ++ EvMapRead stream :: poll_events K stream 10
        ++ [EvMemcpy (Z.to_nat stream) 0 (data frame);
            EvUnmapRead stream (bytes_of_frame frame)].
Proof.
  intros H0 Hf Hs Hlen Hsz Hst Hb Hfit.
  pose proof pow_32_lt_64.
  assert (En : Z.to_nat (bytes_of_frame frame - sizeof) = length (data frame)) by lia.
  eexists. split.
  { apply readFrame_Returns with (K := K) (beg := frame) (rest := []) (later := later) (b := b);
      try assumption; lia. }
  cbn [imgs cpx mapped trace after_unmap after_memcpy after_poll
         set_trace set_imgs set_cpx set_mapped].
  rewrite En, firstn_all, overlay_0.
  split; [reflexivity|]. split; [apply lookup_insert_eq|].
  rewrite (released_span sizeof) by (repeat constructor; unfold span_bytes; cbn [foldr]; lia).
  unfold span_bytes. cbn [foldr]. rewrite Z.add_0_r.
  rewrite <- !app_assoc. reflexivity.
Qed.

(** ** The dual-stream read *)







Lemma to_size_t_small z : 0 <= z < 2 ^ 64 -> to_size_t z = z.
Proof. apply Z.mod_small. Qed.

Lemma readFrames_first_stream sizeof fuel s K0 f0 r0 l0 b0 {B} (g : unit -> M B) :
  (K0 <= fuel)%nat ->
  mapped (cpx s) !! 0 = Some (replicate K0 [] ++ (f0 :: r0) :: l0) ->
  imgs s !! 0%nat = Some b0 ->
  0 <= bytes_of_frame f0 - sizeof < 2 ^ 64 ->
  bytes_of_frame f0 - sizeof <= Z.of_nat (length (data f0)) ->
  bytes_of_frame f0 - sizeof <= Z.of_nat (length (GetPixels b0)) ->
  (cpx_map_read 0 ≫= fun v =>
     poll fuel 0 5 v ≫= fun '(beg, v) =>
       memcpy 0 0 (data beg) (to_size_t (bytes_of_frame beg - sizeof)) ≫= fun _ =>
         cpx_unmap_read 0 (to_uint32 (consumed_bytes v)) ≫= g) s
  = g tt (after_unmap 0 (to_uint32 (consumed_bytes (f0 :: r0)))
            (after_memcpy 0 0
               (take (Z.to_nat (bytes_of_frame f0 - sizeof)) (data f0)) b0
               (after_poll 0 5 K0 l0 s))).
Proof.
  intros Hf Hs Hb Hn Hsrc Hdst.
  rewrite map_read_poll_then with (K := K0) (beg := f0) (rest := r0) (later := l0)
    by assumption.
  cbv beta iota.
  rewrite (to_size_t_small (bytes_of_frame f0 - sizeof)) by exact Hn.
  erewrite bind_Returns.
  2:{ apply memcpy_Returns with (b := b0); try lia. exact Hb. }
  erewrite bind_Returns by apply emit_Returns. reflexivity.
Qed.

(** [readFrames] with one stacked buffer: the result, as long as both copies
    stay inside the frames and the buffer. *)
Lemma readFrames_single_Returns sizeof fuel props s K0 f0 r0 l0 K1 f1 r1 l1 b :
  multiChannel s = false ->
  (K0 <= fuel)%nat -> (K1 <= fuel)%nat ->
  mapped (cpx s) !! 0 = Some (replicate K0 [] ++ (f0 :: r0) :: l0) ->
  mapped (cpx s) !! 1 = Some (replicate K1 [] ++ (f1 :: r1) :: l1) ->
  imgs s !! 0%nat = Some b ->
  0 <= bytes_of_frame f0 - sizeof < 2 ^ 64 ->
  bytes_of_frame f0 - sizeof <= Z.of_nat (length (data f0)) ->
  bytes_of_frame f0 - sizeof <= Z.of_nat (length (GetPixels b)) ->
  0 <= bytes_of_frame f1 - sizeof < 2 ^ 64 ->
  bytes_of_frame f1 - sizeof <= Z.of_nat (length (data f1)) ->
  let offset := to_size_t (to_size_t (Width b * Height b) * Depth b) / 2 in
  offset + (bytes_of_frame f1 - sizeof) <= Z.of_nat (length (GetPixels b)) ->
  let p0 := take (Z.to_nat (bytes_of_frame f0 - sizeof)) (data f0) in
  let p1 := take (Z.to_nat (bytes_of_frame f1 - sizeof)) (data f1) in
  let b' := SetPixels (overlay 0 p0 (GetPixels b)) b in
  readFrames sizeof fuel props s
  = Returns 0
      (after_unmap 1 (to_uint32 (consumed_bytes (f1 :: r1)))
         (after_memcpy 0 offset p1 b'
            (after_poll 1 5 K1 l1
               (after_unmap 0 (to_uint32 (consumed_bytes (f0 :: r0)))
                  (after_memcpy 0 0 p0 b (after_poll 0 5 K0 l0 s)))))).
Proof.
  intros Hm Hf0 Hf1 Hs0 Hs1 Hb Hn0 Hsrc0 Hdst0 Hn1 Hsrc1 offset Hdst1 p0 p1 b'.
  unfold readFrames. cbv zeta.
  rewrite readFrames_first_stream with (K0 := K0) (f0 := f0) (r0 := r0) (l0 := l0) (b0 := b)
    by assumption.
  fold p0.
  set (s1 := after_unmap 0 _ _).
  assert (Hs1' : mapped (cpx s1) !! 1 = Some (replicate K1 [] ++ (f1 :: r1) :: l1)).
  { subst s1. cbn. rewrite lookup_insert_ne by discriminate. exact Hs1. }
  assert (Hb1 : imgs s1 !! 0%nat = Some b').
  { subst s1. cbn [imgs after_unmap after_memcpy after_poll set_trace set_imgs set_cpx].
    apply list_lookup_insert_eq. apply lookup_lt_Some in Hb. exact Hb. }
  assert (Hm1 : multiChannel s1 = false) by exact Hm.
  clearbody s1.
  rewrite map_read_poll_then with (K := K1) (beg := f1) (rest := r1) (later := l1)
    by assumption.
  cbv beta iota.
  erewrite bind_Returns by reflexivity.
  cbn [multiChannel after_poll set_trace set_cpx]. rewrite Hm1.
  rewrite bind_assoc.
  erewrite bind_Returns.
  2:{ unfold img_at. rewrite decide_True by lia. cbn [imgs after_poll set_trace set_cpx].
      change (Z.to_nat 0) with 0%nat. rewrite Hb1. reflexivity. }
  rewrite (to_size_t_small (bytes_of_frame f1 - sizeof)) by exact Hn1.
  change (Width b') with (Width b). change (Height b') with (Height b).
  change (Depth b') with (Depth b). fold offset.
  assert (Ho : 0 <= offset).
  { subst offset. apply Z.div_pos; [|lia]. unfold to_size_t. apply Z.mod_pos_bound. lia. }
  erewrite bind_Returns.
  2:{ apply memcpy_Returns with (b := b'); try lia.
      - exact Hb1.
      - subst b'. cbn [GetPixels SetPixels]. rewrite overlay_length; [lia|].
        subst p0. rewrite length_take. cbn. lia. }
  erewrite bind_Returns by apply emit_Returns. reflexivity.
Qed.

Lemma overlay_stacked (p0 p1 px : list byte) :
  length px = (length p0 + length p1)%nat ->
  overlay (length p0) p1 (overlay 0 p0 px) = p0 ++ p1.
Proof.
  intros H. rewrite overlay_0. unfold overlay.
  rewrite take_app_length. f_equal.
  rewrite drop_app_ge by lia.
  rewrite drop_ge; [apply app_nil_r|]. rewrite length_drop. lia.
Qed.

Lemma stacked_offset (w h d : Z) :
  0 <= w < 2 ^ 32 -> 0 <= h < 2 ^ 32 -> 0 <= d -> w * h * d < 2 ^ 64 ->
  to_size_t (to_size_t (w * h) * d) / 2 = w * h * d / 2.
Proof.
  intros Hw Hh Hd Hn.
  assert (Hwh : 0 <= w * h < 2 ^ 64).
  { change (2 ^ 64) with (2 ^ 32 * 2 ^ 32). nia. }
  rewrite (to_size_t_small (w * h)) by exact Hwh.
  rewrite to_size_t_small by nia. reflexivity.
Qed.

(** C1: in single-channel mode [readFrames] writes the payload of stream 0
    into buffer 0 from byte 0 on and the payload of stream 1 into buffer 0
    from byte [width * height * depth / 2] on; with payloads of half the
    buffer each, the first half of buffer 0 is the payload of stream 0 and the
    second half is the payload of stream 1. *)
Theorem readFrames_single_stacked sizeof fuel props s K0 f0 r0 l0 K1 f1 r1 l1 b :
  multiChannel s = false ->
  (K0 <= fuel)%nat -> (K1 <= fuel)%nat ->
  mapped (cpx s) !! 0 = Some (replicate K0 [] ++ (f0 :: r0) :: l0) ->
  mapped (cpx s) !! 1 = Some (replicate K1 [] ++ (f1 :: r1) :: l1) ->
  imgs s !! 0%nat = Some b ->
  0 <= Width b < 2 ^ 32 -> 0 <= Height b < 2 ^ 32 -> 0 <= Depth b < 2 ^ 32 ->
  Z.of_nat (length (GetPixels b)) = Width b * Height b * Depth b ->
  Width b * Height b * Depth b < 2 ^ 64 ->
  let size := Width b * Height b * Depth b in
  let half := size / 2 in
  Z.of_nat (length (data f0)) = bytes_of_frame f0 - sizeof ->
  Z.of_nat (length (data f1)) = bytes_of_frame f1 - sizeof ->
  Z.of_nat (length (data f0)) <= size ->
  half + Z.of_nat (length (data f1)) <= size ->
  ∃ s' b',
    readFrames sizeof fuel props s = Returns 0 s'
    ∧ imgs s' !! 0%nat = Some b'
    ∧ dims b' = dims b
    ∧ GetPixels b'
      = overlay (Z.to_nat half) (data f1) (overlay 0 (data f0) (GetPixels b))
    ∧ trace s'
      = trace s
        ++ stream_events 0 K0 (EvMemcpy 0 0 (data f0))
             (to_uint32 (consumed_bytes (f0 :: r0)))
        ++ stream_events 1 K1 (EvMemcpy 0 half (data f1))
             (to_uint32 (consumed_bytes (f1 :: r1)))
    ∧ (Z.of_nat (length (data f0)) = half ->
       Z.of_nat (length (data f1)) = half ->
       size = 2 * half ->
       take (Z.to_nat half) (GetPixels b') = data f0
       ∧ drop (Z.to_nat half) (GetPixels b') = data f1).
Proof.
  intros Hm Hf0 Hf1 Hs0 Hs1 Hb Hw Hh Hd Hlen Hsz size half Hl0 Hl1 Hfit0 Hfit1.
  assert (Hhalf : 0 <= half) by (apply Z.div_pos; lia).
  assert (Hoff : to_size_t (to_size_t (Width b * Height b) * Depth b) / 2 = half).
  { apply stacked_offset; lia. }
  eexists _, _. split.
  { apply readFrames_single_Returns
      with (K0 := K0) (f0 := f0) (r0 := r0) (l0 := l0)
           (K1 := K1) (f1 := f1) (r1 := r1) (l1 := l1) (b := b);
      try assumption; try lia. }
  rewrite Hoff, <- Hl0, <- Hl1, !Nat2Z.id, !firstn_all.
  cbn [imgs trace after_unmap after_memcpy after_poll set_trace set_imgs set_cpx].
  rewrite list_insert_insert_eq.
  split; [apply list_lookup_insert_eq; apply lookup_lt_Some in Hb; exact Hb|].
  cbn [GetPixels SetPixels].
  split; [reflexivity|]. split; [reflexivity|]. split.
  { unfold stream_events.
    repeat (rewrite <- app_assoc || rewrite <- app_comm_cons). reflexivity. }
  intros E0 E1 Heven.
  assert (E0' : Z.to_nat half = length (data f0)) by lia.
  rewrite E0', overlay_stacked by lia.
  split; [apply take_app_length | apply drop_app_length].
Qed.

(** ** SnapImage *)

Lemma cpx_get_configuration_Returns s :
  ∃ r, cpx_get_configuration s
       = Returns r (set_trace (trace s ++ [EvGetConfiguration]) s).
Proof. eexists. reflexivity. Qed.

Lemma device_manager_select_Returns kind pattern identifier s :
  ∃ r, device_manager_select kind pattern identifier s
       = Returns r (set_trace (trace s ++ [EvSelect kind pattern]) s).
Proof.
  unfold device_manager_select.
  erewrite bind_Returns by apply emit_Returns.
  erewrite bind_Returns by reflexivity.
  cbn [cpx set_trace]. destruct (select_status (cpx s) kind pattern); eexists; reflexivity.
Qed.

Lemma cpx_configure_Returns props s :
  cpx_configure props s
  = match configure_status (cpx s) with
    | CpxStatus_Ok =>
        Returns CpxStatus_Ok
          (set_cpx (set_configuration props (cpx s))
             (set_trace (trace s ++ [EvConfigure props]) s))
    | CpxStatus_Error =>
        Returns CpxStatus_Error (set_trace (trace s ++ [EvConfigure props]) s)
    end.
Proof.
  unfold cpx_configure.
  erewrite bind_Returns by apply emit_Returns.
  erewrite bind_Returns by reflexivity.
  cbn [cpx set_trace]. destruct (configure_status (cpx s)); reflexivity.
Qed.

(** [SnapImage] up to the composite read, case by case on what [configure]
    and [start] answer. *)
Lemma SnapImage_cases sizeof fuel s b :
  imgs s !! 0%nat = Some b ->
  ∃ props,
    let s_cfg := set_trace (trace s ++ snap_setup_events ++ [EvConfigure props]) s in
    match configure_status (cpx s), start_status (cpx s) with
    | CpxStatus_Error, _ =>
        SnapImage sizeof fuel s
        = Returns ERR_CPX_CONFIURE_FAILED
            (set_trace (trace s_cfg ++ [EvLog "cpx_configure failed"]) s_cfg)
    | CpxStatus_Ok, CpxStatus_Error =>
        SnapImage sizeof fuel s
        = Throws "cpx_start failed"
            (set_trace (trace s_cfg ++ [EvStart])
               (set_cpx (set_configuration props (cpx s)) s_cfg))
    | CpxStatus_Ok, CpxStatus_Ok =>
        SnapImage sizeof fuel s
        = match readFrames sizeof fuel props
                  (set_trace (trace s_cfg ++ [EvStart])
                     (set_cpx (set_configuration props (cpx s)) s_cfg)) with
          | Returns _ s' => Returns DEVICE_OK (set_trace (trace s' ++ [EvStop]) s')
          | Throws what s' => Throws what s'
          | Undefined s' => Undefined s'
          | Pending s' => Pending s'
          end
    end.
Proof.
  intros Hb. unfold SnapImage, getCpxProperties.
  destruct (cpx_get_configuration_Returns s) as ([st props0] & E0).
  erewrite bind_Returns by exact E0. cbv beta iota.
  set (s1 := set_trace _ s) in *.
  destruct (device_manager_select_Returns DeviceKind_Camera "simulated.*random.*"
              (camera_identifier (video_0 props0)) s1) as ([st1 cam0] & E1).
  erewrite bind_Returns by exact E1. cbv beta iota.
  set (s2 := set_trace _ s1) in *.
  destruct (device_manager_select_Returns DeviceKind_Camera "simulated.*sin.*"
              (camera_identifier (video_1 props0)) s2) as ([st2 cam1] & E2).
  erewrite bind_Returns by exact E2. cbv beta iota.
  set (s3 := set_trace _ s2) in *.
  destruct (device_manager_select_Returns DeviceKind_Storage "Trash"
              (storage_identifier (video_0 props0)) s3) as ([st3 sto0] & E3).
  erewrite bind_Returns by exact E3. cbv beta iota.
  set (s4 := set_trace _ s3) in *.
  destruct (device_manager_select_Returns DeviceKind_Storage "Trash"
              (storage_identifier (video_1 props0)) s4) as ([st4 sto1] & E4).
  erewrite bind_Returns by exact E4. cbv beta iota.
  set (s5 := set_trace _ s4) in *.
  erewrite bind_Returns.
  2:{ unfold img_at. rewrite decide_True by lia. change (imgs s5) with (imgs s).
      change (Z.to_nat 0) with 0%nat. rewrite Hb. reflexivity. }
  cbv zeta.
  match goal with |- context [cpx_configure ?p] => set (props := p) end.
  exists props. cbv zeta.
  assert (Es5 : s5 = set_trace (trace s ++ snap_setup_events) s).
  { subst s5 s4 s3 s2 s1. cbn [trace set_trace]. unfold snap_setup_events.
    repeat (rewrite <- app_assoc || rewrite <- app_comm_cons). reflexivity. }
  assert (Et : trace s5 ++ [EvConfigure props]
               = trace s ++ snap_setup_events ++ [EvConfigure props]).
  { rewrite Es5. cbn [trace set_trace]. now rewrite <- app_assoc. }
  assert (Ec : configure_status (cpx s5) = configure_status (cpx s)) by reflexivity.
  destruct (configure_status (cpx s)) eqn:Hc.
  - erewrite bind_Returns by (rewrite cpx_configure_Returns, Ec; reflexivity).
    rewrite decide_False by (intros H; now apply H).
    unfold cpx_start.
    rewrite bind_assoc. erewrite bind_Returns by apply emit_Returns.
    rewrite bind_assoc. erewrite bind_Returns by reflexivity.
    erewrite bind_Returns by reflexivity.
    cbn [cpx trace set_trace set_cpx start_status set_configuration].
    change (start_status (cpx s5)) with (start_status (cpx s)).
    rewrite Et. rewrite Es5. cbn [cpx set_trace].
    destruct (start_status (cpx s)).
    + rewrite decide_False by (intros H; now apply H).
      unfold mbind at 1, M_bind at 1.
      destruct (readFrames _ _ _ _); reflexivity.
    + rewrite decide_True by discriminate. reflexivity.
  - erewrite bind_Returns by (rewrite cpx_configure_Returns, Ec; reflexivity).
    rewrite decide_True by discriminate.
    unfold LogMessage. erewrite bind_Returns by apply emit_Returns.
    cbn [trace set_trace]. rewrite Et, Es5. reflexivity.
Qed.

(** C5, as the code has it: a configuration failure ends [SnapImage] before
    start and acquisition and returns the "configure failed" code; a start
    failure ends it before acquisition with a C++ exception, no code is
    returned; when start succeeds and the composite read returns, the frame
    source is then stopped and [SnapImage] returns DEVICE_OK. *)
Theorem SnapImage_outcomes sizeof fuel s b :
  imgs s !! 0%nat = Some b ->
  ∃ props,
    let setup := trace s ++ snap_setup_events ++ [EvConfigure props] in
    (configure_status (cpx s) = CpxStatus_Error ->
       ∃ s', SnapImage sizeof fuel s = Returns ERR_CPX_CONFIURE_FAILED s'
             ∧ trace s' = setup ++ [EvLog "cpx_configure failed"]
             ∧ imgs s' = imgs s)
    ∧ (configure_status (cpx s) = CpxStatus_Ok ->
       start_status (cpx s) = CpxStatus_Error ->
       ∃ s', SnapImage sizeof fuel s = Throws "cpx_start failed" s'
             ∧ trace s' = setup ++ [EvStart]
             ∧ imgs s' = imgs s)
    ∧ (configure_status (cpx s) = CpxStatus_Ok ->
       start_status (cpx s) = CpxStatus_Ok ->
       ∃ s1, trace s1 = setup ++ [EvStart]
             ∧ same_buffers s s1
             ∧ mapped (cpx s1) = mapped (cpx s)
             ∧ ∀ r s2, readFrames sizeof fuel props s1 = Returns r s2 ->
                 SnapImage sizeof fuel s
                 = Returns DEVICE_OK (set_trace (trace s2 ++ [EvStop]) s2)).
Proof.
  intros Hb. destruct (SnapImage_cases sizeof fuel s b Hb) as (props & H).
  exists props. cbv zeta in *. split; [|split].
  - intros Hc. rewrite Hc in H. eexists. split; [exact H|]. split; reflexivity.
  - intros Hc Hs. rewrite Hc, Hs in H. eexists. split; [exact H|]. split; reflexivity.
  - intros Hc Hs. rewrite Hc, Hs in H.
    match type of H with
    | _ = match readFrames _ _ _ ?s1 with _ => _ end => exists s1
    end.
    split; [reflexivity|]. split; [repeat split|]. split; [reflexivity|].
    intros r s2 E. rewrite E in H. exact H.
Qed.

(** ** IEEE 754: digits *)

Lemma Zdigits2_double z : 0 < z -> Zdigits2 (2 * z) = Zdigits2 z + 1.
Proof.
  destruct z as [|p|p]; try lia. intros _.
  change (2 * Zpos p) with (Zpos (xO p)). cbn [Zdigits2 digits2_pos]. lia.
Qed.

Lemma Zdigits2_shift z k : 0 < z -> 0 <= k -> Zdigits2 (z * 2 ^ k) = Zdigits2 z + k.
Proof.
  intros Hz Hk. revert k Hk. apply natlike_ind.
  - rewrite Z.mul_1_r. lia.
  - intros k Hk IH. rewrite Z.pow_succ_r by exact Hk.
    replace (z * (2 * 2 ^ k)) with (2 * (z * 2 ^ k)) by ring.
    rewrite Zdigits2_double by (apply Z.mul_pos_pos; [lia | apply Z.pow_pos_nonneg; lia]).
    lia.
Qed.

Lemma digits2_pos_size p : digits2_pos p = Pos.size p.
Proof. induction p; cbn; congruence. Qed.

Lemma Zdigits2_upper p : Zpos p < 2 ^ Zdigits2 (Zpos p).
Proof.
  cbn [Zdigits2]. rewrite digits2_pos_size.
  pose proof (Pos.size_gt p) as H.
  apply Pos2Z.pos_lt_pos in H. now rewrite Pos2Z.inj_pow in H.
Qed.

Lemma Zdigits2_lower p : 2 ^ (Zdigits2 (Zpos p) - 1) <= Zpos p.
Proof.
  cbn [Zdigits2]. rewrite digits2_pos_size.
  pose proof (Pos.size_le p) as H.
  apply Pos2Z.pos_le_pos in H. rewrite Pos2Z.inj_pow in H.
  replace (Zpos (Pos.size p)) with (Z.succ (Zpos (Pos.size p) - 1)) in H by lia.
  rewrite Z.pow_succ_r in H by lia.
  change (Zpos p~0) with (2 * Zpos p) in H. lia.
Qed.

Lemma Zdigits2_le_of_lt p k : 0 <= k -> Zpos p < 2 ^ k -> Zdigits2 (Zpos p) <= k.
Proof.
  intros Hk H. destruct (Z.le_gt_cases (Zdigits2 (Zpos p)) k) as [|Hgt]; [assumption|].
  pose proof (Zdigits2_lower p) as Hl.
  assert (2 ^ k <= 2 ^ (Zdigits2 (Zpos p) - 1)) by (apply Z.pow_le_mono_r; lia).
  lia.
Qed.

Lemma Zdigits2_mul_1000 p : Zdigits2 (Zpos p * 1000) <= Zdigits2 (Zpos p) + 10.
Proof.
  change (Zpos p * 1000) with (Zpos (p * 1000)).
  assert (Hd : 0 < Zdigits2 (Zpos p)) by (cbn; lia).
  apply Zdigits2_le_of_lt; [lia|].
  rewrite Z.pow_add_r by lia. rewrite Pos2Z.inj_mul.
  pose proof (Zdigits2_upper p). change (2 ^ 10) with 1024.
  assert (0 < 2 ^ Zdigits2 (Zpos p)) by (apply Z.pow_pos_nonneg; lia).
  nia.
Qed.

(** ** IEEE 754: shifting right without loss *)

Lemma iter_pos_nat {A} (f : A -> A) p x :
  SpecFloat.iter_pos f p x = Nat.iter (Pos.to_nat p) f x.
Proof.
  revert x. induction p as [p IH|p IH|]; intros x; cbn [SpecFloat.iter_pos].
  - rewrite Pos2Nat.inj_xI. cbn [Nat.iter Nat.mul].
    rewrite !IH. rewrite <- Nat.iter_add.
    replace (Pos.to_nat p + Pos.to_nat p)%nat with (2 * Pos.to_nat p)%nat by lia.
    rewrite <- Nat.iter_succ_r. reflexivity.
  - rewrite Pos2Nat.inj_xO. rewrite !IH, <- Nat.iter_add.
    f_equal. lia.
  - reflexivity.
Qed.

Lemma shr_1_double m : 0 <= m -> shr_1 (exact_record (2 * m)) = exact_record m.
Proof. destruct m as [|p|p]; try lia; reflexivity. Qed.

Lemma iter_shr_1_exact n : forall m, 0 <= m ->
  Nat.iter n shr_1 (exact_record (m * 2 ^ Z.of_nat n)) = exact_record m.
Proof.
  induction n as [|n IH]; intros m Hm.
  - cbn. now rewrite Z.mul_1_r.
  - rewrite Nat.iter_succ_r, Nat2Z.inj_succ, Z.pow_succ_r by lia.
    replace (m * (2 * 2 ^ Z.of_nat n)) with (2 * (m * 2 ^ Z.of_nat n)) by ring.
    rewrite shr_1_double by (apply Z.mul_nonneg_nonneg; [lia | apply Z.pow_nonneg; lia]).
    apply IH. exact Hm.
Qed.

Lemma shr_exact m e n :
  0 <= m -> 0 <= n ->
  shr (exact_record (m * 2 ^ n)) e n = (exact_record m, e + n).
Proof.
  intros Hm Hn. destruct n as [|p|p]; try lia.
  - cbn. now rewrite Z.mul_1_r, Z.add_0_r.
  - cbn [shr]. rewrite iter_pos_nat.
    rewrite <- (positive_nat_Z p) at 1. now rewrite iter_shr_1_exact.
Qed.

(** ** IEEE 754: rounding a value that needs none *)

Section Round.
Variables prec emax : Z.

Lemma binary_round_aux_exact s mx ex m e :
  ex <= e ->
  mx = Zpos m * 2 ^ (e - ex) ->
  bounded prec emax m e = true ->
  binary_round_aux prec emax s mx ex loc_Exact = S754_finite s m e.
Proof.
  intros Hle Hmx Hb.
  apply andb_prop in Hb. destruct Hb as [Hc Hb].
  unfold canonical_mantissa in Hc. apply Z.eqb_eq in Hc. apply Z.leb_le in Hb.
  unfold binary_round_aux, shr_fexp.
  assert (Hd : Zdigits2 mx + ex = Zpos (digits2_pos m) + e).
  { rewrite Hmx, Zdigits2_shift by lia. cbn [Zdigits2]. lia. }
  rewrite Hd, Hc. cbn [shr_record_of_loc]. fold (exact_record mx).
  rewrite Hmx, shr_exact by lia.
  replace (ex + (e - ex)) with e by lia.
  cbn [exact_record shr_m loc_of_shr_record round_nearest_even].
  cbn [Zdigits2]. rewrite Hc, Z.sub_diag. cbn [shr shr_record_of_loc shr_m].
  apply Z.leb_le in Hb. now rewrite Hb.
Qed.

End Round.

(** ** IEEE 754: binary32 numbers among the binary64 numbers *)

Lemma Pos_iter_xO m d : Zpos (Pos.iter xO m d) = Zpos m * 2 ^ Zpos d.
Proof.
  induction d as [|d IH] using Pos.peano_ind.
  - cbn. lia.
  - rewrite Pos.iter_succ, Pos2Z.inj_succ, Z.pow_succ_r by lia.
    change (Zpos (Pos.iter xO m d)~0) with (2 * Zpos (Pos.iter xO m d)).
    rewrite IH. ring.
Qed.

Lemma widen_canonical m e :
  bounded 24 128 m e = true ->
  widen_exponent m e < e
  /\ Zpos (widen_mantissa m e) = Zpos m * 2 ^ (e - widen_exponent m e)
  /\ bounded 53 1024 (widen_mantissa m e) (widen_exponent m e) = true.
Proof.
  intros Hb. apply andb_prop in Hb. destruct Hb as [Hc Hle].
  unfold canonical_mantissa in Hc. apply Z.eqb_eq in Hc. apply Z.leb_le in Hle.
  assert (He : widen_exponent m e < e).
  { unfold widen_exponent, fexp, emin in *. lia. }
  assert (Hm : Zpos (widen_mantissa m e) = Zpos m * 2 ^ (e - widen_exponent m e)).
  { unfold widen_mantissa. rewrite Pos_iter_xO, Z2Pos.id by lia. reflexivity. }
  split; [exact He|]. split; [exact Hm|].
  unfold bounded, canonical_mantissa. apply andb_true_intro. split.
  - apply Z.eqb_eq.
    assert (Hd : Zpos (digits2_pos (widen_mantissa m e)) + widen_exponent m e
                 = Zpos (digits2_pos m) + e).
    { change (Zpos (digits2_pos ?p)) with (Zdigits2 (Zpos p)).
      rewrite Hm, Zdigits2_shift by lia. lia. }
    rewrite Hd. reflexivity.
  - apply Z.leb_le. lia.
Qed.

Lemma f64_of_f32_exact s m e :
  bounded 24 128 m e = true ->
  f64_of_f32 (S754_finite s m e)
  = S754_finite s (widen_mantissa m e) (widen_exponent m e).
Proof.
  intros Hb. destruct (widen_canonical m e Hb) as (He & Hm & Hb64).
  assert (Hn : f64_of_f32 (S754_finite s m e) = binary_round 53 1024 s m e)
    by (destruct s; reflexivity).
  rewrite Hn. unfold binary_round, shl_align. fold (widen_exponent m e).
  destruct (widen_exponent m e - e) as [|p|p] eqn:E; try lia.
  replace p with (Z.to_pos (e - widen_exponent m e)) by lia.
  fold (widen_mantissa m e).
  apply binary_round_aux_exact; [lia | rewrite Z.sub_diag; lia | exact Hb64].
Qed.

Lemma f32_of_f64_exact s m e :
  bounded 24 128 m e = true ->
  f32_of_f64 (S754_finite s (widen_mantissa m e) (widen_exponent m e))
  = S754_finite s m e.
Proof.
  intros Hb. destruct (widen_canonical m e Hb) as (He & Hm & Hb64).
  pose proof Hb as Hb'. apply andb_prop in Hb'. destruct Hb' as [Hc _].
  unfold canonical_mantissa in Hc. apply Z.eqb_eq in Hc.
  set (m64 := widen_mantissa m e) in *. set (e64 := widen_exponent m e) in *.
  assert (Hn : f32_of_f64 (S754_finite s m64 e64) = binary_round 24 128 s m64 e64)
    by (destruct s; reflexivity).
  rewrite Hn. unfold binary_round, shl_align.
  assert (Hd : Zpos (digits2_pos m64) + e64 = Zpos (digits2_pos m) + e).
  { change (Zpos (digits2_pos ?p)) with (Zdigits2 (Zpos p)).
    rewrite Hm, Zdigits2_shift by lia. lia. }
  rewrite Hd, Hc.
  destruct (e - e64) as [|p|p] eqn:E; try lia.
  apply binary_round_aux_exact; [lia | rewrite E; exact Hm | exact Hb].
Qed.

(** ** IEEE 754: dividing by 1000 a multiple of 1000 *)

Lemma f64_of_Z_1000 : f64_of_Z 1000 = S754_finite false 8796093022208000 (-43).
Proof. reflexivity. Qed.

Lemma fexp_mono prec emax a b : a <= b -> fexp prec emax a <= fexp prec emax b.
Proof. unfold fexp. lia. Qed.

Lemma div_eucl_mul q b : b <> 0 -> Z.div_eucl (q * b) b = (q, 0).
Proof.
  intros Hb.
  pose proof (Z.div_mul q b Hb) as Hq. pose proof (Z.mod_mul q b Hb) as Hr.
  unfold Z.div, Z.modulo in Hq, Hr.
  destruct (Z.div_eucl (q * b) b) as [q' r']. congruence.
Qed.

Lemma f64_div_1000_exact s m64 e64 m x :
  bounded 53 1024 m x = true ->
  Zpos m64 * 2 ^ (e64 - Z.min e64 x) = Zpos m * 1000 * 2 ^ (x - Z.min e64 x) ->
  f64_div (S754_finite s m64 e64) (f64_of_Z 1000) = S754_finite s m x.
Proof.
  intros Hb Hv. pose proof Hb as Hb'.
  apply andb_prop in Hb'. destruct Hb' as [Hc Hle].
  unfold canonical_mantissa in Hc. apply Z.eqb_eq in Hc.
  rewrite f64_of_Z_1000. unfold f64_div, SFdiv, SFdiv_core_binary.
  set (lo := Z.min e64 x) in *.
  change (Zdigits2 8796093022208000) with 53.
  set (e' := Z.min (fexp 53 1024 (Zdigits2 (Zpos m64) + e64 - (53 + -43))) (e64 - -43)).
  (* magnitudes *)
  assert (Hmag : Zdigits2 (Zpos m64) + e64 <= Zdigits2 (Zpos m) + 10 + x).
  { assert (H1 : Zdigits2 (Zpos m64 * 2 ^ (e64 - lo)) = Zdigits2 (Zpos m64) + (e64 - lo))
      by (apply Zdigits2_shift; lia).
    assert (H2 : Zdigits2 (Zpos m * 1000 * 2 ^ (x - lo)) = Zdigits2 (Zpos m * 1000) + (x - lo))
      by (apply Zdigits2_shift; lia).
    rewrite Hv in H1. pose proof (Zdigits2_mul_1000 m). lia. }
  assert (He'x : e' <= x).
  { subst e'. etransitivity; [apply Z.le_min_l|].
    apply Z.le_trans with (fexp 53 1024 (Zpos (digits2_pos m) + x)); [|lia].
    apply fexp_mono. cbn [Zdigits2] in *. lia. }
  assert (He'e : e' <= e64 + 43) by (subst e'; lia).
  set (sh := e64 - -43 - e').
  assert (Hsh : 0 <= sh) by (subst sh; lia).
  assert (Hm' : match sh with
                | 0 => Zpos m64
                | Zpos _ => Z.shiftl (Zpos m64) sh
                | Zneg _ => 0
                end = Zpos m * 2 ^ (x - e') * 8796093022208000).
  { assert (Hshl : Zpos m64 * 2 ^ sh = Zpos m * 2 ^ (x - e') * 8796093022208000).
    { change 8796093022208000 with (1000 * 2 ^ 43).
      assert (Ht : 0 <= lo + 43 - e') by (subst lo; lia).
      replace sh with ((e64 - lo) + (lo + 43 - e')) by (subst sh; lia).
      rewrite Z.pow_add_r by lia. rewrite Z.mul_assoc, Hv.
      replace (Zpos m * 2 ^ (x - e') * (1000 * 2 ^ 43))
        with (Zpos m * 1000 * (2 ^ (x - e') * 2 ^ 43)) by ring.
      rewrite <- Z.pow_add_r by lia.
      replace (x - e' + 43) with ((x - lo) + (lo + 43 - e')) by lia.
      rewrite Z.pow_add_r by lia. ring. }
    clearbody sh. destruct sh as [|p|p]; try lia.
    rewrite Z.shiftl_mul_pow2 by lia. exact Hshl. }
  rewrite Hm'.
  set (q := Zpos m * 2 ^ (x - e')).
  rewrite div_eucl_mul by lia.
  change (new_location 8796093022208000 0) with loc_Exact.
  rewrite xorb_false_r.
  apply binary_round_aux_exact; [exact He'x | reflexivity | exact Hb].
Qed.

(** ** IEEE 754: multiplying by 1000 without rounding *)

Lemma Zdigits2_mono p q : Zpos p <= Zpos q -> Zdigits2 (Zpos p) <= Zdigits2 (Zpos q).
Proof.
  intros H. apply Zdigits2_le_of_lt; [cbn; lia|].
  pose proof (Zdigits2_upper q). lia.
Qed.

Lemma f64_mul_1000_exact s m x m64 e64 :
  bounded 53 1024 m x = true ->
  bounded 53 1024 m64 e64 = true ->
  Zpos m64 * 2 ^ (e64 - Z.min e64 x) = Zpos m * 1000 * 2 ^ (x - Z.min e64 x) ->
  f64_mul (S754_finite s m x) (f64_of_Z 1000) = S754_finite s m64 e64.
Proof.
  intros Hb Hb64 Hv.
  pose proof Hb as Hb'. apply andb_prop in Hb'. destruct Hb' as [Hc _].
  unfold canonical_mantissa in Hc. apply Z.eqb_eq in Hc.
  pose proof Hb64 as Hb'. apply andb_prop in Hb'. destruct Hb' as [Hc64 _].
  unfold canonical_mantissa in Hc64. apply Z.eqb_eq in Hc64.
  rewrite f64_of_Z_1000. unfold f64_mul, SFmul. rewrite xorb_false_r.
  set (lo := Z.min e64 x) in *.
  assert (Hmag : Zdigits2 (Zpos m) + x <= Zdigits2 (Zpos m64) + e64).
  { assert (H1 : Zdigits2 (Zpos m64 * 2 ^ (e64 - lo)) = Zdigits2 (Zpos m64) + (e64 - lo))
      by (apply Zdigits2_shift; lia).
    assert (H2 : Zdigits2 (Zpos m * 1000 * 2 ^ (x - lo)) = Zdigits2 (Zpos m * 1000) + (x - lo))
      by (apply Zdigits2_shift; lia).
    rewrite Hv in H1.
    assert (H3 : Zdigits2 (Zpos m) <= Zdigits2 (Zpos m * 1000)).
    { change (Zpos m * 1000) with (Zpos (m * 1000)). apply Zdigits2_mono. lia. }
    lia. }
  assert (Hx : x <= e64).
  { rewrite <- Hc, <- Hc64. apply fexp_mono. exact Hmag. }
  assert (Hlo : lo = x) by (subst lo; lia).
  rewrite Hlo, Z.sub_diag, Z.pow_0_r, Z.mul_1_r in Hv.
  apply binary_round_aux_exact; [lia | | exact Hb64].
  rewrite Pos2Z.inj_mul. change (Zpos 8796093022208000) with (1000 * 2 ^ 43).
  rewrite Z.mul_assoc, <- Hv, <- Z.mul_assoc, <- Z.pow_add_r by lia.
  f_equal. f_equal. lia.
Qed.

(** ** IEEE 754: scaling by 1000 and back *)

Lemma exposure_scaling_round_trip e :
  valid_binary 53 1024 e = true ->
  exact_under_scaling e ->
  f64_div (f64_of_f32 (f32_of_f64 (f64_mul e (f64_of_Z 1000)))) (f64_of_Z 1000) = e.
Proof.
  intros Hvalid Hexact. destruct e as [s|s| |s m x].
  - destruct s; reflexivity.
  - destruct s; reflexivity.
  - reflexivity.
  - cbn [valid_binary] in Hvalid. destruct Hexact as (m32 & e32 & Hb & Hv).
    unfold same_value in Hv. apply Z.eqb_eq in Hv.
    destruct (widen_canonical m32 e32 Hb) as (He & Hm & Hb64).
    set (m64 := widen_mantissa m32 e32) in *. set (e64 := widen_exponent m32 e32) in *.
    assert (Hv64 : Zpos m64 * 2 ^ (e64 - Z.min e64 x)
                   = Zpos m * 1000 * 2 ^ (x - Z.min e64 x)).
    { rewrite Hm.
      set (lo := Z.min e64 x). set (lo' := Z.min e32 x) in Hv.
      assert (Hlo : lo <= lo') by (subst lo lo'; lia).
      rewrite <- Z.mul_assoc, <- Z.pow_add_r by (subst lo; lia).
      replace (e32 - e64 + (e64 - lo)) with ((e32 - lo') + (lo' - lo)) by lia.
      rewrite Z.pow_add_r by (subst lo'; lia).
      rewrite Z.mul_assoc, Hv.
      rewrite <- Z.mul_assoc, <- Z.pow_add_r by (subst lo'; lia).
      f_equal. f_equal. lia. }
    rewrite (f64_mul_1000_exact s m x m64 e64 Hvalid Hb64 Hv64).
    subst m64 e64. rewrite (f32_of_f64_exact s m32 e32 Hb).
    rewrite (f64_of_f32_exact s m32 e32 Hb).
    apply f64_div_1000_exact; assumption.
Qed.


(** ** Exposure *)

Lemma getCpxProperties_Returns s :
  getCpxProperties s
  = Returns (get_configuration_status (cpx s),
             match get_configuration_status (cpx s) with
             | CpxStatus_Ok => configuration (cpx s)
             | CpxStatus_Error => CpxProperties_zero
             end)
      (set_trace (trace s ++ [EvGetConfiguration]) s).
Proof. reflexivity. Qed.

(** C7: an exposure [e] whose microsecond count [e * 1000] needs no
    rounding is stored by [SetExposure] as the float [e * 1000] and read back
    by [GetExposure], dividing by 1000, as [e]. *)
Theorem exposure_round_trip (e : spec_float) (s : AcquireCamera) :
  get_configuration_status (cpx s) = CpxStatus_Ok ->
  configure_status (cpx s) = CpxStatus_Ok ->
  valid_binary 53 1024 e = true ->
  exact_under_scaling e ->
  wp (SetExposure e) s (fun _ s1 =>
    exposure_time_us (settings (video_0 (configuration (cpx s1))))
    = f32_of_f64 (f64_mul e (f64_of_Z 1000))
    ∧ wp GetExposure s1 (fun r _ => r = e)).
Proof.
  intros Hg Hc Hvalid Hexact.
  unfold SetExposure.
  apply wp_bind. eexists _, _. split; [apply getCpxProperties_Returns|].
  rewrite Hg. cbv beta iota.
  rewrite decide_False by (intros H; now apply H).
  apply wp_bind, wp_ret. cbv zeta.
  apply wp_bind. eexists _, _. split.
  { unfold setCpxProperties. rewrite cpx_configure_Returns.
    cbn [cpx set_trace]. rewrite Hc. reflexivity. }
  rewrite decide_False by (intros H; now apply H).
  apply wp_ret. split; [reflexivity|].
  unfold GetExposure.
  apply wp_bind. eexists _, _. split; [apply getCpxProperties_Returns|].
  cbn [cpx set_cpx set_trace get_configuration_status set_configuration configuration].
  rewrite Hg. cbv beta iota.
  rewrite decide_False by (intros H; now apply H).
  apply wp_bind, wp_ret. apply wp_ret.
  cbn [video_0 settings with_exposure exposure_time_us].
  apply exposure_scaling_round_trip; assumption.
Qed.

(** The qualification matters: a third of a millisecond is not read back. *)
Lemma exposure_third_not_recovered :
  let third := f64_div (f64_of_Z 1) (f64_of_Z 3) in
  f64_div (f64_of_f32 (f32_of_f64 (f64_mul third (f64_of_Z 1000)))) (f64_of_Z 1000)
  ≠ third.
Proof. vm_compute. discriminate. Qed.

(** ** States the host can reach *)

Lemma keeps_ret {A} (a : A) : keeps (mret a).
Proof. intros s. apply same_layout_refl. Qed.

Lemma keeps_bind {A B} (m : M A) (f : A -> M B) :
  keeps m -> (∀ a, keeps (f a)) -> keeps (m ≫= f).
Proof.
  intros Hm Hf s. specialize (Hm s).
  unfold mbind, M_bind.
  destruct (m s) as [a s1|what s1|s1|s1]; cbn [state_of] in *; try exact Hm.
  eapply same_layout_trans; [exact Hm | apply Hf].
Qed.

Lemma keeps_get : keeps get.
Proof. intros s. apply same_layout_refl. Qed.

Lemma keeps_throw {A} what : keeps (throw (A := A) what).
Proof. intros s. apply same_layout_refl. Qed.

Lemma keeps_pending {A} : keeps (pending (A := A)).
Proof. intros s. apply same_layout_refl. Qed.

Lemma keeps_emit e : keeps (emit e).
Proof. intros s. repeat split. Qed.

Lemma keeps_set_cpx (f : AcquireCamera -> CpxRuntime) :
  keeps (modify (fun s => set_cpx (f s) s)).
Proof. intros s. repeat split. Qed.

Lemma keeps_img_at i : keeps (img_at i).
Proof.
  intros s. unfold img_at.
  destruct (decide (0 <= i)); [|apply same_layout_refl].
  destruct (imgs s !! Z.to_nat i); apply same_layout_refl.
Qed.

Lemma map_dims_insert (l : list ImgBuffer) i b px :
  l !! i = Some b -> map dims (<[i := SetPixels px b]> l) = map dims l.
Proof.
  revert i. induction l as [|a l IH]; intros [|i] H; simplify_eq/=;
    [reflexivity|]. f_equal. apply IH, H.
Qed.

Lemma keeps_memcpy i offset src n : keeps (memcpy i offset src n).
Proof.
  intros s. unfold memcpy.
  destruct (decide (0 <= i)); [|apply same_layout_refl].
  destruct (imgs s !! Z.to_nat i) as [b|] eqn:Hb; [|apply same_layout_refl].
  destruct (decide _); [|apply same_layout_refl].
  repeat split. cbn [state_of imgs set_trace set_imgs].
  apply map_dims_insert, Hb.
Qed.

Create HintDb keeps.
#[local] Hint Resolve keeps_ret keeps_get keeps_throw keeps_pending keeps_emit
  keeps_set_cpx keeps_img_at keeps_memcpy : keeps.

Ltac keeps_step :=
  first [ apply keeps_bind; [|intros ?]
        | progress auto with keeps
        | match goal with
          | |- keeps (match ?x with _ => _ end) => destruct x
          | |- keeps (if ?x then _ else _) => destruct x
          | |- keeps (let _ := _ in _) => cbv zeta
          end ].

Lemma keeps_cpx_map_read stream : keeps (cpx_map_read stream).
Proof. unfold cpx_map_read. repeat keeps_step. Qed.

Lemma keeps_cpx_unmap_read stream n : keeps (cpx_unmap_read stream n).
Proof. apply keeps_emit. Qed.

Lemma keeps_sleep_for ms : keeps (sleep_for ms).
Proof. apply keeps_emit. Qed.

Lemma keeps_LogMessage msg : keeps (LogMessage msg).
Proof. apply keeps_emit. Qed.

Lemma keeps_cpx_get_configuration : keeps cpx_get_configuration.
Proof. unfold cpx_get_configuration. repeat keeps_step. Qed.

Lemma keeps_cpx_configure props : keeps (cpx_configure props).
Proof. unfold cpx_configure. repeat keeps_step. Qed.

Lemma keeps_cpx_start : keeps cpx_start.
Proof. unfold cpx_start. repeat keeps_step. Qed.

Lemma keeps_cpx_stop : keeps cpx_stop.
Proof. unfold cpx_stop. repeat keeps_step. Qed.

Lemma keeps_device_manager_select kind pattern identifier :
  keeps (device_manager_select kind pattern identifier).
Proof. unfold device_manager_select. repeat keeps_step. Qed.

#[local] Hint Resolve keeps_cpx_map_read keeps_cpx_unmap_read keeps_sleep_for
  keeps_LogMessage keeps_cpx_get_configuration keeps_cpx_configure
  keeps_cpx_start keeps_cpx_stop keeps_device_manager_select : keeps.

Lemma keeps_poll stream ms : ∀ fuel v, keeps (poll fuel stream ms v).
Proof.
  induction fuel as [|fuel IH]; intros [|beg v]; cbn [poll];
    repeat keeps_step.
Qed.

#[local] Hint Resolve keeps_poll : keeps.

Lemma keeps_readFrames sizeof fuel props : keeps (readFrames sizeof fuel props).
Proof. unfold readFrames. repeat keeps_step. Qed.

Lemma keeps_SnapImage sizeof fuel : keeps (SnapImage sizeof fuel).
Proof.
  pose proof (keeps_readFrames sizeof fuel) as Hr.
  unfold SnapImage, getCpxProperties. repeat keeps_step.
Qed.

Lemma keeps_SetExposure exposure : keeps (SetExposure exposure).
Proof. unfold SetExposure, getCpxProperties, setCpxProperties. repeat keeps_step. Qed.

Lemma keeps_GetExposure : keeps GetExposure.
Proof. unfold GetExposure, getCpxProperties. repeat keeps_step. Qed.

(** Whatever the host calls and however the call ends, a demo camera stays
    a demo camera with the buffers of its mode. *)
Lemma host_call_demo sizeof c s :
  demo_camera s -> demo_camera (state_of (host_call sizeof c s)).
Proof.
  intros Hs. destruct c as [|value eAct|fuel|exposure|]; cbn [host_call].
  - destruct (Initialize_demo s Hs) as (a & s' & E & Hs').
    erewrite bind_Returns by exact E. exact Hs'.
  - destruct (OnImageMode_demo value eAct s Hs) as (a & s' & E & Hs').
    erewrite bind_Returns by exact E. exact Hs'.
  - eapply same_layout_demo_camera; [|exact Hs].
    apply (keeps_bind (SnapImage sizeof fuel) (fun _ => mret tt));
      [apply keeps_SnapImage | intros; apply keeps_ret].
  - eapply same_layout_demo_camera; [|exact Hs]. apply keeps_SetExposure.
  - eapply same_layout_demo_camera; [|exact Hs].
    apply (keeps_bind GetExposure (fun _ => mret tt));
      [apply keeps_GetExposure | intros; apply keeps_ret].
Qed.

Lemma reaches_demo sizeof s calls s' :
  reaches sizeof s calls s' -> demo_camera s -> demo_camera s'.
Proof.
  induction 1 as [s|s c calls s1 s2 E _ IH|s c calls what s1 s2 E _ IH];
    intros Hs; [exact Hs| |];
    apply IH; pose proof (host_call_demo sizeof c s Hs) as H1;
    rewrite E in H1; exact H1.
Qed.

(** C3: the first [Initialize] on a camera as constructed returns, and in
    the state it leaves (the first buffer set-up) and in every state the
    host reaches from there by any calls, mode changes among them, the
    buffers are those of the current mode: two of 640 by 480 in multi mode,
    one of 640 by 960 in single mode.  A change to either mode from any of
    these states returns and leaves exactly the buffers of that mode. *)
Theorem mode_change_buffers sizeof rt :
  wp Initialize (AcquireCamera_new rt) (fun _ s0 =>
    ∀ calls s, reaches sizeof s0 calls s ->
      map dims (imgs s)
      = (if multiChannel s
         then [(DEMO_IMAGE_WIDTH, DEMO_IMAGE_HEIGHT, 1);
               (DEMO_IMAGE_WIDTH, DEMO_IMAGE_HEIGHT, 1)]
         else [(DEMO_IMAGE_WIDTH, 2 * DEMO_IMAGE_HEIGHT, 1)])
      ∧ wp (OnImageMode g_prop_Mode_Multi MM.AfterSet) s (fun r s' =>
          r = (DEVICE_OK, g_prop_Mode_Multi)
          ∧ multiChannel s' = true
          ∧ length (imgs s') = 2%nat
          ∧ map dims (imgs s')
            = [(DEMO_IMAGE_WIDTH, DEMO_IMAGE_HEIGHT, 1);
               (DEMO_IMAGE_WIDTH, DEMO_IMAGE_HEIGHT, 1)])
      ∧ wp (OnImageMode g_prop_Mode_Single MM.AfterSet) s (fun r s' =>
          r = (DEVICE_OK, g_prop_Mode_Single)
          ∧ multiChannel s' = false
          ∧ length (imgs s') = 1%nat
          ∧ map dims (imgs s')
            = [(DEMO_IMAGE_WIDTH, 2 * DEMO_IMAGE_HEIGHT, 1)])).
Proof.
  eapply wp_conseq; [apply Initialize_new|].
  intros _ s0 (Hd0 & Hm0 & _ & Hi0 & Hp0) calls s Hr.
  assert (demo_camera s) as (Hd & Hp & Hl).
  { eapply reaches_demo; [exact Hr|].
    repeat split; try assumption.
    unfold buffers_match_mode. now rewrite Hm0, Hi0. }
  split; [exact Hl|]. split.
  - eapply wp_conseq; [apply OnImageMode_AfterSet_demo, Hd|].
    intros r s' (-> & _ & _ & Hm' & Hl'). cbn beta.
    rewrite bool_decide_eq_true_2 in Hm', Hl' by reflexivity.
    repeat split; try assumption.
    apply (f_equal length) in Hl'. now rewrite length_map in Hl'.
  - eapply wp_conseq; [apply OnImageMode_AfterSet_demo, Hd|].
    intros r s' (-> & _ & _ & Hm' & Hl'). cbn beta.
    rewrite bool_decide_eq_false_2 in Hm', Hl' by discriminate.
    repeat split; try assumption.
    apply (f_equal length) in Hl'. now rewrite length_map in Hl'.
Qed.

(** C5 as worded, "a start failure reports configure failed", fails: on a
    camera whose runtime fails to start, [SnapImage] raises an exception and
    reports nothing. *)
Lemma SnapImage_start_failure_not_reported :
  ¬ (start_status (cpx camera_start_fails) = CpxStatus_Error ->
     reports_configure_failed (SnapImage 64 1 camera_start_fails)).
Proof.
  intros H.
  destruct (initialized_camera_spec (runtime_with CpxStatus_Ok CpxStatus_Error ∅))
    as (_ & _ & Hc & Hi).
  fold camera_start_fails in Hc, Hi.
  destruct (SnapImage_cases 64 1 camera_start_fails
              (Resize DEMO_IMAGE_WIDTH DEMO_IMAGE_HEIGHT 1 ImgBuffer_default))
    as (props & E).
  { now rewrite Hi. }
  cbv zeta in E. rewrite Hc in E, H. cbn [configure_status start_status runtime_with] in E, H.
  destruct (H eq_refl) as (s' & E'). rewrite E in E'. discriminate E'.
Qed.

(** On the same camera the exception is what comes out. *)
Lemma SnapImage_start_failure_raises :
  raises_fault (SnapImage 64 1 camera_start_fails).
Proof.
  destruct (initialized_camera_spec (runtime_with CpxStatus_Ok CpxStatus_Error ∅))
    as (_ & _ & Hc & Hi).
  fold camera_start_fails in Hc, Hi.
  destruct (SnapImage_cases 64 1 camera_start_fails
              (Resize DEMO_IMAGE_WIDTH DEMO_IMAGE_HEIGHT 1 ImgBuffer_default))
    as (props & E).
  { now rewrite Hi. }
  cbv zeta in E. rewrite Hc in E. cbn [configure_status start_status runtime_with] in E.
  eexists _, _. exact E.
Qed.

(** ** Initialize: every way it ends *)

Lemma CreateProperty_Returns name value s :
  ∃ s', CreateProperty name value s = Returns tt s'
        ∧ initialized_ s' = initialized_ s
        ∧ multiChannel s' = multiChannel s
        ∧ demo s' = demo s
        ∧ imgs s' = imgs s
        ∧ cpx s' = cpx s
        ∧ trace s' = trace s
        ∧ properties_ s'
          = match properties_ s !! name with
            | Some _ => properties_ s
            | None => <[name := value]> (properties_ s)
            end.
Proof.
  unfold CreateProperty, modify. eexists. split; [reflexivity|].
  destruct (properties_ s !! name); repeat split.
Qed.

Lemma setupBuffers_keeps s s' :
  setupBuffers s = Returns tt s' ->
  initialized_ s' = initialized_ s ∧ trace s' = trace s.
Proof.
  unfold setupBuffers, modify. intros [= <-].
  destruct (demo s), (multiChannel s); split; reflexivity.
Qed.

(** [Initialize] on a camera not yet initialized that has a Demo property:
    the state [s1] once the buffers are set up, and from there on what the
    runtime answers. *)
Lemma Initialize_cases s v :
  initialized_ s = false ->
  properties_ s !! g_prop_Demo = Some v ->
  ∃ s1,
    initialized_ s1 = false
    ∧ multiChannel s1 = true
    ∧ demo s1 = bool_decide (atol v = 1)
    ∧ imgs s1
      = (if bool_decide (atol v = 1)
         then [Resize DEMO_IMAGE_WIDTH DEMO_IMAGE_HEIGHT 1 ImgBuffer_default;
               Resize DEMO_IMAGE_WIDTH DEMO_IMAGE_HEIGHT 1 ImgBuffer_default]
         else imgs s)
    ∧ cpx s1 = cpx s
    ∧ trace s1 = trace s
    ∧ properties_ s1
      = (let p := match properties_ s !! MM.g_Keyword_Binning with
                  | Some _ => properties_ s
                  | None => <[MM.g_Keyword_Binning := "1"]> (properties_ s)
                  end in
         match p !! g_prop_Mode with
         | Some _ => p
         | None => <[g_prop_Mode := g_prop_Mode_Multi]> p
         end)
    ∧ (cpx_alive (cpx s) = false -> Initialize s = Returns ERR_CPX_INIT s1)
    ∧ (cpx_alive (cpx s) = true ->
       get_configuration_status (cpx s) = CpxStatus_Error ->
       Initialize s
       = Returns (DEVICE_CPX_STATUS CpxStatus_Error)
           (set_trace (trace s ++ [EvGetConfiguration]) s1))
    ∧ (cpx_alive (cpx s) = true ->
       get_configuration_status (cpx s) = CpxStatus_Ok ->
       select_status (cpx s) DeviceKind_Camera "simulated.*random.*"
       = CpxStatus_Error ->
       Initialize s
       = Returns (DEVICE_CPX_STATUS CpxStatus_Error)
           (set_trace (trace s ++ [EvGetConfiguration;
                                   EvSelect DeviceKind_Camera "simulated.*random.*"])
              s1))
    ∧ (cpx_alive (cpx s) = true ->
       get_configuration_status (cpx s) = CpxStatus_Ok ->
       select_status (cpx s) DeviceKind_Camera "simulated.*random.*"
       = CpxStatus_Ok ->
       select_status (cpx s) DeviceKind_Camera "simulated.*sin.*"
       = CpxStatus_Error ->
       Initialize s
       = Returns (DEVICE_CPX_STATUS CpxStatus_Error)
           (set_trace (trace s ++ [EvGetConfiguration;
                                   EvSelect DeviceKind_Camera "simulated.*random.*";
                                   EvSelect DeviceKind_Camera "simulated.*sin.*"])
              s1))
    ∧ (cpx_alive (cpx s) = true ->
       get_configuration_status (cpx s) = CpxStatus_Ok ->
       select_status (cpx s) DeviceKind_Camera "simulated.*random.*"
       = CpxStatus_Ok ->
       select_status (cpx s) DeviceKind_Camera "simulated.*sin.*"
       = CpxStatus_Ok ->
       ∃ s2,
         Initialize s = Returns DEVICE_OK s2
         ∧ initialized_ s2 = true
         ∧ multiChannel s2 = true
         ∧ demo s2 = demo s1
         ∧ imgs s2 = imgs s1
         ∧ cpx s2 = cpx s
         ∧ trace s2
           = trace s ++ [EvGetConfiguration;
                         EvSelect DeviceKind_Camera "simulated.*random.*";
                         EvSelect DeviceKind_Camera "simulated.*sin.*"]
         ∧ properties_ s2
           = match properties_ s1 !! "LineIntervalUs" with
             | Some _ => properties_ s1
             | None => <["LineIntervalUs" := line_interval_us_text (cpx s)]>
                         (properties_ s1)
             end).
Proof.
  intros Hi Hp.
  set (d := bool_decide (atol v = 1)).
  destruct (CreateProperty_Returns MM.g_Keyword_Binning "1" (set_demo d s))
    as (sa & Ea & Hia & Hma & Hda & Hga & Hca & Hta & Hpa).
  destruct (CreateProperty_Returns g_prop_Mode g_prop_Mode_Multi sa)
    as (sb & Eb & Hib & Hmb & Hdb & Hgb & Hcb & Htb & Hpb).
  destruct (setupBuffers_Returns (set_multiChannel true sb))
    as (s1 & E1 & Hc1 & Hp1 & Hd1 & Hm1 & Hg1).
  cbn [cpx properties_ demo multiChannel imgs set_multiChannel] in Hc1, Hp1, Hd1, Hm1, Hg1.
  cbn [initialized_ trace set_demo] in Hia, Hta.
  destruct (setupBuffers_keeps _ _ E1) as (Hi1 & Ht1).
  cbn [initialized_ trace set_multiChannel] in Hi1, Ht1.
  rewrite Hib, Hia, Hi in Hi1. rewrite Htb, Hta in Ht1.
  assert (Hd1' : demo s1 = d) by (rewrite Hd1, Hdb, Hda; reflexivity).
  assert (Hc1' : cpx s1 = cpx s) by (rewrite Hc1, Hcb, Hca; reflexivity).
  assert (Hstart : ∀ k : AcquireCamera -> M DeviceCode,
             (s0 ← get;
              if initialized_ s0 then mret DEVICE_OK else
              demoVal ← GetProperty_long g_prop_Demo;
              modify (set_demo (bool_decide (demoVal = 1)));;
              CreateProperty MM.g_Keyword_Binning "1";;
              CreateProperty g_prop_Mode g_prop_Mode_Multi;;
              modify (set_multiChannel true);;
              setupBuffers;;
              s0 ← get; k s0) s = k s1 s1).
  { intros k.
    erewrite bind_Returns by reflexivity. rewrite Hi.
    erewrite bind_Returns by (unfold GetProperty_long; rewrite Hp; reflexivity).
    erewrite bind_Returns by reflexivity.
    erewrite bind_Returns by exact Ea.
    erewrite bind_Returns by exact Eb.
    erewrite bind_Returns by reflexivity.
    erewrite bind_Returns by exact E1.
    erewrite bind_Returns by reflexivity. reflexivity. }
  exists s1.
  split; [exact Hi1|]. split; [exact Hm1|]. split; [exact Hd1'|].
  split.
  { rewrite Hg1, Hdb, Hda, Hgb, Hga. reflexivity. }
  split; [exact Hc1'|]. split; [exact Ht1|].
  split.
  { rewrite Hp1, Hpb, Hpa. reflexivity. }
  unfold Initialize. rewrite Hstart, Hc1'.
  split; [intros ->; reflexivity|].
  split.
  { intros -> Hg. cbn [negb].
    erewrite bind_Returns by apply getCpxProperties_Returns.
    rewrite Hc1', Hg, Ht1. cbv beta iota. rewrite decide_True by discriminate.
    reflexivity. }
  assert (Hget : get_configuration_status (cpx s) = CpxStatus_Ok ->
            ∀ k : CpxStatusCode * CpxProperties -> M DeviceCode,
              (getCpxProperties ≫= k) s1
              = k (CpxStatus_Ok, configuration (cpx s))
                  (set_trace (trace s ++ [EvGetConfiguration]) s1)).
  { intros Hg k. erewrite bind_Returns by apply getCpxProperties_Returns.
    rewrite Hc1', Hg, Ht1. reflexivity. }
  assert (Hsel : ∀ pattern identifier t,
            device_manager_select DeviceKind_Camera pattern identifier
              (set_trace t s1)
            = Returns
                (match select_status (cpx s) DeviceKind_Camera pattern with
                 | CpxStatus_Ok =>
                     (CpxStatus_Ok, select_identifier (cpx s) DeviceKind_Camera pattern)
                 | CpxStatus_Error => (CpxStatus_Error, identifier)
                 end)
                (set_trace (t ++ [EvSelect DeviceKind_Camera pattern]) s1)).
  { intros pattern identifier t. unfold device_manager_select.
    erewrite bind_Returns by apply emit_Returns.
    erewrite bind_Returns by reflexivity.
    cbn [cpx set_trace trace]. rewrite Hc1'.
    destruct (select_status (cpx s) DeviceKind_Camera pattern); reflexivity. }
  split.
  { intros -> Hg H0. cbn [negb]. rewrite (Hget Hg). cbv beta iota.
    rewrite decide_False by (intros H; now apply H).
    erewrite bind_Returns by apply Hsel. rewrite H0. cbv beta iota.
    rewrite decide_True by discriminate.
    rewrite <- app_assoc. reflexivity. }
  split.
  { intros -> Hg H0 H1. cbn [negb]. rewrite (Hget Hg). cbv beta iota.
    rewrite decide_False by (intros H; now apply H).
    erewrite bind_Returns by apply Hsel. rewrite H0. cbv beta iota.
    rewrite decide_False by (intros H; now apply H).
    erewrite bind_Returns by apply Hsel. rewrite H1. cbv beta iota.
    rewrite decide_True by discriminate.
    rewrite <- !app_assoc. reflexivity. }
  intros -> Hg H0 H1. cbn [negb]. rewrite (Hget Hg). cbv beta iota.
  rewrite decide_False by (intros H; now apply H).
  erewrite bind_Returns by apply Hsel. rewrite H0. cbv beta iota.
  rewrite decide_False by (intros H; now apply H).
  erewrite bind_Returns by apply Hsel. rewrite H1. cbv beta iota.
  rewrite decide_False by (intros H; now apply H).
  erewrite bind_Returns by reflexivity.
  set (s3 := set_trace _ s1).
  destruct (CreateProperty_Returns "LineIntervalUs" (line_interval_us_text (cpx s3)) s3)
    as (s4 & E4 & Hi4 & Hm4 & Hd4 & Hg4 & Hc4 & Ht4 & Hp4).
  erewrite bind_Returns by exact E4.
  erewrite bind_Returns by reflexivity.
  eexists. split; [reflexivity|].
  cbn [initialized_ multiChannel demo imgs cpx trace properties_ set_initialized].
  rewrite Hm4, Hd4, Hg4, Hc4, Ht4, Hp4. subst s3.
  cbn [multiChannel demo imgs cpx trace properties_ set_trace].
  rewrite Hc1', <- !app_assoc.
  repeat split; try assumption.
Qed.

Lemma Initialize_initialized s :
  initialized_ s = true -> Initialize s = Returns DEVICE_OK s.
Proof.
  intros Hi. unfold Initialize.
  erewrite bind_Returns by reflexivity. now rewrite Hi.
Qed.

Lemma Initialize_no_Demo s :
  initialized_ s = false -> properties_ s !! g_prop_Demo = None ->
  Initialize s = Undefined s.
Proof.
  intros Hi Hp. unfold Initialize.
  erewrite bind_Returns by reflexivity. rewrite Hi.
  erewrite bind_Undefined; [reflexivity|].
  unfold GetProperty_long. now rewrite Hp.
Qed.

(** X1: on a camera that is not initialized and has a Demo property,
    [Initialize] always returns.  It returns DEVICE_OK exactly when the
    runtime comes up, hands out its configuration and finds both simulated
    cameras; a runtime that does not come up gives ERR_CPX_INIT without any
    further call, every other failure gives the runtime's status.  Only
    success sets the initialized flag, but in every case the camera has been
    put in multi-channel mode and, the Demo value being 1, its two buffers
    have been allocated before the runtime is tried. *)
Theorem Initialize_outcome s v :
  initialized_ s = false ->
  properties_ s !! g_prop_Demo = Some v ->
  ∃ code s',
    Initialize s = Returns code s'
    ∧ (code = DEVICE_OK
       ↔ cpx_alive (cpx s) = true
         ∧ get_configuration_status (cpx s) = CpxStatus_Ok
         ∧ select_status (cpx s) DeviceKind_Camera "simulated.*random.*"
           = CpxStatus_Ok
         ∧ select_status (cpx s) DeviceKind_Camera "simulated.*sin.*"
           = CpxStatus_Ok)
    ∧ (cpx_alive (cpx s) = false -> code = ERR_CPX_INIT ∧ trace s' = trace s)
    ∧ (cpx_alive (cpx s) = true -> code ≠ DEVICE_OK ->
       code = DEVICE_CPX_STATUS CpxStatus_Error)
    ∧ initialized_ s' = bool_decide (code = DEVICE_OK)
    ∧ multiChannel s' = true
    ∧ demo s' = bool_decide (atol v = 1)
    ∧ imgs s'
      = (if bool_decide (atol v = 1)
         then [Resize DEMO_IMAGE_WIDTH DEMO_IMAGE_HEIGHT 1 ImgBuffer_default;
               Resize DEMO_IMAGE_WIDTH DEMO_IMAGE_HEIGHT 1 ImgBuffer_default]
         else imgs s).
Proof.
  intros Hi Hp.
  destruct (Initialize_cases s v Hi Hp)
    as (s1 & Hi1 & Hm1 & Hd1 & Hg1 & Hc1 & Ht1 & _ & Ha & Hb & Hc & Hd & He).
  destruct (cpx_alive (cpx s)) eqn:Ealive.
  2:{ exists ERR_CPX_INIT, s1. split; [auto|].
      split; [split; [discriminate | intros (? & _); discriminate]|].
      repeat split; auto; discriminate. }
  destruct (get_configuration_status (cpx s)) eqn:Eget.
  2:{ eexists _, _. split; [apply Hb; reflexivity|].
      split; [split; [discriminate | intros (_ & ? & _); discriminate]|].
      repeat split; auto; discriminate. }
  destruct (select_status (cpx s) DeviceKind_Camera "simulated.*random.*") eqn:E0.
  2:{ eexists _, _. split; [apply Hc; reflexivity|].
      split; [split; [discriminate | intros (_ & _ & ? & _); discriminate]|].
      repeat split; auto; discriminate. }
  destruct (select_status (cpx s) DeviceKind_Camera "simulated.*sin.*") eqn:E1.
  2:{ eexists _, _. split; [apply Hd; reflexivity|].
      split; [split; [discriminate | intros (_ & _ & _ & ?); discriminate]|].
      repeat split; auto; discriminate. }
  destruct He as (s2 & E & Hi2 & Hm2 & Hd2 & Hg2 & Hc2 & _); try reflexivity.
  exists DEVICE_OK, s2. split; [exact E|].
  split; [split; auto|].
  split; [discriminate|]. split; [intros _ H; now contradiction H|].
  rewrite Hi2, Hm2, Hd2, Hg2, Hd1, Hg1. repeat split.
Qed.

(** X2: once [Initialize] has returned DEVICE_OK, calling it again returns
    DEVICE_OK and changes nothing: no call into the runtime, the mode and
    the image data stay as they are. *)
Theorem Initialize_again s s1 :
  Initialize s = Returns DEVICE_OK s1 ->
  Initialize s1 = Returns DEVICE_OK s1.
Proof.
  intros E. apply Initialize_initialized.
  destruct (initialized_ s) eqn:Hi.
  { rewrite Initialize_initialized in E by exact Hi. now injection E as <-. }
  destruct (properties_ s !! g_prop_Demo) as [v|] eqn:Hp.
  2:{ rewrite Initialize_no_Demo in E by assumption. discriminate. }
  destruct (Initialize_cases s v Hi Hp)
    as (s0 & _ & _ & _ & _ & _ & _ & _ & Ha & Hb & Hc & Hd & He).
  destruct (cpx_alive (cpx s)).
  2:{ rewrite Ha in E by reflexivity. discriminate. }
  destruct (get_configuration_status (cpx s)).
  2:{ rewrite Hb in E by reflexivity. discriminate. }
  destruct (select_status (cpx s) DeviceKind_Camera "simulated.*random.*").
  2:{ rewrite Hc in E by reflexivity. discriminate. }
  destruct (select_status (cpx s) DeviceKind_Camera "simulated.*sin.*").
  2:{ rewrite Hd in E by reflexivity. discriminate. }
  destruct He as (s2 & E2 & Hi2 & _); try reflexivity.
  rewrite E2 in E. now injection E as <-.
Qed.

(** ** Shutdown *)

Lemma Shutdown_Returns attached ret s :
  Shutdown attached ret s
  = Returns DEVICE_OK
      (set_initialized false
         (if attached && bool_decide (ret ≠ CpxStatus_Ok)
          then set_trace (trace s ++ [EvLog "px_shutdown error: "]) s
          else s)).
Proof.
  unfold Shutdown. destruct attached, ret; reflexivity.
Qed.

(** X3: [Shutdown] always returns DEVICE_OK and clears the initialized flag;
    it keeps the mode, the buffers and the properties.  The [Initialize]
    that follows therefore runs the whole set-up again: whatever the mode
    was and whatever the buffers held, the camera is back in multi-channel
    mode with two cleared buffers of 640 by 480. *)
Theorem Shutdown_then_Initialize attached ret s :
  properties_ s !! g_prop_Demo = Some "1" ->
  ∃ s1,
    Shutdown attached ret s = Returns DEVICE_OK s1
    ∧ initialized_ s1 = false
    ∧ multiChannel s1 = multiChannel s
    ∧ imgs s1 = imgs s
    ∧ properties_ s1 = properties_ s
    ∧ ∃ code s2,
        Initialize s1 = Returns code s2
        ∧ multiChannel s2 = true
        ∧ imgs s2
          = [Resize DEMO_IMAGE_WIDTH DEMO_IMAGE_HEIGHT 1 ImgBuffer_default;
             Resize DEMO_IMAGE_WIDTH DEMO_IMAGE_HEIGHT 1 ImgBuffer_default].
Proof.
  intros Hp. eexists. split; [apply Shutdown_Returns|].
  set (s1 := set_initialized false _).
  assert (Hi1 : initialized_ s1 = false) by reflexivity.
  assert (Hp1 : properties_ s1 = properties_ s).
  { subst s1. destruct (_ && _); reflexivity. }
  split; [exact Hi1|].
  split; [subst s1; destruct (_ && _); reflexivity|].
  split; [subst s1; destruct (_ && _); reflexivity|].
  split; [exact Hp1|].
  assert (Hp1' : properties_ s1 !! g_prop_Demo = Some "1") by (rewrite Hp1; exact Hp).
  clearbody s1.
  destruct (Initialize_cases s1 "1" Hi1 Hp1')
    as (s0 & _ & Hm0 & _ & Hg0 & _ & _ & _ & Ha & Hb & Hc & Hd & He).
  change (bool_decide (atol "1" = 1)) with true in Hg0. cbv iota in Hg0.
  destruct (cpx_alive (cpx s1)).
  2:{ eexists _, _. split; [apply Ha; reflexivity|]. auto. }
  destruct (get_configuration_status (cpx s1)).
  2:{ eexists _, _. split; [apply Hb; reflexivity|]. auto. }
  destruct (select_status (cpx s1) DeviceKind_Camera "simulated.*random.*").
  2:{ eexists _, _. split; [apply Hc; reflexivity|]. auto. }
  destruct (select_status (cpx s1) DeviceKind_Camera "simulated.*sin.*").
  2:{ eexists _, _. split; [apply Hd; reflexivity|]. auto. }
  destruct He as (s2 & E2 & _ & Hm2 & _ & Hg2 & _); try reflexivity.
  exists DEVICE_OK, s2. split; [exact E2|]. split; [exact Hm2|]. congruence.
Qed.

(** ** The accessors of buffer 0 *)

Lemma img_at_0_lookup s :
  img_at 0 s = match imgs s !! 0%nat with
               | Some b => Returns b s
               | None => Undefined s
               end.
Proof. reflexivity. Qed.

(** The six accessors that read [imgs[0]], on a camera whose first buffer
    is [b]. *)
Lemma buffer_0_accessors s b :
  imgs s !! 0%nat = Some b ->
  GetImageWidth s = Returns (Width b) s
  ∧ GetImageHeight s = Returns (Height b) s
  ∧ GetImageBytesPerPixel s = Returns (Depth b) s
  ∧ GetBitDepth s = Returns (to_uint32 (Depth b * 8)) s
  ∧ GetImageBufferSize s
    = Returns (to_uint32 (to_uint32 (Width b * Height b) * Depth b)) s
  ∧ GetImageBuffer0 s = Returns (GetPixels b) s.
Proof.
  intros Hb.
  unfold GetImageWidth, GetImageHeight, GetImageBytesPerPixel, GetBitDepth,
    GetImageBufferSize, GetImageBuffer0.
  repeat split; (erewrite bind_Returns by (rewrite img_at_0_lookup, Hb; reflexivity));
    reflexivity.
Qed.

(** X4: a camera without buffers, as the constructor leaves it until
    [Initialize] runs.  The accessors of buffer 0 and [SnapImage] index an
    empty vector.  The channel test [channel > imgs.size() - 1] compares
    with the largest [size_t] and rejects nothing: [GetImageBuffer(channel)]
    indexes the empty vector instead of answering the null pointer, and
    [GetChannelName] answers DEVICE_OK with a channel name although
    [GetNumberOfChannels] is 0. *)
Theorem no_buffers_no_bounds CopyLimitedString sizeof fuel s c name :
  imgs s = [] ->
  0 <= c < 2 ^ 32 ->
  GetNumberOfChannels s = 0
  ∧ GetImageBuffer c s = Undefined s
  ∧ GetChannelName CopyLimitedString c name s
    = Returns (DEVICE_OK,
               CopyLimitedString
                 (if decide (c = 0) then "Camera-1" else "Camera-2")) s
  ∧ GetImageBuffer0 s = Undefined s
  ∧ GetImageWidth s = Undefined s
  ∧ GetImageHeight s = Undefined s
  ∧ GetImageBytesPerPixel s = Undefined s
  ∧ GetBitDepth s = Undefined s
  ∧ GetImageBufferSize s = Undefined s
  ∧ ∃ s', SnapImage sizeof fuel s = Undefined s'
          ∧ trace s' = trace s ++ snap_setup_events.
Proof.
  intros Hn Hc.
  assert (Hwrap : to_size_t (Z.of_nat (length (imgs s)) - 1) = 2 ^ 64 - 1)
    by (rewrite Hn; reflexivity).
  assert (H0 : img_at 0 s = Undefined s) by (rewrite img_at_0_lookup, Hn; reflexivity).
  split; [unfold GetNumberOfChannels; now rewrite Hn|].
  split.
  { unfold GetImageBuffer. erewrite bind_Returns by reflexivity.
    rewrite Hwrap, decide_False by lia.
    erewrite bind_Undefined; [reflexivity|].
    unfold img_at. rewrite decide_True by lia. now rewrite Hn. }
  split.
  { unfold GetChannelName. erewrite bind_Returns by reflexivity.
    rewrite Hwrap, decide_False by lia. reflexivity. }
  unfold GetImageBuffer0, GetImageWidth, GetImageHeight, GetImageBytesPerPixel,
    GetBitDepth, GetImageBufferSize.
  do 6 (split; [erewrite bind_Undefined by exact H0; reflexivity|]).
  unfold SnapImage, getCpxProperties.
  destruct (cpx_get_configuration_Returns s) as ([st props0] & E0).
  erewrite bind_Returns by exact E0. cbv beta iota.
  set (s1 := set_trace _ s) in *.
  destruct (device_manager_select_Returns DeviceKind_Camera "simulated.*random.*"
              (camera_identifier (video_0 props0)) s1) as ([st1 cam0] & E1).
  erewrite bind_Returns by exact E1. cbv beta iota.
  set (s2 := set_trace _ s1) in *.
  destruct (device_manager_select_Returns DeviceKind_Camera "simulated.*sin.*"
              (camera_identifier (video_1 props0)) s2) as ([st2 cam1] & E2).
  erewrite bind_Returns by exact E2. cbv beta iota.
  set (s3 := set_trace _ s2) in *.
  destruct (device_manager_select_Returns DeviceKind_Storage "Trash"
              (storage_identifier (video_0 props0)) s3) as ([st3 sto0] & E3).
  erewrite bind_Returns by exact E3. cbv beta iota.
  set (s4 := set_trace _ s3) in *.
  destruct (device_manager_select_Returns DeviceKind_Storage "Trash"
              (storage_identifier (video_1 props0)) s4) as ([st4 sto1] & E4).
  erewrite bind_Returns by exact E4. cbv beta iota.
  set (s5 := set_trace _ s4) in *.
  exists s5. split.
  { erewrite bind_Undefined; [reflexivity|].
    rewrite img_at_0_lookup. change (imgs s5) with (imgs s). now rewrite Hn. }
  subst s5 s4 s3 s2 s1. cbn [trace set_trace]. unfold snap_setup_events.
  repeat (rewrite <- app_assoc || rewrite <- app_comm_cons). reflexivity.
Qed.

(** Region of interest and binning are accepted and ignored: the setters
    return DEVICE_OK for every argument and leave the camera as it was,
    [GetROI] writes none of its four results, and the binning stays 1. *)
Lemma ROI_and_binning_ignored x y xSize ySize binSize x0 y0 xSize0 ySize0 s :
  (SetROI x y xSize ySize;; GetROI x0 y0 xSize0 ySize0) s
  = Returns (DEVICE_OK, (x0, y0, xSize0, ySize0)) s
  ∧ (ClearROI;; GetROI x0 y0 xSize0 ySize0) s
    = Returns (DEVICE_OK, (x0, y0, xSize0, ySize0)) s
  ∧ (SetBinning binSize;; GetBinning) s = Returns 1 s
  ∧ (SetROI x y xSize ySize;; SetBinning binSize;; GetImageWidth) s
    = GetImageWidth s
  ∧ (SetROI x y xSize ySize;; SetBinning binSize;; GetImageHeight) s
    = GetImageHeight s
  ∧ (SetROI x y xSize ySize;; SetBinning binSize;; GetImageBufferSize) s
    = GetImageBufferSize s.
Proof. repeat split. Qed.

(** ** Reading the mode back *)

Lemma OnImageMode_BeforeGet value s :
  OnImageMode value MM.BeforeGet s
  = Returns (DEVICE_OK,
             if multiChannel s then g_prop_Mode_Multi else g_prop_Mode_Single) s.
Proof. reflexivity. Qed.

Lemma OnImageMode_AfterSet_mode value s :
  ∃ s', OnImageMode value MM.AfterSet s = Returns (DEVICE_OK, value) s'
        ∧ multiChannel s' = bool_decide (value = g_prop_Mode_Multi)
        ∧ demo s' = demo s
        ∧ imgs s'
          = (if demo s then
               if bool_decide (value = g_prop_Mode_Multi) then
                 [Resize DEMO_IMAGE_WIDTH DEMO_IMAGE_HEIGHT 1 ImgBuffer_default;
                  Resize DEMO_IMAGE_WIDTH DEMO_IMAGE_HEIGHT 1 ImgBuffer_default]
               else
                 [Resize DEMO_IMAGE_WIDTH (DEMO_IMAGE_HEIGHT * 2) 1 ImgBuffer_default]
             else imgs s).
Proof.
  destruct (OnImageMode_AfterSet value s) as (s' & E & Es).
  exists s'. split; [exact E|].
  destruct (setupBuffers_Returns
              (set_multiChannel (bool_decide (value = g_prop_Mode_Multi)) s))
    as (s1 & E1 & _ & _ & Hd1 & Hm1 & Hi1).
  rewrite E1 in Es. injection Es as <-. auto.
Qed.

(** X5: the mode written is the mode read back, for the two legal values
    only.  After the handler has stored a value, reading the property gives
    Multi when the value was Multi and Single for every other string,
    whatever the property held before; reading changes nothing, and the
    other action types leave the camera and the value alone. *)
Theorem mode_read_back value before eAct s :
  (∃ s',
     OnImageMode value MM.AfterSet s = Returns (DEVICE_OK, value) s'
     ∧ OnImageMode before MM.BeforeGet s'
       = Returns (DEVICE_OK,
                  if decide (value = g_prop_Mode_Multi)
                  then g_prop_Mode_Multi else g_prop_Mode_Single) s'
     ∧ (value = g_prop_Mode_Multi ∨ value = g_prop_Mode_Single ->
        OnImageMode before MM.BeforeGet s' = Returns (DEVICE_OK, value) s'))
  ∧ (eAct ≠ MM.AfterSet -> eAct ≠ MM.BeforeGet ->
     OnImageMode value eAct s = Returns (DEVICE_OK, value) s).
Proof.
  split.
  - destruct (OnImageMode_AfterSet_mode value s) as (s' & E & Hm & _).
    exists s'. split; [exact E|].
    rewrite OnImageMode_BeforeGet, Hm.
    destruct (decide (value = g_prop_Mode_Multi)) as [Hv|Hv].
    + rewrite bool_decide_eq_true_2 by exact Hv. split; [reflexivity|].
      intros _. now rewrite Hv.
    + rewrite bool_decide_eq_false_2 by exact Hv. split; [reflexivity|].
      intros [H|H]; [contradiction | now rewrite H].
  - intros H1 H2. destruct eAct; try reflexivity; contradiction.
Qed.

(** ** Invariants of the camera state *)

Lemma maintains_ret I {A} (a : A) : maintains I (mret a).
Proof. intros s H. exact H. Qed.

Lemma maintains_bind I {A B} (m : M A) (f : A -> M B) :
  maintains I m -> (∀ a, maintains I (f a)) -> maintains I (m ≫= f).
Proof.
  intros Hm Hf s H. specialize (Hm s H). unfold mbind, M_bind.
  destruct (m s) as [a s1|what s1|s1|s1]; cbn [state_of] in *; try exact Hm.
  apply Hf, Hm.
Qed.

Lemma maintains_get I : maintains I get.
Proof. intros s H. exact H. Qed.

Lemma maintains_throw I {A} what : maintains I (throw (A := A) what).
Proof. intros s H. exact H. Qed.

Lemma maintains_pending I {A} : maintains I (pending (A := A)).
Proof. intros s H. exact H. Qed.

Lemma maintains_img_at I i : maintains I (img_at i).
Proof.
  intros s H. unfold img_at.
  destruct (decide (0 <= i)); [|exact H].
  destruct (imgs s !! Z.to_nat i); exact H.
Qed.

Lemma maintains_GetProperty_long I name : maintains I (GetProperty_long name).
Proof.
  intros s H. unfold GetProperty_long. destruct (properties_ s !! name); exact H.
Qed.

Section Invariant.

(** An invariant [I] that survives what the camera does to its state. *)
Variable I : AcquireCamera -> Prop.

Hypothesis I_emit : ∀ e s, I s -> I (set_trace (trace s ++ [e]) s).
Hypothesis I_mapped : ∀ f s, I s -> I (set_cpx (set_mapped f (cpx s)) s).
Hypothesis I_configuration :
  ∀ p s, I s -> I (set_cpx (set_configuration p (cpx s)) s).
Hypothesis I_copy :
  ∀ i b px s, I s -> imgs s !! i = Some b -> length px = length (GetPixels b) ->
    I (set_imgs (<[i := SetPixels px b]> (imgs s)) s).
Hypothesis I_initialized : ∀ v s, I s -> I (set_initialized v s).
Hypothesis I_demo : ∀ v s, I s -> I (set_demo v s).
Hypothesis I_multiChannel : ∀ v s, I s -> I (set_multiChannel v s).
Hypothesis I_create :
  ∀ name value s, I s -> properties_ s !! name = None ->
    I (set_properties (<[name := value]> (properties_ s)) s).
Hypothesis I_setupBuffers : maintains I setupBuffers.

Lemma maintains_emit e : maintains I (emit e).
Proof. intros s H. apply I_emit, H. Qed.

Lemma maintains_memcpy i offset src n : maintains I (memcpy i offset src n).
Proof.
  intros s H. unfold memcpy.
  destruct (decide (0 <= i)); [|exact H].
  destruct (imgs s !! Z.to_nat i) as [b|] eqn:Hb; [|exact H].
  destruct (decide _) as [(Ho & Hn & Hsrc & Hdst)|]; [|exact H].
  cbn [state_of].
  apply (I_emit _ (set_imgs _ s)), I_copy; [exact H | exact Hb |].
  apply overlay_length. rewrite length_take. lia.
Qed.

Lemma maintains_cpx_map_read stream : maintains I (cpx_map_read stream).
Proof.
  unfold cpx_map_read.
  apply maintains_bind; [apply maintains_emit|]. intros _.
  apply maintains_bind; [apply maintains_get|]. intros s0.
  destruct (mapped (cpx s0) !! stream) as [[|v later]|];
    try apply maintains_ret.
  apply maintains_bind; [|intros _; apply maintains_ret].
  intros s H. apply I_mapped, H.
Qed.

Lemma maintains_poll stream ms : ∀ fuel v, maintains I (poll fuel stream ms v).
Proof.
  induction fuel as [|fuel IH]; intros [|beg v]; cbn [poll];
    try apply maintains_ret; try apply maintains_pending.
  apply maintains_bind; [apply maintains_cpx_map_read|]. intros v'.
  apply maintains_bind; [apply maintains_emit|]. intros _. apply IH.
Qed.

Lemma maintains_cpx_configure props : maintains I (cpx_configure props).
Proof.
  unfold cpx_configure.
  apply maintains_bind; [apply maintains_emit|]. intros _.
  apply maintains_bind; [apply maintains_get|]. intros s0.
  destruct (configure_status (cpx s0)); [|apply maintains_ret].
  apply maintains_bind; [|intros _; apply maintains_ret].
  intros s H. apply I_configuration, H.
Qed.

Lemma maintains_cpx_get_configuration : maintains I cpx_get_configuration.
Proof.
  unfold cpx_get_configuration.
  apply maintains_bind; [apply maintains_emit|]. intros _.
  apply maintains_bind; [apply maintains_get|]. intros s0. apply maintains_ret.
Qed.

Lemma maintains_device_manager_select kind pattern identifier :
  maintains I (device_manager_select kind pattern identifier).
Proof.
  unfold device_manager_select.
  apply maintains_bind; [apply maintains_emit|]. intros _.
  apply maintains_bind; [apply maintains_get|]. intros s0.
  destruct (select_status (cpx s0) kind pattern); apply maintains_ret.
Qed.

Lemma maintains_CreateProperty name value : maintains I (CreateProperty name value).
Proof.
  intros s H. unfold CreateProperty, modify. cbn [state_of].
  destruct (properties_ s !! name) eqn:E; [exact H | apply I_create; assumption].
Qed.

Ltac maintains_step :=
  first [ apply maintains_cpx_map_read | apply maintains_poll
        | apply maintains_cpx_configure | apply maintains_cpx_get_configuration
        | apply maintains_device_manager_select | apply maintains_CreateProperty
        | apply maintains_memcpy | apply maintains_img_at
        | apply maintains_GetProperty_long | apply I_setupBuffers
        | apply maintains_emit
        | apply maintains_ret | apply maintains_get | apply maintains_throw
        | apply maintains_pending
        | apply maintains_bind; [|intros ?]
        | match goal with
          | |- maintains _ (modify (set_initialized _)) =>
              intros ? ?; apply I_initialized; assumption
          | |- maintains _ (modify (set_demo _)) =>
              intros ? ?; apply I_demo; assumption
          | |- maintains _ (modify (set_multiChannel _)) =>
              intros ? ?; apply I_multiChannel; assumption
          | |- maintains _ (match ?x with _ => _ end) => destruct x
          | |- maintains _ (if ?x then _ else _) => destruct x
          | |- maintains _ (let _ := _ in _) => cbv zeta
          end ].

Lemma maintains_readFrame sizeof fuel stream props :
  maintains I (readFrame sizeof fuel stream props).
Proof. unfold readFrame, cpx_unmap_read. repeat maintains_step. Qed.

Lemma maintains_readFrames sizeof fuel props :
  maintains I (readFrames sizeof fuel props).
Proof. unfold readFrames, cpx_unmap_read. repeat maintains_step. Qed.

Lemma maintains_SnapImage sizeof fuel : maintains I (SnapImage sizeof fuel).
Proof.
  unfold SnapImage, getCpxProperties, cpx_start, cpx_stop, LogMessage.
  repeat maintains_step.
Qed.

Lemma maintains_SetExposure exposure : maintains I (SetExposure exposure).
Proof.
  unfold SetExposure, getCpxProperties, setCpxProperties, LogMessage.
  repeat maintains_step.
Qed.

Lemma maintains_GetExposure : maintains I GetExposure.
Proof. unfold GetExposure, getCpxProperties, LogMessage. repeat maintains_step. Qed.

Lemma maintains_Initialize : maintains I Initialize.
Proof. unfold Initialize, getCpxProperties. repeat maintains_step. Qed.

Lemma maintains_OnImageMode value eAct : maintains I (OnImageMode value eAct).
Proof. unfold OnImageMode. repeat maintains_step. Qed.

Lemma maintains_Shutdown attached ret : maintains I (Shutdown attached ret).
Proof. unfold Shutdown, LogMessage. repeat maintains_step. Qed.

Lemma maintains_host_call sizeof c : maintains I (host_call sizeof c).
Proof.
  destruct c; cbn [host_call]; repeat maintains_step;
    auto using maintains_Initialize, maintains_OnImageMode, maintains_SnapImage,
      maintains_SetExposure, maintains_GetExposure.
Qed.

Lemma maintains_reaches sizeof s calls s' :
  reaches sizeof s calls s' -> I s -> I s'.
Proof.
  induction 1 as [s|s c calls s1 s2 E _ IH|s c calls what s1 s2 E _ IH];
    intros Hs; [exact Hs| |];
    apply IH; pose proof (maintains_host_call sizeof c s Hs) as H1;
    rewrite E in H1; exact H1.
Qed.

Lemma maintains_reporter g_instance is_error file line function msg :
  maintains I (reporter g_instance is_error file line function msg).
Proof. unfold reporter, LogMessage. repeat maintains_step. Qed.

Lemma maintains_device_call sizeof c : maintains I (device_call sizeof c).
Proof.
  destruct c; cbn [device_call];
    [apply maintains_host_call | | apply maintains_reporter].
  apply maintains_bind; [apply maintains_Shutdown | intros; apply maintains_ret].
Qed.

Lemma maintains_runs sizeof s calls s' :
  runs sizeof s calls s' -> I s -> I s'.
Proof.
  induction 1 as [s|s c calls s1 s2 E _ IH|s c calls what s1 s2 E _ IH];
    intros Hs; [exact Hs| |];
    apply IH; pose proof (maintains_device_call sizeof c s Hs) as H1;
    rewrite E in H1; exact H1.
Qed.

End Invariant.

(** *** Buffers keep their size *)

Lemma well_sized_Resize w h d b :
  0 <= w * h * d ->
  Z.of_nat (length (GetPixels (Resize w h d b)))
  = Width (Resize w h d b) * Height (Resize w h d b) * Depth (Resize w h d b).
Proof.
  intros H. cbn [GetPixels Width Height Depth Resize].
  rewrite length_replicate. lia.
Qed.

Lemma well_sized_setupBuffers : maintains well_sized setupBuffers.
Proof.
  intros s H. destruct (setupBuffers_Returns s) as (s' & E & _ & _ & _ & _ & Hi).
  rewrite E. cbn [state_of]. unfold well_sized in *. rewrite Hi.
  destruct (demo s); [|exact H].
  destruct (multiChannel s);
    repeat (apply Forall_cons; split;
            [apply well_sized_Resize;
             unfold DEMO_IMAGE_WIDTH, DEMO_IMAGE_HEIGHT; lia|]);
    apply Forall_nil_2.
Qed.

Lemma well_sized_copy i b px s :
  well_sized s -> imgs s !! i = Some b -> length px = length (GetPixels b) ->
  well_sized (set_imgs (<[i := SetPixels px b]> (imgs s)) s).
Proof.
  unfold well_sized. intros H Hb Hl. cbn [imgs set_imgs].
  apply Forall_insert; [exact H|]. cbn [GetPixels Width Height Depth SetPixels].
  rewrite Hl. exact (proj1 (Forall_lookup _ _) H i b Hb).
Qed.

(** From the first [Initialize] on, every buffer holds as many bytes as its
    dimensions say. *)
Lemma runs_well_sized sizeof s calls s' :
  runs sizeof s calls s' -> well_sized s -> well_sized s'.
Proof.
  apply maintains_runs; auto using well_sized_copy, well_sized_setupBuffers.
Qed.

(** *** The buffers stay those of the mode *)

Lemma device_call_demo sizeof c s :
  demo_camera s -> demo_camera (state_of (device_call sizeof c s)).
Proof.
  intros Hs. destruct c as [c|attached ret|g_instance ? ? ? ? ?];
    cbn [device_call].
  - apply host_call_demo, Hs.
  - erewrite bind_Returns by apply Shutdown_Returns.
    cbn [state_of]. destruct (_ && _); exact Hs.
  - unfold reporter. cbv zeta. destruct g_instance; exact Hs.
Qed.

Lemma runs_demo sizeof s calls s' :
  runs sizeof s calls s' -> demo_camera s -> demo_camera s'.
Proof.
  induction 1 as [s|s c calls s1 s2 E _ IH|s c calls what s1 s2 E _ IH];
    intros Hs; [exact Hs| |];
    apply IH; pose proof (device_call_demo sizeof c s Hs) as H1;
    rewrite E in H1; exact H1.
Qed.

(** *** Properties are only added *)

Lemma runs_properties sizeof s calls s' :
  runs sizeof s calls s' -> properties_ s ⊆ properties_ s'.
Proof.
  intros Hr.
  apply (maintains_runs (fun s' => properties_ s ⊆ properties_ s'))
    with (sizeof := sizeof) (s := s) (calls := calls);
    try (intros; assumption); [| |reflexivity].
  - intros name value s0 H Hn. cbn [properties_ set_properties].
    etransitivity; [exact H|]. apply insert_subseteq, Hn.
  - intros s0 H. destruct (setupBuffers_Returns s0) as (s1 & E & _ & Hp & _).
    rewrite E. cbn [state_of]. now rewrite Hp.
Qed.


(** *** The image geometry the host is told *)

Lemma GetImageBuffer_lookup c s b :
  0 <= c -> imgs s !! Z.to_nat c = Some b ->
  Z.of_nat (length (imgs s)) < 2 ^ 64 ->
  GetImageBuffer c s = Returns (Some (GetPixels b)) s.
Proof.
  intros Hc Hb Hn. pose proof (lookup_lt_Some _ _ _ Hb) as Hlt.
  unfold GetImageBuffer. erewrite bind_Returns by reflexivity.
  rewrite size_minus_one by lia. rewrite decide_False by lia.
  erewrite bind_Returns; [reflexivity|].
  unfold img_at. rewrite decide_True by lia. now rewrite Hb.
Qed.

(** What the accessors answer on a camera whose buffers are those of its
    mode and hold as many bytes as their dimensions say. *)
Lemma geometry_of_layout s :
  buffers_match_mode s -> well_sized s ->
  let height := if multiChannel s then DEMO_IMAGE_HEIGHT
                else 2 * DEMO_IMAGE_HEIGHT in
  let channels := if multiChannel s then 2 else 1 in
  GetNumberOfChannels s = channels
  ∧ GetImageWidth s = Returns DEMO_IMAGE_WIDTH s
  ∧ GetImageHeight s = Returns height s
  ∧ GetImageBytesPerPixel s = Returns 1 s
  ∧ GetBitDepth s = Returns 8 s
  ∧ GetImageBufferSize s = Returns (DEMO_IMAGE_WIDTH * height) s
  ∧ (∃ px, GetImageBuffer0 s = Returns px s
           ∧ Z.of_nat (length px) = DEMO_IMAGE_WIDTH * height)
  ∧ (∀ c, 0 <= c < channels ->
       ∃ px, GetImageBuffer c s = Returns (Some px) s
             ∧ Z.of_nat (length px) = DEMO_IMAGE_WIDTH * height)
  ∧ channels * (DEMO_IMAGE_WIDTH * height) = 614400.
Proof.
  unfold buffers_match_mode, well_sized, multi_layout, single_layout.
  intros Hl Hs. cbv zeta.
  destruct (multiChannel s).
  - destruct (imgs s) as [|b0 [|b1 [|? ?]]] eqn:Ei; try discriminate.
    injection Hl as Hw0 Hh0 Hd0 Hw1 Hh1 Hd1.
    apply Forall_cons in Hs as (Hs0 & Hs).
    apply Forall_cons in Hs as (Hs1 & _).
    rewrite Hw0, Hh0, Hd0 in Hs0. rewrite Hw1, Hh1, Hd1 in Hs1.
    destruct (buffer_0_accessors s b0) as (Ew & Eh & Ed & Eb & En & Ep);
      [now rewrite Ei|].
    rewrite Hw0 in Ew. rewrite Hh0 in Eh. rewrite Hd0 in Ed, Eb.
    rewrite Hw0, Hh0, Hd0 in En.
    split; [unfold GetNumberOfChannels; now rewrite Ei|].
    do 5 (split; [assumption|]).
    split; [exists (GetPixels b0); split; [exact Ep | lia]|].
    split; [|reflexivity].
    intros c Hc.
    assert (c = 0 ∨ c = 1) as [-> | ->] by lia.
    + exists (GetPixels b0). split; [|lia].
      apply GetImageBuffer_lookup; [lia | now rewrite Ei | now rewrite Ei].
    + exists (GetPixels b1). split; [|lia].
      apply GetImageBuffer_lookup; [lia | now rewrite Ei | now rewrite Ei].
  - destruct (imgs s) as [|b0 [|? ?]] eqn:Ei; try discriminate.
    injection Hl as Hw0 Hh0 Hd0.
    apply Forall_cons in Hs as (Hs0 & _).
    rewrite Hw0, Hh0, Hd0 in Hs0.
    destruct (buffer_0_accessors s b0) as (Ew & Eh & Ed & Eb & En & Ep);
      [now rewrite Ei|].
    rewrite Hw0 in Ew. rewrite Hh0 in Eh. rewrite Hd0 in Ed, Eb.
    rewrite Hw0, Hh0, Hd0 in En.
    split; [unfold GetNumberOfChannels; now rewrite Ei|].
    do 5 (split; [assumption|]).
    split; [exists (GetPixels b0); split; [exact Ep | lia]|].
    split; [|reflexivity].
    intros c Hc. assert (c = 0) as -> by lia.
    exists (GetPixels b0). split; [|lia].
    apply GetImageBuffer_lookup; [lia | now rewrite Ei | now rewrite Ei].
Qed.

(** X7: from the first [Initialize] on, whatever is called afterwards
    ([Initialize], [Shutdown], mode changes, snaps, exposure calls, log
    callbacks), the accessors describe the buffers of the current mode:
    width 640, height 480 with two channels in multi mode and 960 with one
    channel in single mode, one byte and eight bits per pixel.
    [GetImageBufferSize] is width times height, and it is the number of
    bytes behind the pointer that [GetImageBuffer] returns for every
    channel below [GetNumberOfChannels]: reading frames never changes the
    size of a buffer.  Both modes hold 614400 bytes of pixels in all. *)
Theorem image_geometry sizeof rt :
  wp Initialize (AcquireCamera_new rt) (fun _ s0 =>
    ∀ calls s, runs sizeof s0 calls s ->
      let height := if multiChannel s then DEMO_IMAGE_HEIGHT
                    else 2 * DEMO_IMAGE_HEIGHT in
      let channels := if multiChannel s then 2 else 1 in
      GetNumberOfChannels s = channels
      ∧ GetImageWidth s = Returns DEMO_IMAGE_WIDTH s
      ∧ GetImageHeight s = Returns height s
      ∧ GetImageBytesPerPixel s = Returns 1 s
      ∧ GetBitDepth s = Returns 8 s
      ∧ GetImageBufferSize s = Returns (DEMO_IMAGE_WIDTH * height) s
      ∧ (∃ px, GetImageBuffer0 s = Returns px s
               ∧ Z.of_nat (length px) = DEMO_IMAGE_WIDTH * height)
      ∧ (∀ c, 0 <= c < channels ->
           ∃ px, GetImageBuffer c s = Returns (Some px) s
                 ∧ Z.of_nat (length px) = DEMO_IMAGE_WIDTH * height)
      ∧ channels * (DEMO_IMAGE_WIDTH * height) = 614400).
Proof.
  eapply wp_conseq; [apply Initialize_new|].
  intros _ s0 (Hd0 & Hm0 & _ & Hi0 & Hp0) calls s Hr.
  assert (demo_camera s) as (_ & _ & Hl).
  { eapply runs_demo; [exact Hr|].
    repeat split; try assumption.
    unfold buffers_match_mode. now rewrite Hm0, Hi0. }
  apply geometry_of_layout; [exact Hl|].
  eapply runs_well_sized; [exact Hr|].
  unfold well_sized. rewrite Hi0.
  repeat (apply Forall_cons; split;
          [apply well_sized_Resize;
           unfold DEMO_IMAGE_WIDTH, DEMO_IMAGE_HEIGHT; lia|]);
    apply Forall_nil_2.
Qed.

(** ** Exposure: what is written and what is logged *)

(** [SetExposure], whatever the runtime answers. *)
Lemma SetExposure_Returns e s :
  let us := f32_of_f64 (f64_mul e (f64_of_Z 1000)) in
  let read := match get_configuration_status (cpx s) with
              | CpxStatus_Ok => configuration (cpx s)
              | CpxStatus_Error => CpxProperties_zero
              end in
  let props := {| video_0 := with_exposure us (video_0 read);
                  video_1 := with_exposure us (video_1 read) |} in
  let log := match get_configuration_status (cpx s) with
             | CpxStatus_Ok => []
             | CpxStatus_Error => [EvLog "rror obtaining properties: code="]
             end in
  SetExposure e s
  = Returns tt
      match configure_status (cpx s) with
      | CpxStatus_Ok =>
          set_cpx (set_configuration props (cpx s))
            (set_trace (trace s ++ EvGetConfiguration :: log
                        ++ [EvConfigure props]) s)
      | CpxStatus_Error =>
          set_trace (trace s ++ EvGetConfiguration :: log
                     ++ [EvConfigure props;
                         EvLog "rror setting exposure: code="]) s
      end.
Proof.
  cbv zeta. unfold SetExposure.
  erewrite bind_Returns by apply getCpxProperties_Returns.
  cbv beta iota zeta. unfold setCpxProperties, LogMessage.
  change (literal_plus "Error obtaining properties: code="
            (status_value CpxStatus_Error))
    with "rror obtaining properties: code=".
  change (literal_plus "Error setting exposure: code="
            (status_value CpxStatus_Error))
    with "rror setting exposure: code=".
  destruct (get_configuration_status (cpx s)) eqn:Hg,
           (configure_status (cpx s)) eqn:Hc;
    [ rewrite decide_False by (intros H; now apply H);
      erewrite bind_Returns by reflexivity
    | rewrite decide_False by (intros H; now apply H);
      erewrite bind_Returns by reflexivity
    | rewrite decide_True by discriminate;
      erewrite bind_Returns by apply emit_Returns
    | rewrite decide_True by discriminate;
      erewrite bind_Returns by apply emit_Returns ];
    (erewrite bind_Returns
       by (rewrite cpx_configure_Returns; cbn [cpx set_trace]; rewrite Hc;
           reflexivity));
    [ rewrite decide_False by (intros H; now apply H)
    | rewrite decide_True by discriminate; rewrite emit_Returns
    | rewrite decide_False by (intros H; now apply H)
    | rewrite decide_True by discriminate; rewrite emit_Returns ];
    cbn [trace set_trace set_cpx cpx app]; rewrite <- ?app_assoc; reflexivity.
Qed.

(** X8: when the runtime hands out its configuration and accepts the new
    one, [SetExposure] changes the exposure time of both streams, to the
    same value, and nothing else: device identifiers, binning, pixel type,
    shape and frame count of both streams stay as they were, and so do the
    buffers and the mode. *)
Theorem SetExposure_only_exposure e s :
  get_configuration_status (cpx s) = CpxStatus_Ok ->
  configure_status (cpx s) = CpxStatus_Ok ->
  wp (SetExposure e) s (fun _ s' =>
    let old := configuration (cpx s) in
    let new := configuration (cpx s') in
    exposure_time_us (settings (video_0 new))
    = f32_of_f64 (f64_mul e (f64_of_Z 1000))
    ∧ exposure_time_us (settings (video_1 new))
      = exposure_time_us (settings (video_0 new))
    ∧ (∀ stream : CpxProperties -> VideoStream,
         stream = video_0 ∨ stream = video_1 ->
         camera_identifier (stream new) = camera_identifier (stream old)
         ∧ storage_identifier (stream new) = storage_identifier (stream old)
         ∧ max_frame_count (stream new) = max_frame_count (stream old)
         ∧ binning (settings (stream new)) = binning (settings (stream old))
         ∧ pixel_type (settings (stream new)) = pixel_type (settings (stream old))
         ∧ shape (settings (stream new)) = shape (settings (stream old)))
    ∧ imgs s' = imgs s
    ∧ multiChannel s' = multiChannel s).
Proof.
  intros Hg Hc. eexists tt, _. split; [apply SetExposure_Returns|].
  rewrite Hg, Hc. cbv zeta.
  cbn [cpx set_cpx set_trace configuration set_configuration mapped imgs
         multiChannel video_0 video_1 with_exposure settings exposure_time_us].
  split; [reflexivity|]. split; [reflexivity|].
  split; [|repeat split].
  intros stream [-> | ->]; repeat split.
Qed.

(** [GetExposure], whatever the runtime answers. *)
Lemma GetExposure_Returns s :
  match get_configuration_status (cpx s) with
  | CpxStatus_Ok =>
      GetExposure s
      = Returns
          (f64_div
             (f64_of_f32
                (exposure_time_us (settings (video_0 (configuration (cpx s))))))
             (f64_of_Z 1000))
          (set_trace (trace s ++ [EvGetConfiguration]) s)
  | CpxStatus_Error =>
      GetExposure s
      = Returns (S754_zero false)
          (set_trace (trace s ++ [EvGetConfiguration;
                                  EvLog "rror obtaining properties: code="]) s)
  end.
Proof.
  unfold GetExposure.
  erewrite bind_Returns by apply getCpxProperties_Returns.
  cbv beta iota. unfold LogMessage.
  destruct (get_configuration_status (cpx s)).
  - rewrite decide_False by (intros H; now apply H).
    erewrite bind_Returns by reflexivity. reflexivity.
  - rewrite decide_True by discriminate.
    erewrite bind_Returns by apply emit_Returns.
    cbn [trace set_trace]. rewrite <- app_assoc. reflexivity.
Qed.

(** X9: the exposure functions report no failure.  When the
    configuration cannot be read, [SetExposure] still writes one, in which
    everything but the exposure time is zero or empty, and [GetExposure]
    returns 0; when the runtime rejects the written configuration, the
    runtime keeps the one it had.  Each failure only adds a log line, and
    that line is the literal of the message without its first character,
    never the status code. *)
Theorem exposure_failures_only_logged e s :
  (get_configuration_status (cpx s) = CpxStatus_Error ->
   configure_status (cpx s) = CpxStatus_Ok ->
   wp (SetExposure e) s (fun _ s' =>
     let us := f32_of_f64 (f64_mul e (f64_of_Z 1000)) in
     configuration (cpx s')
     = {| video_0 := with_exposure us VideoStream_zero;
          video_1 := with_exposure us VideoStream_zero |}
     ∧ trace s'
       = trace s ++ [EvGetConfiguration;
                     EvLog "rror obtaining properties: code=";
                     EvConfigure (configuration (cpx s'))]))
  ∧ (configure_status (cpx s) = CpxStatus_Error ->
     wp (SetExposure e) s (fun _ s' =>
       cpx s' = cpx s
       ∧ imgs s' = imgs s
       ∧ ∃ before, trace s'
                   = trace s ++ before ++ [EvLog "rror setting exposure: code="]))
  ∧ (get_configuration_status (cpx s) = CpxStatus_Error ->
     wp GetExposure s (fun r s' =>
       r = S754_zero false
       ∧ cpx s' = cpx s
       ∧ imgs s' = imgs s
       ∧ trace s'
         = trace s ++ [EvGetConfiguration;
                       EvLog "rror obtaining properties: code="])).
Proof.
  split; [|split].
  - intros Hg Hc. eexists tt, _. split; [apply SetExposure_Returns|].
    rewrite Hg, Hc. cbv zeta. split; reflexivity.
  - intros Hc. eexists tt, _. split; [apply SetExposure_Returns|].
    rewrite Hc. cbv zeta. split; [reflexivity|]. split; [reflexivity|].
    eexists (EvGetConfiguration :: _ ++ [_]).
    cbn [trace set_trace]. f_equal. cbn. f_equal.
    rewrite <- app_assoc. reflexivity.
  - intros Hg. pose proof (GetExposure_Returns s) as E. rewrite Hg in E.
    eexists _, _. split; [exact E|]. repeat split.
Qed.


(** ** SnapImage: the configuration it pushes *)

Lemma device_manager_select_result kind pattern identifier s :
  device_manager_select kind pattern identifier s
  = Returns
      match select_status (cpx s) kind pattern with
      | CpxStatus_Ok => (CpxStatus_Ok, select_identifier (cpx s) kind pattern)
      | CpxStatus_Error => (CpxStatus_Error, identifier)
      end
      (set_trace (trace s ++ [EvSelect kind pattern]) s).
Proof.
  unfold device_manager_select.
  erewrite bind_Returns by apply emit_Returns.
  erewrite bind_Returns by reflexivity.
  cbn [cpx set_trace]. destruct (select_status (cpx s) kind pattern); reflexivity.
Qed.

(** The identifier a selection leaves in the configuration. *)
Lemma selected_identifier (rt : CpxRuntime) kind pattern identifier :
  snd match select_status rt kind pattern with
      | CpxStatus_Ok => (CpxStatus_Ok, select_identifier rt kind pattern)
      | CpxStatus_Error => (CpxStatus_Error, identifier)
      end
  = match select_status rt kind pattern with
    | CpxStatus_Ok => select_identifier rt kind pattern
    | CpxStatus_Error => identifier
    end.
Proof. destruct (select_status rt kind pattern); reflexivity. Qed.

(** [SnapImage] up to the composite read, with the configuration it builds
    written out. *)
Lemma SnapImage_pushes sizeof fuel s b :
  imgs s !! 0%nat = Some b ->
  let read := match get_configuration_status (cpx s) with
              | CpxStatus_Ok => configuration (cpx s)
              | CpxStatus_Error => CpxProperties_zero
              end in
  let chosen kind pattern identifier :=
    match select_status (cpx s) kind pattern with
    | CpxStatus_Ok => select_identifier (cpx s) kind pattern
    | CpxStatus_Error => identifier
    end in
  let cam (v : VideoStream) :=
    {| exposure_time_us := exposure_time_us (settings v);
       binning := 1;
       pixel_type := if decide (Depth b = 2) then SampleType_u16
                     else SampleType_u8;
       shape := (Width b, Height b) |} in
  let props :=
    {| video_0 :=
         {| camera_identifier :=
              chosen DeviceKind_Camera "simulated.*random.*"
                (camera_identifier (video_0 read));
            storage_identifier :=
              chosen DeviceKind_Storage "Trash"
                (storage_identifier (video_0 read));
            settings := cam (video_0 read);
            max_frame_count := 1 |};
       video_1 :=
         {| camera_identifier :=
              chosen DeviceKind_Camera "simulated.*sin.*"
                (camera_identifier (video_1 read));
            storage_identifier :=
              chosen DeviceKind_Storage "Trash"
                (storage_identifier (video_1 read));
            settings := cam (video_1 read);
            max_frame_count := 1 |} |} in
  let s_cfg := set_trace (trace s ++ snap_setup_events ++ [EvConfigure props]) s in
  SnapImage sizeof fuel s
  = match configure_status (cpx s), start_status (cpx s) with
    | CpxStatus_Error, _ =>
        Returns ERR_CPX_CONFIURE_FAILED
          (set_trace (trace s_cfg ++ [EvLog "cpx_configure failed"]) s_cfg)
    | CpxStatus_Ok, CpxStatus_Error =>
        Throws "cpx_start failed"
          (set_trace (trace s_cfg ++ [EvStart])
             (set_cpx (set_configuration props (cpx s)) s_cfg))
    | CpxStatus_Ok, CpxStatus_Ok =>
        match readFrames sizeof fuel props
                (set_trace (trace s_cfg ++ [EvStart])
                   (set_cpx (set_configuration props (cpx s)) s_cfg)) with
        | Returns _ s' => Returns DEVICE_OK (set_trace (trace s' ++ [EvStop]) s')
        | Throws what s' => Throws what s'
        | Undefined s' => Undefined s'
        | Pending s' => Pending s'
        end
    end.
Proof.
  intros Hb. cbv zeta. unfold SnapImage.
  erewrite bind_Returns by apply getCpxProperties_Returns. cbv beta iota.
  set (read := match get_configuration_status (cpx s) with
               | CpxStatus_Ok => configuration (cpx s)
               | CpxStatus_Error => CpxProperties_zero
               end).
  destruct (select_status (cpx s) DeviceKind_Camera "simulated.*random.*") eqn:E1,
           (select_status (cpx s) DeviceKind_Camera "simulated.*sin.*") eqn:E2,
           (select_status (cpx s) DeviceKind_Storage "Trash") eqn:E3;
    (erewrite bind_Returns
       by (rewrite device_manager_select_result; cbn [cpx set_trace];
           rewrite E1; reflexivity));
    cbv beta iota;
    (erewrite bind_Returns
       by (rewrite device_manager_select_result; cbn [cpx set_trace];
           rewrite E2; reflexivity));
    cbv beta iota;
    (erewrite bind_Returns
       by (rewrite device_manager_select_result; cbn [cpx set_trace];
           rewrite E3; reflexivity));
    cbv beta iota;
    (erewrite bind_Returns
       by (rewrite device_manager_select_result; cbn [cpx set_trace];
           rewrite E3; reflexivity));
    cbv beta iota;
    (erewrite bind_Returns
       by (rewrite img_at_0_lookup; cbn [imgs set_trace]; rewrite Hb; reflexivity));
    cbv zeta;
    cbn [with_settings with_storage_identifier with_camera_identifier
           camera_identifier storage_identifier settings max_frame_count
           trace set_trace cpx];
    match goal with
    | |- (cpx_configure ?p ≫= _) ?x = _ => set (props := p); set (s5 := x)
    end;
    (assert (Es5 : s5 = set_trace (trace s ++ snap_setup_events) s)
       by (subst s5; unfold snap_setup_events;
           repeat (rewrite <- app_assoc || rewrite <- app_comm_cons);
           reflexivity));
    (assert (Et : trace s5 ++ [EvConfigure props]
                  = trace s ++ snap_setup_events ++ [EvConfigure props])
       by (rewrite Es5; cbn [trace set_trace]; now rewrite <- app_assoc));
    (assert (Ec : configure_status (cpx s5) = configure_status (cpx s))
       by reflexivity);
    clearbody s5;
    (destruct (configure_status (cpx s)) eqn:Hc;
     [ erewrite bind_Returns by (rewrite cpx_configure_Returns, Ec; reflexivity);
       rewrite decide_False by (intros H; now apply H);
       unfold cpx_start;
       rewrite bind_assoc; erewrite bind_Returns by apply emit_Returns;
       rewrite bind_assoc; erewrite bind_Returns by reflexivity;
       erewrite bind_Returns by reflexivity;
       cbn [cpx trace set_trace set_cpx start_status set_configuration];
       rewrite Et, Es5; cbn [cpx set_trace];
       destruct (start_status (cpx s));
       [ rewrite decide_False by (intros H; now apply H);
         unfold mbind at 1, M_bind at 1;
         destruct (readFrames _ _ _ _); reflexivity
       | rewrite decide_True by discriminate; reflexivity ]
     | erewrite bind_Returns by (rewrite cpx_configure_Returns, Ec; reflexivity);
       rewrite decide_True by discriminate;
       unfold LogMessage; erewrite bind_Returns by apply emit_Returns;
       cbn [trace set_trace]; rewrite Et, Es5; reflexivity ]).
Qed.

(** The composite read only adds to the trace and leaves the configuration
    the runtime holds alone, however it ends. *)
Lemma readFrames_keeps_configuration sizeof fuel props s t c :
  t `prefix_of` trace s -> configuration (cpx s) = c ->
  t `prefix_of` trace (state_of (readFrames sizeof fuel props s))
  ∧ configuration (cpx (state_of (readFrames sizeof fuel props s))) = c.
Proof.
  intros Ht Hc.
  apply (maintains_readFrames
           (fun s => t `prefix_of` trace s ∧ configuration (cpx s) = c));
    [| | |split; assumption].
  - intros e s0 (H1 & H2). split; [|exact H2]. now apply prefix_app_r.
  - intros f s0 H. exact H.
  - intros i b px s0 H _ _. exact H.
Qed.

(** X10: whatever the selections answer, [SnapImage] goes on to push one
    configuration.  In it both streams get binning 1, a frame count of 1,
    the pixel type of buffer 0 (16 bits when its depth is 2, 8 bits
    otherwise) and the width and height of buffer 0 as their shape: in
    single mode that is the whole double-height buffer.  The exposure time
    is the one the runtime had; a device that was not found leaves the
    identifier the configuration had.  When the runtime accepts the
    configuration it still holds it when [SnapImage] ends, however it
    ends. *)
Theorem SnapImage_configuration sizeof fuel s b :
  imgs s !! 0%nat = Some b ->
  ∃ props later,
    trace (state_of (SnapImage sizeof fuel s))
    = trace s ++ snap_setup_events ++ EvConfigure props :: later
    ∧ (∀ stream : CpxProperties -> VideoStream,
         stream = video_0 ∨ stream = video_1 ->
         binning (settings (stream props)) = 1
         ∧ max_frame_count (stream props) = 1
         ∧ shape (settings (stream props)) = (Width b, Height b)
         ∧ pixel_type (settings (stream props))
           = (if decide (Depth b = 2) then SampleType_u16 else SampleType_u8)
         ∧ (get_configuration_status (cpx s) = CpxStatus_Ok ->
            exposure_time_us (settings (stream props))
            = exposure_time_us (settings (stream (configuration (cpx s))))))
    ∧ (get_configuration_status (cpx s) = CpxStatus_Ok ->
       camera_identifier (video_0 props)
       = match select_status (cpx s) DeviceKind_Camera "simulated.*random.*" with
         | CpxStatus_Ok =>
             select_identifier (cpx s) DeviceKind_Camera "simulated.*random.*"
         | CpxStatus_Error => camera_identifier (video_0 (configuration (cpx s)))
         end
       ∧ camera_identifier (video_1 props)
         = match select_status (cpx s) DeviceKind_Camera "simulated.*sin.*" with
           | CpxStatus_Ok =>
               select_identifier (cpx s) DeviceKind_Camera "simulated.*sin.*"
           | CpxStatus_Error => camera_identifier (video_1 (configuration (cpx s)))
           end)
    ∧ (configure_status (cpx s) = CpxStatus_Ok ->
       configuration (cpx (state_of (SnapImage sizeof fuel s))) = props)
    ∧ (configure_status (cpx s) = CpxStatus_Error ->
       cpx (state_of (SnapImage sizeof fuel s)) = cpx s).
Proof.
  intros Hb. pose proof (SnapImage_pushes sizeof fuel s b Hb) as E.
  cbv zeta in E.
  match type of E with
  | context [EvConfigure ?p] => set (props := p) in *
  end.
  exists props.
  assert (Hfacts :
    (∀ stream : CpxProperties -> VideoStream,
         stream = video_0 ∨ stream = video_1 ->
         binning (settings (stream props)) = 1
         ∧ max_frame_count (stream props) = 1
         ∧ shape (settings (stream props)) = (Width b, Height b)
         ∧ pixel_type (settings (stream props))
           = (if decide (Depth b = 2) then SampleType_u16 else SampleType_u8)
         ∧ (get_configuration_status (cpx s) = CpxStatus_Ok ->
            exposure_time_us (settings (stream props))
            = exposure_time_us (settings (stream (configuration (cpx s))))))).
  { intros stream [-> | ->]; repeat split; intros Hg; subst props;
      cbn [video_0 video_1 settings exposure_time_us]; now rewrite Hg. }
  assert (Hids :
    get_configuration_status (cpx s) = CpxStatus_Ok ->
       camera_identifier (video_0 props)
       = match select_status (cpx s) DeviceKind_Camera "simulated.*random.*" with
         | CpxStatus_Ok =>
             select_identifier (cpx s) DeviceKind_Camera "simulated.*random.*"
         | CpxStatus_Error => camera_identifier (video_0 (configuration (cpx s)))
         end
       ∧ camera_identifier (video_1 props)
         = match select_status (cpx s) DeviceKind_Camera "simulated.*sin.*" with
           | CpxStatus_Ok =>
               select_identifier (cpx s) DeviceKind_Camera "simulated.*sin.*"
           | CpxStatus_Error => camera_identifier (video_1 (configuration (cpx s)))
           end).
  { intros Hg. subst props. cbn [video_0 video_1 camera_identifier].
    rewrite Hg. split; reflexivity. }
  clearbody props.
  destruct (configure_status (cpx s)) eqn:Hc.
  2:{ exists [EvLog "cpx_configure failed"]. rewrite E. cbn [state_of trace set_trace cpx].
      split; [rewrite <- !app_assoc; reflexivity|].
      split; [exact Hfacts|]. split; [exact Hids|].
      split; [discriminate | reflexivity]. }
  destruct (start_status (cpx s)) eqn:Hs.
  2:{ exists [EvStart]. rewrite E.
      cbn [state_of trace set_trace set_cpx cpx configuration set_configuration].
      split; [rewrite <- !app_assoc; reflexivity|].
      split; [exact Hfacts|]. split; [exact Hids|].
      split; [reflexivity | discriminate]. }
  match type of E with
  | _ = match readFrames _ _ _ ?x with _ => _ end => set (s1 := x) in *
  end.
  destruct (readFrames_keeps_configuration sizeof fuel props s1
              (trace s ++ snap_setup_events ++ [EvConfigure props]) props)
    as ((later & Hl) & Hcfg).
  { exists [EvStart]. subst s1. cbn [trace set_trace set_cpx].
    rewrite <- !app_assoc. reflexivity. }
  { reflexivity. }
  rewrite E. clear E.
  destruct (readFrames sizeof fuel props s1) as [r s2|what s2|s2|s2];
    cbn [state_of trace set_trace cpx] in *;
    [exists (later ++ [EvStop]) | exists later | exists later | exists later];
    (split; [rewrite Hl; repeat (rewrite <- app_assoc || rewrite <- app_comm_cons);
             reflexivity|]);
    (split; [exact Hfacts|]); (split; [exact Hids|]);
    (split; [intros _; exact Hcfg | discriminate]).
Qed.

(** ** Reading frames: the other mode and the edges *)

(** [readFrames] with one buffer per stream: the result, as long as both
    copies stay inside the frames and the buffers. *)
Lemma readFrames_multi_Returns sizeof fuel props s K0 f0 r0 l0 K1 f1 r1 l1 b0 b1 :
  multiChannel s = true ->
  (K0 <= fuel)%nat -> (K1 <= fuel)%nat ->
  mapped (cpx s) !! 0 = Some (replicate K0 [] ++ (f0 :: r0) :: l0) ->
  mapped (cpx s) !! 1 = Some (replicate K1 [] ++ (f1 :: r1) :: l1) ->
  imgs s !! 0%nat = Some b0 ->
  imgs s !! 1%nat = Some b1 ->
  0 <= bytes_of_frame f0 - sizeof < 2 ^ 64 ->
  bytes_of_frame f0 - sizeof <= Z.of_nat (length (data f0)) ->
  bytes_of_frame f0 - sizeof <= Z.of_nat (length (GetPixels b0)) ->
  0 <= bytes_of_frame f1 - sizeof < 2 ^ 64 ->
  bytes_of_frame f1 - sizeof <= Z.of_nat (length (data f1)) ->
  bytes_of_frame f1 - sizeof <= Z.of_nat (length (GetPixels b1)) ->
  let p0 := take (Z.to_nat (bytes_of_frame f0 - sizeof)) (data f0) in
  let p1 := take (Z.to_nat (bytes_of_frame f1 - sizeof)) (data f1) in
  readFrames sizeof fuel props s
  = Returns 0
      (after_unmap 1 (to_uint32 (consumed_bytes (f1 :: r1)))
         (after_memcpy 1 0 p1 b1
            (after_poll 1 5 K1 l1
               (after_unmap 0 (to_uint32 (consumed_bytes (f0 :: r0)))
                  (after_memcpy 0 0 p0 b0 (after_poll 0 5 K0 l0 s)))))).
Proof.
  intros Hm Hf0 Hf1 Hs0 Hs1 Hb0 Hb1 Hn0 Hsrc0 Hdst0 Hn1 Hsrc1 Hdst1 p0 p1.
  unfold readFrames. cbv zeta.
  rewrite readFrames_first_stream with (K0 := K0) (f0 := f0) (r0 := r0) (l0 := l0) (b0 := b0)
    by assumption.
  fold p0.
  set (s1 := after_unmap 0 _ _).
  assert (Hs1' : mapped (cpx s1) !! 1 = Some (replicate K1 [] ++ (f1 :: r1) :: l1)).
  { subst s1. cbn. rewrite lookup_insert_ne by discriminate. exact Hs1. }
  assert (Hb1' : imgs s1 !! 1%nat = Some b1).
  { subst s1. cbn [imgs after_unmap after_memcpy after_poll set_trace set_imgs set_cpx].
    change (Z.to_nat 0) with 0%nat.
    rewrite list_lookup_insert_ne by discriminate. exact Hb1. }
  assert (Hm1 : multiChannel s1 = true) by exact Hm.
  clearbody s1.
  rewrite map_read_poll_then with (K := K1) (beg := f1) (rest := r1) (later := l1)
    by assumption.
  cbv beta iota.
  erewrite bind_Returns by reflexivity.
  cbn [multiChannel after_poll set_trace set_cpx]. rewrite Hm1.
  rewrite (to_size_t_small (bytes_of_frame f1 - sizeof)) by exact Hn1.
  erewrite bind_Returns.
  2:{ apply memcpy_Returns with (b := b1); try lia. exact Hb1'. }
  erewrite bind_Returns by apply emit_Returns. reflexivity.
Qed.

(** X11: in multi-channel mode [readFrames] writes the payload of stream 0
    at the start of buffer 0 and the payload of stream 1 at the start of
    buffer 1.  Bytes of a buffer past the payload keep what they held, and
    payloads that fill their buffers leave buffer 0 equal to the payload of
    stream 0 and buffer 1 equal to that of stream 1. *)
Theorem readFrames_multi_separate sizeof fuel props s K0 f0 r0 l0 K1 f1 r1 l1 b0 b1 :
  multiChannel s = true ->
  (K0 <= fuel)%nat -> (K1 <= fuel)%nat ->
  mapped (cpx s) !! 0 = Some (replicate K0 [] ++ (f0 :: r0) :: l0) ->
  mapped (cpx s) !! 1 = Some (replicate K1 [] ++ (f1 :: r1) :: l1) ->
  imgs s !! 0%nat = Some b0 ->
  imgs s !! 1%nat = Some b1 ->
  Z.of_nat (length (data f0)) = bytes_of_frame f0 - sizeof ->
  Z.of_nat (length (data f1)) = bytes_of_frame f1 - sizeof ->
  (length (data f0) <= length (GetPixels b0))%nat ->
  (length (data f1) <= length (GetPixels b1))%nat ->
  Z.of_nat (length (GetPixels b0)) < 2 ^ 64 ->
  Z.of_nat (length (GetPixels b1)) < 2 ^ 64 ->
  ∃ s',
    readFrames sizeof fuel props s = Returns 0 s'
    ∧ imgs s'
      = <[1%nat := SetPixels (data f1 ++ drop (length (data f1)) (GetPixels b1)) b1]>
          (<[0%nat := SetPixels (data f0 ++ drop (length (data f0)) (GetPixels b0)) b0]>
             (imgs s))
    ∧ trace s'
      = trace s
        ++ stream_events 0 K0 (EvMemcpy 0 0 (data f0))
             (to_uint32 (consumed_bytes (f0 :: r0)))
        ++ stream_events 1 K1 (EvMemcpy 1 0 (data f1))
             (to_uint32 (consumed_bytes (f1 :: r1)))
    ∧ (length (data f0) = length (GetPixels b0) ->
       length (data f1) = length (GetPixels b1) ->
       ∃ c0 c1,
         imgs s' !! 0%nat = Some c0 ∧ GetPixels c0 = data f0
         ∧ imgs s' !! 1%nat = Some c1 ∧ GetPixels c1 = data f1).
Proof.
  intros Hm Hf0 Hf1 Hs0 Hs1 Hb0 Hb1 Hl0 Hl1 Hfit0 Hfit1 Hsz0 Hsz1.
  eexists. split.
  { apply readFrames_multi_Returns
      with (K0 := K0) (f0 := f0) (r0 := r0) (l0 := l0)
           (K1 := K1) (f1 := f1) (r1 := r1) (l1 := l1) (b0 := b0) (b1 := b1);
      try assumption; lia. }
  rewrite <- Hl0, <- Hl1, !Nat2Z.id, !firstn_all.
  cbn [imgs trace after_unmap after_memcpy after_poll set_trace set_imgs set_cpx].
  change (Z.to_nat 0) with 0%nat. change (Z.to_nat 1) with 1%nat.
  rewrite !overlay_0.
  split; [reflexivity|]. split.
  { unfold stream_events.
    repeat (rewrite <- app_assoc || rewrite <- app_comm_cons). reflexivity. }
  intros E0 E1.
  pose proof (lookup_lt_Some _ _ _ Hb0) as Hlt0.
  pose proof (lookup_lt_Some _ _ _ Hb1) as Hlt1.
  eexists _, _. split.
  { rewrite list_lookup_insert_ne by discriminate.
    apply list_lookup_insert_eq. exact Hlt0. }
  split.
  { cbn [GetPixels SetPixels]. rewrite E0, drop_all. apply app_nil_r. }
  split.
  { apply list_lookup_insert_eq. rewrite length_insert. exact Hlt1. }
  cbn [GetPixels SetPixels]. rewrite E1, drop_all. apply app_nil_r.
Qed.

(** *** A stream that never delivers *)

Lemma cpx_map_read_starved stream n s :
  mapped (cpx s) !! stream = None
  ∨ mapped (cpx s) !! stream = Some (replicate n []) ->
  ∃ s1 n1, cpx_map_read stream s = Returns [] s1
           ∧ trace s1 = trace s ++ [EvMapRead stream]
           ∧ imgs s1 = imgs s
           ∧ (∀ other, other ≠ stream ->
                mapped (cpx s1) !! other = mapped (cpx s) !! other)
           ∧ (mapped (cpx s1) !! stream = None
              ∨ mapped (cpx s1) !! stream = Some (replicate n1 [])).
Proof.
  intros [Hs|Hs].
  - eexists _, 0%nat. split; [apply cpx_map_read_exhausted; auto|].
    repeat split. now left.
  - destruct n as [|n]; cbn [replicate] in Hs.
    + eexists _, 0%nat. split; [apply cpx_map_read_exhausted; auto|].
      repeat split. now right.
    + eexists _, n. split; [apply cpx_map_read_scheduled; exact Hs|].
      split; [reflexivity|]. split; [reflexivity|]. split.
      * intros other Ho. cbn. now rewrite lookup_insert_ne by congruence.
      * right. cbn. apply lookup_insert_eq.
Qed.

Lemma poll_starved stream ms : ∀ fuel n s,
  mapped (cpx s) !! stream = None
  ∨ mapped (cpx s) !! stream = Some (replicate n []) ->
  ∃ s', poll fuel stream ms [] s = Pending s'
        ∧ trace s' = trace s ++ poll_events fuel stream ms
        ∧ imgs s' = imgs s
        ∧ ∀ other, other ≠ stream ->
            mapped (cpx s') !! other = mapped (cpx s) !! other.
Proof.
  induction fuel as [|fuel IH]; intros n s Hs.
  - exists s. cbn. rewrite app_nil_r. auto.
  - cbn [poll].
    destruct (cpx_map_read_starved stream n s Hs)
      as (s1 & n1 & E1 & Ht1 & Hi1 & Ho1 & Hs1).
    erewrite bind_Returns by exact E1.
    erewrite bind_Returns by apply emit_Returns.
    destruct (IH n1 (set_trace (trace s1 ++ [EvSleep ms]) s1) Hs1)
      as (s' & E & Ht & Hi & Ho).
    exists s'. split; [exact E|].
    cbn [trace imgs cpx set_trace] in Ht, Hi, Ho.
    rewrite Ht, Ht1, Hi, Hi1. cbn [poll_events].
    rewrite <- !app_assoc. repeat split.
    intros other Hne. rewrite Ho, Ho1 by exact Hne. reflexivity.
Qed.

(** X12: there is no time-out.  On a stream that has nothing to show, now
    or later, [readFrame] is still polling when its budget of iterations is
    used up, whatever the budget: one [cpx_map_read] and one sleep of 10 ms
    per iteration, no copy and no release. *)
Theorem readFrame_never_gives_up sizeof fuel stream props n s :
  mapped (cpx s) !! stream = None
  ∨ mapped (cpx s) !! stream = Some (replicate n []) ->
  ∃ s',
    readFrame sizeof fuel stream props s = Pending s'
    ∧ trace s' = trace s ++ EvMapRead stream :: poll_events fuel stream 10
    ∧ imgs s' = imgs s.
Proof.
  intros Hs. unfold readFrame.
  destruct (cpx_map_read_starved stream n s Hs)
    as (s1 & n1 & E1 & Ht1 & Hi1 & _ & Hs1).
  erewrite bind_Returns by exact E1.
  destruct (poll_starved stream 10 fuel n1 s1 Hs1) as (s' & E & Ht & Hi & _).
  erewrite bind_Pending by exact E.
  exists s'. split; [reflexivity|].
  rewrite Ht, Ht1, Hi, Hi1, <- app_assoc. auto.
Qed.

(** *** Frames that do not fit *)

(** X13: [readFrame] does not compare the length of a frame with the
    buffer it copies into.  When the stream has no buffer, or when the
    payload length [bytes_of_frame - sizeof(VideoFrame)], taken as a
    [size_t], is more than the buffer holds, the copy runs outside the
    buffer: the behaviour is undefined, and nothing has been released. *)
Theorem readFrame_unchecked_copy sizeof fuel stream props s K beg rest later :
  (K <= fuel)%nat ->
  mapped (cpx s) !! stream = Some (replicate K [] ++ (beg :: rest) :: later) ->
  0 <= stream ->
  match imgs s !! Z.to_nat stream with
  | None => True
  | Some b =>
      Z.of_nat (length (GetPixels b)) < to_size_t (bytes_of_frame beg - sizeof)
  end ->
  readFrame sizeof fuel stream props s
  = Undefined (after_poll stream 10 K later s).
Proof.
  intros Hf Hs Hst Hb. unfold readFrame.
  rewrite map_read_poll_then with (K := K) (beg := beg) (rest := rest) (later := later)
    by assumption.
  erewrite bind_Undefined; [reflexivity|].
  unfold memcpy. rewrite decide_True by exact Hst.
  cbn [imgs after_poll set_trace set_cpx].
  destruct (imgs s !! Z.to_nat stream) as [b|]; [|reflexivity].
  rewrite decide_False; [reflexivity|]. lia.
Qed.

(** *** The byte count handed back *)

(** X14: the number of bytes [readFrame] releases is the length of the view
    cut to 32 bits.  A view of 2^32 bytes or more is therefore released
    only in part: fewer bytes are handed back than were mapped. *)
Theorem readFrame_release_wraps sizeof fuel stream props s K beg rest later b :
  0 <= sizeof ->
  (K <= fuel)%nat ->
  mapped (cpx s) !! stream = Some (replicate K [] ++ (beg :: rest) :: later) ->
  Forall (fun f => sizeof <= bytes_of_frame f) (beg :: rest) ->
  span_bytes (beg :: rest) < 2 ^ 64 ->
  0 <= stream -> imgs s !! Z.to_nat stream = Some b ->
  bytes_of_frame beg - sizeof <= Z.of_nat (length (data beg)) ->
  bytes_of_frame beg - sizeof <= Z.of_nat (length (GetPixels b)) ->
  ∃ s',
    readFrame sizeof fuel stream props s = Returns 0 s'
    ∧ trace s'
      = trace s ++ EvMapRead stream :: poll_events K stream 10
        ++ [EvMemcpy (Z.to_nat stream) 0
              (take (Z.to_nat (bytes_of_frame beg - sizeof)) (data beg));
            EvUnmapRead stream (span_bytes (beg :: rest) mod 2 ^ 32)]
    ∧ (2 ^ 32 <= span_bytes (beg :: rest) ->
       span_bytes (beg :: rest) mod 2 ^ 32 < span_bytes (beg :: rest)).
Proof.
  intros H0 Hf Hs Hv Hspan Hst Hb Hsrc Hdst.
  pose proof (span_bytes_head sizeof beg rest H0 Hv) as Hh.
  pose proof (span_bytes_lower sizeof _ H0 Hv) as Hl.
  assert (Hbeg : sizeof <= bytes_of_frame beg) by (inversion Hv; assumption).
  pose proof pow_32_lt_64.
  assert (En : to_uint32 (consumed_bytes (beg :: rest))
               = span_bytes (beg :: rest) mod 2 ^ 32).
  { unfold to_uint32, consumed_bytes. now rewrite to_size_t_small by lia. }
  eexists. split.
  { apply readFrame_Returns with (K := K) (beg := beg) (rest := rest) (later := later) (b := b);
      try assumption. lia. }
  rewrite En. split.
  - cbn [trace after_unmap after_memcpy after_poll set_trace set_imgs set_cpx].
    rewrite <- !app_assoc. reflexivity.
  - intros Hbig.
    pose proof (Z.mod_pos_bound (span_bytes (beg :: rest)) (2 ^ 32)). lia.
Qed.

(** ** The log callback *)

Lemma substring_0_length m : ∀ s, (String.length (String.substring 0 m s) <= m)%nat.
Proof.
  induction m as [|m IH]; intros [|c s]; cbn; try lia.
  specialize (IH s). lia.
Qed.

Lemma substring_0_prefix m : ∀ s, ∃ cut, s = String.substring 0 m s +:+ cut.
Proof.
  induction m as [|m IH]; intros [|c s]; cbn.
  - now exists "".
  - now exists (String c s).
  - now exists "".
  - destruct (IH s) as (cut & E). exists cut.
    change (String c s = String c (String.substring 0 m s +:+ cut)).
    f_equal. exact E.
Qed.

Lemma substring_0_all m : ∀ s,
  (String.length s <= m)%nat -> String.substring 0 m s = s.
Proof.
  induction m as [|m IH]; intros [|c s] H; cbn in *; try reflexivity; try lia.
  rewrite IH by lia. reflexivity.
Qed.

(** X15: [reporter] logs at most one line and never more than 5999
    characters of it.  The line is the formatted text, "ERROR " first for an
    error, then file, line number in parentheses, function and message; a
    longer text is cut, a text that fits is logged whole.  Without a
    registered camera instance nothing is logged and nothing changes. *)
Theorem reporter_bounded g_instance is_error file line function msg s :
  let full := (if decide (is_error ≠ 0) then "ERROR " else "") +:+ file +:+ "("
              +:+ decimal line +:+ ") - " +:+ function +:+ ": " +:+ msg in
  ∃ text,
    reporter g_instance is_error file line function msg s
    = Returns tt (if g_instance then set_trace (trace s ++ [EvLog text]) s else s)
    ∧ Z.of_nat (String.length text) <= 5999
    ∧ (∃ cut, full = text +:+ cut)
    ∧ (Z.of_nat (String.length full) <= 5999 -> text = full).
Proof.
  intros full. exists (snprintf 6000 full). split.
  { unfold reporter. cbv zeta. fold full. destruct g_instance; reflexivity. }
  unfold snprintf. split.
  { pose proof (substring_0_length (Z.to_nat (6000 - 1)) full). lia. }
  split; [apply substring_0_prefix|].
  intros H. apply substring_0_all. lia.
Qed.

(** ** ASIBase: error texts and the name *)

Section ASIBase_more.

Import ASITiger.

Variable CopyLimitedString : string -> string.
Variable g_Msg : ErrorCode -> string.
Variable InitializeDefaultErrorMessages :
  list (ErrorCode * string) -> list (ErrorCode * string).

(** X16: the constructor registers the text of each of the seven ASI error
    codes after the default texts, so that text is the one registered last
    for its code, whatever the defaults say about the code. *)
Theorem ASIBase_new_error_texts props msgs name code :
  ∃ newer older,
    messages_ (ASIBase_new g_Msg InitializeDefaultErrorMessages props msgs name)
    = newer ++ (code, g_Msg code) :: older
    ∧ Forall (fun entry => fst entry ≠ code) newer
    ∧ ∃ ours, older = ours ++ InitializeDefaultErrorMessages msgs.
Proof.
  cbn [messages_ ASIBase_new]. unfold InitializeASIErrorMessages, SetErrorText.
  destruct code.
  - eexists [_; _; _; _; _; _], _. split; [reflexivity|].
    split; [repeat constructor; discriminate | now eexists []].
  - eexists [_; _; _; _; _], _. split; [reflexivity|].
    split; [repeat constructor; discriminate | now eexists [_]].
  - eexists [_; _; _; _], _. split; [reflexivity|].
    split; [repeat constructor; discriminate | now eexists [_; _]].
  - eexists [_; _; _], _. split; [reflexivity|].
    split; [repeat constructor; discriminate | now eexists [_; _; _]].
  - eexists [_; _], _. split; [reflexivity|].
    split; [repeat constructor; discriminate | now eexists [_; _; _; _]].
  - eexists [_], _. split; [reflexivity|].
    split; [repeat constructor; discriminate | now eexists [_; _; _; _; _]].
  - eexists [], _. split; [reflexivity|].
    split; [constructor | now eexists [_; _; _; _; _; _]].
Qed.

(** X17: the name given to the constructor is what [GetName] reads back,
    copied once by [GetProperty] and once more by [GetName], unless the
    device already has a Name property: then that one is kept and the
    constructor's name is dropped.  [Shutdown] returns DEVICE_OK, clears
    the initialized flag and keeps the name; a second [Shutdown] changes
    nothing more. *)
Theorem ASIBase_name_kept props msgs name (d : ASIBase) :
  (name ≠ "" -> props !! MM.g_Keyword_Name = None ->
   GetName CopyLimitedString
     (ASIBase_new g_Msg InitializeDefaultErrorMessages props msgs name)
   = Some (CopyLimitedString (CopyLimitedString name)))
  ∧ (∀ old, props !! MM.g_Keyword_Name = Some old ->
       GetName CopyLimitedString
         (ASIBase_new g_Msg InitializeDefaultErrorMessages props msgs name)
       = Some (CopyLimitedString (CopyLimitedString old)))
  ∧ fst (Shutdown d) = DEVICE_OK
  ∧ initialized_ (snd (Shutdown d)) = false
  ∧ GetName CopyLimitedString (snd (Shutdown d)) = GetName CopyLimitedString d
  ∧ Shutdown (snd (Shutdown d)) = Shutdown d.
Proof.
  split; [|split].
  - intros Hn Hp. rewrite GetName_lookup. cbn [properties_ ASIBase_new].
    rewrite decide_True by exact Hn. unfold CreateProperty. rewrite Hp.
    now rewrite lookup_insert_eq.
  - intros old Hp. rewrite GetName_lookup. cbn [properties_ ASIBase_new].
    unfold CreateProperty. rewrite Hp.
    destruct (decide (name ≠ "")); now rewrite Hp.
  - repeat split.
Qed.

End ASIBase_more.

(** X18: the five read-only properties the constructor creates (name,
    description, camera name, camera id, demo flag) hold the values they
    were created with in every state reached from the first [Initialize]
    on, whatever is called afterwards and however [Initialize] ended; so the
    Name property is always the string that [GetName] copies.  The Binning
    and Mode properties that [Initialize] adds are never removed; nothing is
    said of their values, which the host and the mode handler set. *)
Theorem device_properties_stable CopyLimitedString sizeof rt :
  wp Initialize (AcquireCamera_new rt) (fun _ s0 =>
    ∀ calls s, runs sizeof s0 calls s ->
      properties_ (AcquireCamera_new rt) ⊆ properties_ s
      ∧ properties_ s !! MM.g_Keyword_Name = Some cameraName
      ∧ GetName CopyLimitedString = CopyLimitedString cameraName
      ∧ properties_ s !! MM.g_Keyword_Description
        = Some "Records simultaneously from two Hammamatsu cameras"
      ∧ properties_ s !! MM.g_Keyword_CameraName = Some "AcquireCamera"
      ∧ properties_ s !! MM.g_Keyword_CameraID = Some "V1.0"
      ∧ properties_ s !! g_prop_Demo = Some "1"
      ∧ is_Some (properties_ s !! MM.g_Keyword_Binning)
      ∧ is_Some (properties_ s !! g_prop_Mode)).
Proof.
  assert (Hnew : ∀ s', properties_ (AcquireCamera_new rt) ⊆ properties_ s' ->
            properties_ s' !! MM.g_Keyword_Name = Some cameraName
            ∧ properties_ s' !! MM.g_Keyword_Description
              = Some "Records simultaneously from two Hammamatsu cameras"
            ∧ properties_ s' !! MM.g_Keyword_CameraName = Some "AcquireCamera"
            ∧ properties_ s' !! MM.g_Keyword_CameraID = Some "V1.0"
            ∧ properties_ s' !! g_prop_Demo = Some "1").
  { intros s' Hsub.
    repeat split; (eapply lookup_weaken; [|exact Hsub]); vm_compute; reflexivity. }
  assert (Hfresh : properties_ (AcquireCamera_new rt) !! MM.g_Keyword_Binning = None
                   ∧ properties_ (AcquireCamera_new rt) !! g_prop_Mode = None)
    by (split; vm_compute; reflexivity).
  destruct Hfresh as (HnoB & HnoM).
  assert (Hi : initialized_ (AcquireCamera_new rt) = false) by reflexivity.
  assert (Hd : properties_ (AcquireCamera_new rt) !! g_prop_Demo = Some "1")
    by (vm_compute; reflexivity).
  destruct (Initialize_cases _ "1" Hi Hd)
    as (s1 & _ & _ & _ & _ & _ & _ & Hp1 & Ha & Hb & Hc & Hd' & He).
  rewrite HnoB in Hp1. cbv zeta in Hp1.
  rewrite lookup_insert_ne, HnoM in Hp1 by discriminate.
  assert (Hs1 : properties_ (AcquireCamera_new rt) ⊆ properties_ s1
                ∧ properties_ s1 !! MM.g_Keyword_Binning = Some "1"
                ∧ properties_ s1 !! g_prop_Mode = Some g_prop_Mode_Multi).
  { rewrite Hp1. split; [|split].
    - etransitivity; [apply insert_subseteq, HnoB|].
      apply insert_subseteq. now rewrite lookup_insert_ne by discriminate.
    - rewrite lookup_insert_ne by discriminate. apply lookup_insert_eq.
    - apply lookup_insert_eq. }
  assert (Hall : ∀ s0, properties_ s1 ⊆ properties_ s0 ->
            ∀ calls s, runs sizeof s0 calls s ->
              properties_ (AcquireCamera_new rt) ⊆ properties_ s
              ∧ properties_ s !! MM.g_Keyword_Name = Some cameraName
              ∧ GetName CopyLimitedString = CopyLimitedString cameraName
              ∧ properties_ s !! MM.g_Keyword_Description
                = Some "Records simultaneously from two Hammamatsu cameras"
              ∧ properties_ s !! MM.g_Keyword_CameraName = Some "AcquireCamera"
              ∧ properties_ s !! MM.g_Keyword_CameraID = Some "V1.0"
              ∧ properties_ s !! g_prop_Demo = Some "1"
              ∧ is_Some (properties_ s !! MM.g_Keyword_Binning)
              ∧ is_Some (properties_ s !! g_prop_Mode)).
  { intros s0 H0 calls s Hr. destruct Hs1 as (Hsub & HB & HM).
    pose proof (runs_properties _ _ _ _ Hr) as Hgrow.
    assert (Hs1s : properties_ s1 ⊆ properties_ s) by (etransitivity; eassumption).
    assert (Hnews : properties_ (AcquireCamera_new rt) ⊆ properties_ s)
      by (etransitivity; eassumption).
    destruct (Hnew s Hnews) as (? & ? & ? & ? & ?).
    repeat split; try assumption; eexists; eapply lookup_weaken; eassumption. }
  destruct (cpx_alive (cpx (AcquireCamera_new rt))).
  2:{ eexists _, _. split; [apply Ha; reflexivity|]. now apply Hall. }
  destruct (get_configuration_status (cpx (AcquireCamera_new rt))).
  2:{ eexists _, _. split; [apply Hb; reflexivity|]. now apply Hall. }
  destruct (select_status (cpx (AcquireCamera_new rt)) DeviceKind_Camera
              "simulated.*random.*").
  2:{ eexists _, _. split; [apply Hc; reflexivity|]. now apply Hall. }
  destruct (select_status (cpx (AcquireCamera_new rt)) DeviceKind_Camera
              "simulated.*sin.*").
  2:{ eexists _, _. split; [apply Hd'; reflexivity|]. now apply Hall. }
  destruct He as (s2 & E2 & _ & _ & _ & _ & _ & _ & Hp2); try reflexivity.
  exists DEVICE_OK, s2. split; [exact E2|]. apply Hall. rewrite Hp2.
  destruct (properties_ s1 !! "LineIntervalUs") eqn:El; [reflexivity|].
  apply insert_subseteq, El.
Qed.

(** ** SnapImage from start to stop *)

(** X19: a whole snap in multi-channel mode.  When the runtime takes the
    configuration and starts, and each stream shows a frame within the
    polling budget, [SnapImage] returns DEVICE_OK after exactly this
    sequence: read the configuration, four selections, configure, start,
    stream 0 polled, copied and released, stream 1 polled, copied and
    released, stop.  Buffer 0 then starts with the payload of stream 0 and
    buffer 1 with the payload of stream 1, and what the streams show later
    is left for the next snap. *)
Theorem SnapImage_multi_delivers sizeof fuel s K0 f0 r0 l0 K1 f1 r1 l1 b0 b1 :
  configure_status (cpx s) = CpxStatus_Ok ->
  start_status (cpx s) = CpxStatus_Ok ->
  multiChannel s = true ->
  (K0 <= fuel)%nat -> (K1 <= fuel)%nat ->
  mapped (cpx s) !! 0 = Some (replicate K0 [] ++ (f0 :: r0) :: l0) ->
  mapped (cpx s) !! 1 = Some (replicate K1 [] ++ (f1 :: r1) :: l1) ->
  imgs s !! 0%nat = Some b0 ->
  imgs s !! 1%nat = Some b1 ->
  Z.of_nat (length (data f0)) = bytes_of_frame f0 - sizeof ->
  Z.of_nat (length (data f1)) = bytes_of_frame f1 - sizeof ->
  (length (data f0) <= length (GetPixels b0))%nat ->
  (length (data f1) <= length (GetPixels b1))%nat ->
  Z.of_nat (length (GetPixels b0)) < 2 ^ 64 ->
  Z.of_nat (length (GetPixels b1)) < 2 ^ 64 ->
  ∃ props s',
    SnapImage sizeof fuel s = Returns DEVICE_OK s'
    ∧ trace s'
      = trace s ++ snap_setup_events ++ [EvConfigure props; EvStart]
        ++ stream_events 0 K0 (EvMemcpy 0 0 (data f0))
             (to_uint32 (consumed_bytes (f0 :: r0)))
        ++ stream_events 1 K1 (EvMemcpy 1 0 (data f1))
             (to_uint32 (consumed_bytes (f1 :: r1)))
        ++ [EvStop]
    ∧ imgs s'
      = <[1%nat := SetPixels (data f1 ++ drop (length (data f1)) (GetPixels b1)) b1]>
          (<[0%nat := SetPixels (data f0 ++ drop (length (data f0)) (GetPixels b0)) b0]>
             (imgs s))
    ∧ mapped (cpx s') !! 0 = Some l0
    ∧ mapped (cpx s') !! 1 = Some l1
    ∧ configuration (cpx s') = props.
Proof.
  intros Hc Hst Hm Hf0 Hf1 Hs0 Hs1 Hb0 Hb1 Hl0 Hl1 Hfit0 Hfit1 Hsz0 Hsz1.
  pose proof (SnapImage_pushes sizeof fuel s b0 Hb0) as E.
  cbv zeta in E. rewrite Hc, Hst in E.
  match type of E with
  | context [EvConfigure ?p] => set (props := p) in *
  end.
  clearbody props.
  match type of E with
  | _ = match readFrames _ _ _ ?x with _ => _ end => set (s1 := x) in *
  end.
  rewrite (readFrames_multi_Returns sizeof fuel props s1 K0 f0 r0 l0 K1 f1 r1 l1 b0 b1)
    in E; try assumption; try lia.
  exists props. eexists. split; [exact E|].
  rewrite <- Hl0, <- Hl1, !Nat2Z.id, !firstn_all.
  subst s1.
  cbn [imgs trace cpx mapped configuration after_unmap after_memcpy after_poll
         set_trace set_imgs set_cpx set_mapped set_configuration].
  change (Z.to_nat 0) with 0%nat. change (Z.to_nat 1) with 1%nat.
  rewrite !overlay_0.
  split.
  { unfold stream_events.
    repeat (rewrite <- app_assoc || rewrite <- app_comm_cons). reflexivity. }
  split; [reflexivity|].
  split; [rewrite lookup_insert_ne by discriminate; apply lookup_insert_eq|].
  split; [apply lookup_insert_eq | reflexivity].
Qed.

(** *** A stream that never delivers, seen from SnapImage *)

Lemma readFrames_starved sizeof fuel props n s :
  mapped (cpx s) !! 0 = None
  ∨ mapped (cpx s) !! 0 = Some (replicate n []) ->
  ∃ s',
    readFrames sizeof fuel props s = Pending s'
    ∧ trace s' = trace s ++ EvMapRead 0 :: poll_events fuel 0 5
    ∧ imgs s' = imgs s.
Proof.
  intros Hs. unfold readFrames.
  destruct (cpx_map_read_starved 0 n s Hs) as (s1 & n1 & E1 & Ht1 & Hi1 & _ & Hs1).
  erewrite bind_Returns by exact E1.
  destruct (poll_starved 0 5 fuel n1 s1 Hs1) as (s' & E & Ht & Hi & _).
  erewrite bind_Pending by exact E.
  exists s'. split; [reflexivity|].
  rewrite Ht, Ht1, Hi, Hi1, <- app_assoc. auto.
Qed.

(** X20: a snap that waits for a frame does not stop the frame source.
    When the runtime has taken the configuration and started, and stream 0
    has nothing to show, [SnapImage] is still polling when its budget of
    iterations is used up, whatever the budget: the source has been started,
    [cpx_stop] has not been called, no buffer has been written. *)
Theorem SnapImage_waits_without_stop sizeof fuel n s b :
  imgs s !! 0%nat = Some b ->
  configure_status (cpx s) = CpxStatus_Ok ->
  start_status (cpx s) = CpxStatus_Ok ->
  mapped (cpx s) !! 0 = None
  ∨ mapped (cpx s) !! 0 = Some (replicate n []) ->
  ∃ props s',
    SnapImage sizeof fuel s = Pending s'
    ∧ trace s'
      = trace s ++ snap_setup_events ++ [EvConfigure props; EvStart]
        ++ EvMapRead 0 :: poll_events fuel 0 5
    ∧ imgs s' = imgs s.
Proof.
  intros Hb Hc Hst Hs.
  pose proof (SnapImage_pushes sizeof fuel s b Hb) as E.
  cbv zeta in E. rewrite Hc, Hst in E.
  match type of E with
  | context [EvConfigure ?p] => set (props := p) in *
  end.
  clearbody props.
  match type of E with
  | _ = match readFrames _ _ _ ?x with _ => _ end => set (s1 := x) in *
  end.
  destruct (readFrames_starved sizeof fuel props n s1) as (s' & Er & Ht & Hi);
    [exact Hs|].
  rewrite Er in E. exists props, s'. split; [exact E|].
  rewrite Ht, Hi. subst s1. cbn [trace imgs set_trace set_cpx].
  split; [|reflexivity].
  repeat (rewrite <- app_assoc || rewrite <- app_comm_cons). reflexivity.
Qed.

(** X21: the composite read is not all-or-nothing.  When stream 0 delivers
    a frame and stream 1 has nothing to show, [readFrames] never returns,
    yet the frame of stream 0 is gone from the stream: it has been copied
    into buffer 0 and released before stream 1 was polled at all. *)
Theorem readFrames_first_frame_consumed sizeof fuel props s K0 f0 r0 l0 n b0 :
  (K0 <= fuel)%nat ->
  mapped (cpx s) !! 0 = Some (replicate K0 [] ++ (f0 :: r0) :: l0) ->
  mapped (cpx s) !! 1 = None ∨ mapped (cpx s) !! 1 = Some (replicate n []) ->
  imgs s !! 0%nat = Some b0 ->
  Z.of_nat (length (data f0)) = bytes_of_frame f0 - sizeof ->
  (length (data f0) <= length (GetPixels b0))%nat ->
  Z.of_nat (length (GetPixels b0)) < 2 ^ 64 ->
  ∃ s',
    readFrames sizeof fuel props s = Pending s'
    ∧ imgs s'
      = <[0%nat := SetPixels (data f0 ++ drop (length (data f0)) (GetPixels b0)) b0]>
          (imgs s)
    ∧ mapped (cpx s') !! 0 = Some l0
    ∧ trace s'
      = trace s
        ++ stream_events 0 K0 (EvMemcpy 0 0 (data f0))
             (to_uint32 (consumed_bytes (f0 :: r0)))
        ++ EvMapRead 1 :: poll_events fuel 1 5.
Proof.
  intros Hf0 Hs0 Hs1 Hb0 Hl0 Hfit0 Hsz0.
  unfold readFrames. cbv zeta.
  rewrite readFrames_first_stream with (K0 := K0) (f0 := f0) (r0 := r0) (l0 := l0) (b0 := b0);
    try assumption; try lia.
  rewrite <- Hl0, Nat2Z.id, firstn_all.
  set (s1 := after_unmap 0 _ _).
  assert (Hs1' : mapped (cpx s1) !! 1 = None
                 ∨ mapped (cpx s1) !! 1 = Some (replicate n [])).
  { subst s1. cbn. rewrite lookup_insert_ne by discriminate. exact Hs1. }
  assert (Hl : mapped (cpx s1) !! 0 = Some l0)
    by (subst s1; cbn; apply lookup_insert_eq).
  assert (Hi1 : imgs s1
                = <[0%nat := SetPixels (data f0 ++ drop (length (data f0))
                                                      (GetPixels b0)) b0]> (imgs s))
    by (subst s1; cbn [imgs after_unmap after_memcpy after_poll set_trace set_imgs
                         set_cpx]; now rewrite overlay_0).
  assert (Ht1 : trace s1
                = trace s ++ stream_events 0 K0 (EvMemcpy 0 0 (data f0))
                               (to_uint32 (consumed_bytes (f0 :: r0)))).
  { subst s1. cbn [trace after_unmap after_memcpy after_poll set_trace set_imgs
                     set_cpx]. unfold stream_events.
    repeat (rewrite <- app_assoc || rewrite <- app_comm_cons). reflexivity. }
  clearbody s1.
  destruct (cpx_map_read_starved 1 n s1 Hs1')
    as (s2 & n2 & E2 & Ht2 & Hi2 & Ho2 & Hs2).
  erewrite bind_Returns by exact E2.
  destruct (poll_starved 1 5 fuel n2 s2 Hs2) as (s' & E & Ht & Hi & Ho).
  erewrite bind_Pending by exact E.
  exists s'. split; [reflexivity|].
  split; [now rewrite Hi, Hi2|].
  split; [rewrite Ho, Ho2 by discriminate; exact Hl|].
  rewrite Ht, Ht2, Ht1.
  repeat (rewrite <- app_assoc || rewrite <- app_comm_cons). reflexivity.
Qed.

(** ** Channels by mode *)

(** X22: from the first [Initialize] on, whatever is called afterwards,
    the channels that exist are those of the current mode.  Channel 0 is named Camera-1; channel 1 is named
    Camera-2 in multi-channel mode and does not exist in single-channel
    mode; every higher channel is rejected with
    DEVICE_NONEXISTENT_CHANNEL, the name left untouched, and
    [GetImageBuffer] answers the null pointer for every channel at or past
    [GetNumberOfChannels]. *)
Theorem channels_by_mode CopyLimitedString sizeof rt :
  wp Initialize (AcquireCamera_new rt) (fun _ s0 =>
    ∀ calls s c name, runs sizeof s0 calls s -> 0 <= c < 2 ^ 32 ->
      GetChannelName CopyLimitedString c name s
      = (if decide (c = 0)
         then Returns (DEVICE_OK, CopyLimitedString "Camera-1") s
         else if decide (c = 1 ∧ multiChannel s = true)
         then Returns (DEVICE_OK, CopyLimitedString "Camera-2") s
         else Returns (DEVICE_NONEXISTENT_CHANNEL, name) s)
      ∧ (GetNumberOfChannels s <= c -> GetImageBuffer c s = Returns None s)).
Proof.
  eapply wp_conseq; [apply Initialize_new|].
  intros _ s0 (Hd0 & Hm0 & _ & Hi0 & Hp0) calls s c name Hr Hc.
  assert (demo_camera s) as (_ & _ & Hl).
  { eapply runs_demo; [exact Hr|].
    repeat split; try assumption.
    unfold buffers_match_mode. now rewrite Hm0, Hi0. }
  unfold buffers_match_mode, multi_layout, single_layout in Hl.
  assert (Hn : length (imgs s) = if multiChannel s then 2%nat else 1%nat).
  { apply (f_equal length) in Hl. rewrite length_map in Hl.
    rewrite Hl. now destruct (multiChannel s). }
  unfold GetChannelName, GetImageBuffer, GetNumberOfChannels.
  rewrite !(bind_Returns get _ s s s) by reflexivity.
  rewrite Hn.
  destruct (multiChannel s); cbn [length].
  - change (to_size_t (Z.of_nat 2 - 1)) with 1.
    change (to_uint32 (Z.of_nat 2)) with 2.
    split; [|intros H; now rewrite decide_True by lia].
    repeat case_decide; destruct_and?; try reflexivity; try lia;
      try (exfalso; match goal with H : ¬ (_ ∧ _) |- _ => apply H end;
           split; [lia | reflexivity]).
  - change (to_size_t (Z.of_nat 1 - 1)) with 0.
    change (to_uint32 (Z.of_nat 1)) with 1.
    split; [|intros H; now rewrite decide_True by lia].
    repeat case_decide; destruct_and?; try reflexivity; try lia; try discriminate.
Qed.

(** X23: a whole snap in single-channel mode.  When the runtime takes the
    configuration and starts, and each stream shows within the polling
    budget a frame whose payload is half of buffer 0, [SnapImage] returns
    DEVICE_OK with the frame source stopped and buffer 0 holding the
    payload of stream 0 followed by the payload of stream 1.  Both streams
    had been configured with the width and height of the whole buffer. *)
Theorem SnapImage_single_stacks sizeof fuel s K0 f0 r0 l0 K1 f1 r1 l1 b :
  configure_status (cpx s) = CpxStatus_Ok ->
  start_status (cpx s) = CpxStatus_Ok ->
  multiChannel s = false ->
  (K0 <= fuel)%nat -> (K1 <= fuel)%nat ->
  mapped (cpx s) !! 0 = Some (replicate K0 [] ++ (f0 :: r0) :: l0) ->
  mapped (cpx s) !! 1 = Some (replicate K1 [] ++ (f1 :: r1) :: l1) ->
  imgs s !! 0%nat = Some b ->
  0 <= Width b < 2 ^ 32 -> 0 <= Height b < 2 ^ 32 -> 0 <= Depth b < 2 ^ 32 ->
  Z.of_nat (length (GetPixels b)) = Width b * Height b * Depth b ->
  Width b * Height b * Depth b < 2 ^ 64 ->
  let half := Width b * Height b * Depth b / 2 in
  Width b * Height b * Depth b = 2 * half ->
  Z.of_nat (length (data f0)) = half ->
  Z.of_nat (length (data f1)) = half ->
  bytes_of_frame f0 = sizeof + half ->
  bytes_of_frame f1 = sizeof + half ->
  ∃ props s' b',
    SnapImage sizeof fuel s = Returns DEVICE_OK s'
    ∧ imgs s' !! 0%nat = Some b'
    ∧ dims b' = dims b
    ∧ GetPixels b' = data f0 ++ data f1
    ∧ trace s'
      = trace s ++ snap_setup_events ++ [EvConfigure props; EvStart]
        ++ stream_events 0 K0 (EvMemcpy 0 0 (data f0))
             (to_uint32 (consumed_bytes (f0 :: r0)))
        ++ stream_events 1 K1 (EvMemcpy 0 half (data f1))
             (to_uint32 (consumed_bytes (f1 :: r1)))
        ++ [EvStop]
    ∧ shape (settings (video_0 props)) = (Width b, Height b)
    ∧ shape (settings (video_1 props)) = (Width b, Height b).
Proof.
  intros Hc Hst Hm Hf0 Hf1 Hs0 Hs1 Hb Hw Hh Hd Hlen Hsz half Heven Hl0 Hl1 Hb0 Hb1.
  assert (Hhalf : 0 <= half) by (apply Z.div_pos; lia).
  assert (Hoff : to_size_t (to_size_t (Width b * Height b) * Depth b) / 2 = half).
  { apply stacked_offset; lia. }
  pose proof (SnapImage_pushes sizeof fuel s b Hb) as E.
  cbv zeta in E. rewrite Hc, Hst in E.
  match type of E with
  | context [EvConfigure ?p] => set (props := p) in *
  end.
  assert (Hshape : shape (settings (video_0 props)) = (Width b, Height b)
                   ∧ shape (settings (video_1 props)) = (Width b, Height b))
    by (split; reflexivity).
  clearbody props.
  match type of E with
  | _ = match readFrames _ _ _ ?x with _ => _ end => set (s1 := x) in *
  end.
  rewrite (readFrames_single_Returns sizeof fuel props s1 K0 f0 r0 l0 K1 f1 r1 l1 b)
    in E; try assumption; try lia.
  exists props. eexists _, _. split; [exact E|].
  assert (E0 : bytes_of_frame f0 - sizeof = Z.of_nat (length (data f0))) by lia.
  assert (E1 : bytes_of_frame f1 - sizeof = Z.of_nat (length (data f1))) by lia.
  rewrite Hoff, E0, E1, !Nat2Z.id, !firstn_all.
  subst s1.
  cbn [imgs trace after_unmap after_memcpy after_poll set_trace set_imgs set_cpx].
  rewrite list_insert_insert_eq.
  split; [apply list_lookup_insert_eq; apply lookup_lt_Some in Hb; exact Hb|].
  cbn [GetPixels SetPixels].
  split; [reflexivity|]. split.
  { assert (Eh : Z.to_nat half = length (data f0)) by lia.
    rewrite Eh. apply overlay_stacked. lia. }
  split; [|exact Hshape].
  unfold stream_events.
  repeat (rewrite <- app_assoc || rewrite <- app_comm_cons). reflexivity.
Qed.

(** ** Exposure across a snap *)

(** [SnapImage] leaves the exposure time the runtime holds as it was,
    however it ends. *)
Lemma SnapImage_keeps_exposure sizeof fuel s b :
  imgs s !! 0%nat = Some b ->
  get_configuration_status (cpx s) = CpxStatus_Ok ->
  get_configuration_status (cpx (state_of (SnapImage sizeof fuel s))) = CpxStatus_Ok
  ∧ exposure_time_us
      (settings (video_0 (configuration (cpx (state_of (SnapImage sizeof fuel s))))))
    = exposure_time_us (settings (video_0 (configuration (cpx s)))).
Proof.
  intros Hb Hg. pose proof (SnapImage_pushes sizeof fuel s b Hb) as E.
  cbv zeta in E. rewrite Hg in E.
  match type of E with
  | context [EvConfigure ?p] => set (props := p) in *
  end.
  assert (Hp : exposure_time_us (settings (video_0 props))
               = exposure_time_us (settings (video_0 (configuration (cpx s)))))
    by reflexivity.
  clearbody props. rewrite E. clear E.
  destruct (configure_status (cpx s)); [|now split].
  destruct (start_status (cpx s)); [|now split].
  match goal with
  | |- context [readFrames _ _ _ ?x] => set (s1 := x)
  end.
  pose proof (maintains_readFrames
                (fun x => get_configuration_status (cpx x) = CpxStatus_Ok
                          ∧ configuration (cpx x) = props)) as Hk.
  specialize (Hk (fun e x H => H) (fun f x H => H) (fun i b0 px x H _ _ => H)
                sizeof fuel props s1 (conj Hg eq_refl)).
  destruct (readFrames sizeof fuel props s1) as [r s2|what s2|s2|s2];
    cbn [state_of cpx set_trace] in *; destruct Hk as (Hk1 & Hk2);
    rewrite Hk2; split; assumption.
Qed.

(** X24: the exposure set is the exposure read after a snap.  For an
    exposure [e] whose microsecond count needs no rounding, [SetExposure e]
    followed by a [SnapImage], however that ends, leaves a runtime from
    which [GetExposure] reads [e] again: the snap pushes a new
    configuration but carries the exposure time over. *)
Theorem exposure_survives_snap sizeof fuel (e : spec_float) s b :
  imgs s !! 0%nat = Some b ->
  get_configuration_status (cpx s) = CpxStatus_Ok ->
  configure_status (cpx s) = CpxStatus_Ok ->
  valid_binary 53 1024 e = true ->
  exact_under_scaling e ->
  wp (SetExposure e) s (fun _ s1 =>
    wp GetExposure (state_of (SnapImage sizeof fuel s1)) (fun r _ => r = e)).
Proof.
  intros Hb Hg Hc Hvalid Hexact.
  eexists tt, _. split; [apply SetExposure_Returns|].
  rewrite Hg, Hc. cbv zeta.
  set (s1 := set_cpx _ _).
  destruct (SnapImage_keeps_exposure sizeof fuel s1 b) as (Hg2 & He2);
    [exact Hb | exact Hg |].
  set (s2 := state_of (SnapImage sizeof fuel s1)) in *.
  pose proof (GetExposure_Returns s2) as Er. rewrite Hg2 in Er.
  eexists _, _. split; [exact Er|]. cbv beta.
  rewrite He2. subst s1.
  cbn [cpx set_cpx configuration set_configuration video_0 settings with_exposure
         exposure_time_us].
  apply exposure_scaling_round_trip; assumption.
Qed.

(** ** Instances *)

Lemma readFrame_copy_and_release_witness :
  ∃ s', readFrame 64 3 0 CpxProperties_zero camera_multi_small = Returns 0 s'
        ∧ trace s'
          = EvMapRead 0 :: poll_events 3 0 10
            ++ [EvMemcpy 0 0 [x01; x02]; EvUnmapRead 0 132].
Proof.
  destruct (readFrame_copy_and_release 64 3 0 CpxProperties_zero camera_multi_small
              3 frame_a [frame_b] [] (Resize 2 2 1 ImgBuffer_default))
    as (s' & E & _ & _ & Ht & _).
  - lia.
  - lia.
  - reflexivity.
  - repeat constructor; vm_compute; discriminate.
  - reflexivity.
  - lia.
  - reflexivity.
  - vm_compute; discriminate.
  - vm_compute; discriminate.
  - exists s'. split; [exact E | exact Ht].
Defined.

Lemma readFrame_after_empty_polls_witness :
  ∃ s', readFrame 64 3 0 CpxProperties_zero camera_one_frame = Returns 0 s'
        ∧ imgs s' !! 0%nat
          = Some (SetPixels [x01; x02; x00; x00] (Resize 2 2 1 ImgBuffer_default))
        ∧ trace s'
          = EvMapRead 0 :: poll_events 3 0 10
            ++ [EvMemcpy 0 0 [x01; x02]; EvUnmapRead 0 66].
Proof.
  destruct (readFrame_after_empty_polls 64 3 3 0 CpxProperties_zero camera_one_frame
              frame_a [] (Resize 2 2 1 ImgBuffer_default))
    as (s' & E & Hi & _ & Ht).
  - lia.
  - lia.
  - reflexivity.
  - reflexivity.
  - reflexivity.
  - lia.
  - reflexivity.
  - vm_compute; lia.
  - exists s'. split; [exact E|]. split; [rewrite Hi; reflexivity | exact Ht].
Defined.

Lemma readFrames_single_stacked_witness :
  ∃ s' b',
    readFrames 64 3 CpxProperties_zero camera_single_small = Returns 0 s'
    ∧ imgs s' !! 0%nat = Some b'
    ∧ take 2 (GetPixels b') = [x01; x02]
    ∧ drop 2 (GetPixels b') = [x03; x04].
Proof.
  destruct (readFrames_single_stacked 64 3 CpxProperties_zero camera_single_small
              3 frame_a [frame_b] [] 1 frame_b [] []
              (Resize 2 2 1 ImgBuffer_default))
    as (s' & b' & E & Hi & _ & _ & _ & H).
  - reflexivity.
  - lia.
  - lia.
  - reflexivity.
  - reflexivity.
  - reflexivity.
  - vm_compute; split; [discriminate | reflexivity].
  - vm_compute; split; [discriminate | reflexivity].
  - vm_compute; split; [discriminate | reflexivity].
  - reflexivity.
  - reflexivity.
  - reflexivity.
  - reflexivity.
  - vm_compute; discriminate.
  - vm_compute; discriminate.
  - destruct H as (H0 & H1); [reflexivity | reflexivity | reflexivity |].
    exists s', b'. split; [exact E|]. split; [exact Hi|]. split; [exact H0 | exact H1].
Defined.

Lemma SnapImage_outcomes_witness :
  (∃ s', SnapImage 64 3 camera_configure_fails = Returns ERR_CPX_CONFIURE_FAILED s')
  ∧ (∃ s', SnapImage 64 3 camera_start_fails_small = Throws "cpx_start failed" s').
Proof.
  split.
  - destruct (SnapImage_outcomes 64 3 camera_configure_fails
                (Resize 2 2 1 ImgBuffer_default))
      as (props & H & _); [reflexivity|].
    destruct (H eq_refl) as (s' & E & _). exists s'. exact E.
  - destruct (SnapImage_outcomes 64 3 camera_start_fails_small
                (Resize 2 2 1 ImgBuffer_default))
      as (props & _ & H & _); [reflexivity|].
    destruct (H eq_refl eq_refl) as (s' & E & _). exists s'. exact E.
Defined.

Lemma channel_accessors_witness :
  GetImageBuffer 2 camera_multi_small = Returns None camera_multi_small
  ∧ GetChannelName copy_1023 2 "" camera_multi_small
    = Returns (DEVICE_NONEXISTENT_CHANNEL, "") camera_multi_small.
Proof.
  apply (channel_accessors copy_1023 camera_multi_small 2 "").
  - vm_compute; lia.
  - reflexivity.
  - vm_compute; split; [discriminate | reflexivity].
  - vm_compute; discriminate.
Defined.

Lemma ASIBase_GetName_witness :
  ASITiger.GetName copy_1023
    (ASITiger.ASIBase_new (fun _ => "") (fun m => m) ∅ [] "")
  = Some "Undefined".
Proof.
  apply (ASIBase_GetName copy_1023 (fun _ => "") (fun m => m)
           (ASITiger.ASIBase_new (fun _ => "") (fun m => m) ∅ [] "") ∅ []).
  reflexivity.
Defined.

Lemma exposure_round_trip_witness :
  wp (SetExposure (f64_of_Z 5)) camera_multi_small (fun _ s1 =>
    exposure_time_us (settings (video_0 (configuration (cpx s1))))
    = S754_finite false 10240000 (-11)
    ∧ wp GetExposure s1 (fun r _ => r = f64_of_Z 5)).
Proof.
  apply (exposure_round_trip (f64_of_Z 5) camera_multi_small).
  - reflexivity.
  - reflexivity.
  - reflexivity.
  - exists 10240000%positive, (-11). split; reflexivity.
Defined.

Lemma Initialize_outcome_witness :
  ∃ code s', Initialize camera_new_idle = Returns code s'
             ∧ multiChannel s' = true
             ∧ initialized_ s' = bool_decide (code = DEVICE_OK).
Proof.
  destruct (Initialize_outcome camera_new_idle "1")
    as (code & s' & E & _ & _ & _ & Hi & Hm & _).
  - reflexivity.
  - vm_compute; reflexivity.
  - exists code, s'. split; [exact E|]. split; [exact Hm | exact Hi].
Defined.

Lemma Initialize_again_witness :
  Initialize camera_idle = Returns DEVICE_OK camera_idle.
Proof. apply (Initialize_again camera_idle camera_idle). reflexivity. Defined.

Lemma Shutdown_then_Initialize_witness :
  ∃ s1, Shutdown true CpxStatus_Error camera_new_idle = Returns DEVICE_OK s1
        ∧ ∃ code s2, Initialize s1 = Returns code s2 ∧ multiChannel s2 = true.
Proof.
  destruct (Shutdown_then_Initialize true CpxStatus_Error camera_new_idle)
    as (s1 & E & _ & _ & _ & _ & code & s2 & E2 & Hm & _).
  - vm_compute; reflexivity.
  - exists s1. split; [exact E|]. exists code, s2. split; [exact E2 | exact Hm].
Defined.

Lemma no_buffers_no_bounds_witness :
  GetImageBuffer 3 camera_new_idle = Undefined camera_new_idle
  ∧ GetChannelName copy_1023 3 "" camera_new_idle
    = Returns (DEVICE_OK, copy_1023 "Camera-2") camera_new_idle.
Proof.
  destruct (no_buffers_no_bounds copy_1023 64 3 camera_new_idle 3 "")
    as (_ & H1 & H2 & _).
  - reflexivity.
  - lia.
  - split; [exact H1 | exact H2].
Defined.

Lemma SetExposure_only_exposure_witness :
  wp (SetExposure (f64_of_Z 10)) camera_idle (fun _ s' =>
    exposure_time_us (settings (video_1 (configuration (cpx s'))))
    = exposure_time_us (settings (video_0 (configuration (cpx s'))))
    ∧ imgs s' = imgs camera_idle).
Proof.
  destruct (SetExposure_only_exposure (f64_of_Z 10) camera_idle)
    as (u & s' & E & _ & H1 & _ & H2 & _).
  - reflexivity.
  - reflexivity.
  - exists u, s'. split; [exact E|]. split; [exact H1 | exact H2].
Defined.

Lemma SnapImage_configuration_witness :
  ∃ props later,
    trace (state_of (SnapImage 64 3 camera_multi_small))
    = snap_setup_events ++ EvConfigure props :: later
    ∧ shape (settings (video_1 props)) = (2, 2).
Proof.
  destruct (SnapImage_configuration 64 3 camera_multi_small
              (Resize 2 2 1 ImgBuffer_default))
    as (props & later & Ht & Hf & _).
  - reflexivity.
  - exists props, later. split; [exact Ht|].
    destruct (Hf video_1) as (_ & _ & Hs & _); [now right | exact Hs].
Defined.

Lemma readFrames_multi_separate_witness :
  ∃ s', readFrames 64 3 CpxProperties_zero camera_multi_small = Returns 0 s'
        ∧ imgs s'
          = [SetPixels [x01; x02; x00; x00] (Resize 2 2 1 ImgBuffer_default);
             SetPixels [x03; x04; x00; x00] (Resize 2 2 1 ImgBuffer_default)].
Proof.
  destruct (readFrames_multi_separate 64 3 CpxProperties_zero camera_multi_small
              3 frame_a [frame_b] [] 1 frame_b [] []
              (Resize 2 2 1 ImgBuffer_default) (Resize 2 2 1 ImgBuffer_default))
    as (s' & E & Hi & _).
  - reflexivity.
  - lia.
  - lia.
  - reflexivity.
  - reflexivity.
  - reflexivity.
  - reflexivity.
  - reflexivity.
  - reflexivity.
  - vm_compute; lia.
  - vm_compute; lia.
  - vm_compute; reflexivity.
  - vm_compute; reflexivity.
  - exists s'. split; [exact E|]. rewrite Hi. reflexivity.
Defined.

Lemma readFrame_never_gives_up_witness :
  ∃ s', readFrame 64 5 1 CpxProperties_zero camera_idle = Pending s'
        ∧ trace s' = EvMapRead 1 :: poll_events 5 1 10.
Proof.
  destruct (readFrame_never_gives_up 64 5 1 CpxProperties_zero 0 camera_idle)
    as (s' & E & Ht & _).
  - left. reflexivity.
  - exists s'. split; [exact E | exact Ht].
Defined.

Lemma readFrame_unchecked_copy_witness :
  ∃ s', readFrame 64 3 1 CpxProperties_zero camera_single_small = Undefined s'.
Proof.
  eexists.
  apply (readFrame_unchecked_copy 64 3 1 CpxProperties_zero camera_single_small
           1 frame_b [] []).
  - lia.
  - reflexivity.
  - lia.
  - exact I.
Defined.

Lemma readFrame_release_wraps_witness :
  ∃ s', readFrame 64 3 0 CpxProperties_zero camera_huge_view = Returns 0 s'
        ∧ trace s'
          = [EvMapRead 0; EvMemcpy 0 0 [x01; x02]; EvUnmapRead 0 66].
Proof.
  destruct (readFrame_release_wraps 64 3 0 CpxProperties_zero camera_huge_view
              0 frame_a [frame_huge] [] (Resize 2 2 1 ImgBuffer_default))
    as (s' & E & Ht & _).
  - lia.
  - lia.
  - reflexivity.
  - repeat constructor; vm_compute; discriminate.
  - reflexivity.
  - lia.
  - reflexivity.
  - vm_compute; discriminate.
  - vm_compute; discriminate.
  - exists s'. split; [exact E | exact Ht].
Defined.

Lemma SnapImage_multi_delivers_witness :
  ∃ s', SnapImage 64 3 camera_multi_small = Returns DEVICE_OK s'
        ∧ imgs s'
          = [SetPixels [x01; x02; x00; x00] (Resize 2 2 1 ImgBuffer_default);
             SetPixels [x03; x04; x00; x00] (Resize 2 2 1 ImgBuffer_default)].
Proof.
  destruct (SnapImage_multi_delivers 64 3 camera_multi_small
              3 frame_a [frame_b] [] 1 frame_b [] []
              (Resize 2 2 1 ImgBuffer_default) (Resize 2 2 1 ImgBuffer_default))
    as (props & s' & E & _ & Hi & _).
  - reflexivity.
  - reflexivity.
  - reflexivity.
  - lia.
  - lia.
  - reflexivity.
  - reflexivity.
  - reflexivity.
  - reflexivity.
  - reflexivity.
  - reflexivity.
  - vm_compute; lia.
  - vm_compute; lia.
  - vm_compute; reflexivity.
  - vm_compute; reflexivity.
  - exists s'. split; [exact E|]. rewrite Hi. reflexivity.
Defined.

Lemma SnapImage_waits_without_stop_witness :
  ∃ props s',
    SnapImage 64 5 camera_idle = Pending s'
    ∧ trace s'
      = snap_setup_events ++ [EvConfigure props; EvStart]
        ++ EvMapRead 0 :: poll_events 5 0 5.
Proof.
  destruct (SnapImage_waits_without_stop 64 5 0 camera_idle
              (Resize 2 2 1 ImgBuffer_default))
    as (props & s' & E & Ht & _).
  - reflexivity.
  - reflexivity.
  - reflexivity.
  - left. reflexivity.
  - exists props, s'. split; [exact E | exact Ht].
Defined.

Lemma readFrames_first_frame_consumed_witness :
  ∃ s', readFrames 64 3 CpxProperties_zero camera_one_frame = Pending s'
        ∧ imgs s'
          = [SetPixels [x01; x02; x00; x00] (Resize 2 2 1 ImgBuffer_default);
             Resize 2 2 1 ImgBuffer_default].
Proof.
  destruct (readFrames_first_frame_consumed 64 3 CpxProperties_zero camera_one_frame
              3 frame_a [] [] 0 (Resize 2 2 1 ImgBuffer_default))
    as (s' & E & Hi & _).
  - lia.
  - reflexivity.
  - left. reflexivity.
  - reflexivity.
  - reflexivity.
  - vm_compute; lia.
  - vm_compute; reflexivity.
  - exists s'. split; [exact E|]. rewrite Hi. reflexivity.
Defined.

Lemma SnapImage_single_stacks_witness :
  ∃ s' b', SnapImage 64 3 camera_single_small = Returns DEVICE_OK s'
           ∧ imgs s' !! 0%nat = Some b'
           ∧ GetPixels b' = [x01; x02; x03; x04].
Proof.
  destruct (SnapImage_single_stacks 64 3 camera_single_small
              3 frame_a [frame_b] [] 1 frame_b [] []
              (Resize 2 2 1 ImgBuffer_default))
    as (props & s' & b' & E & Hi & _ & Hp & _).
  - reflexivity.
  - reflexivity.
  - reflexivity.
  - lia.
  - lia.
  - reflexivity.
  - reflexivity.
  - reflexivity.
  - vm_compute; split; [discriminate | reflexivity].
  - vm_compute; split; [discriminate | reflexivity].
  - vm_compute; split; [discriminate | reflexivity].
  - reflexivity.
  - reflexivity.
  - reflexivity.
  - reflexivity.
  - reflexivity.
  - reflexivity.
  - reflexivity.
  - exists s', b'. split; [exact E|]. split; [exact Hi | exact Hp].
Defined.

Lemma exposure_survives_snap_witness :
  wp (SetExposure (f64_of_Z 5)) camera_multi_small (fun _ s1 =>
    wp GetExposure (state_of (SnapImage 64 3 s1)) (fun r _ => r = f64_of_Z 5)).
Proof.
  apply (exposure_survives_snap 64 3 (f64_of_Z 5) camera_multi_small
           (Resize 2 2 1 ImgBuffer_default)).
  - reflexivity.
  - reflexivity.
  - reflexivity.
  - reflexivity.
  - exists 10240000%positive, (-11). split; reflexivity.
Defined.
